(** * Scattergun: the entropy acquisition loops of seventool and quantistool

    A shallow embedding of [Scattergun/src/seventool.c] and
    [Scattergun/src/quantistool.c].  Each [main] is split the way the C text
    is: the option switch, the set-up inside [do { ... } while (0)], and the
    work loop.  The work loop never has to terminate, and the signal handler
    may run between any two statements, so the loop is a labelled transition
    system: one label per statement, [step] executes the statement at the
    current label, [handler] is the C handler, and a schedule interleaves
    the two.  Everything the operating system, the C library, the processor
    and the Quantis library decide is read from a [world] of oracles. *)

From Stdlib Require Import Strings.String Strings.Byte.
From Stdlib Require Import ZArith List Lia Bool.
Import ListNotations.
Open Scope Z_scope.

(** ** What both tools share *)

(** <signal.h> and <errno.h> on Linux. *)
Definition SIGHUP : Z := 1.
Definition SIGINT : Z := 2.
Definition SIGPIPE : Z := 13.
Definition EINTR : Z := 4.

(** [size_t] is 64 bits wide on the hosts the tools are built for; [++] and
    [+=] on the counters wrap around. *)
Definition SIZE_BITS : Z := 64.
Definition wrap (x : Z) : Z := x mod 2 ^ SIZE_BITS.

(** A schedule: the program executes its next statement, or a signal is
    delivered and the handler runs to completion. *)
Inductive action : Type :=
| Tick
| Deliver (signum : Z).

Definition ticks (n : nat) : list action := repeat Tick n.
Definition delivers (sigs : list Z) : list action := map Deliver sigs.

(** The bytes of one object in memory, as [fwrite] sees them. *)
Definition byte_of_Z (z : Z) : byte :=
  match Byte.of_N (Z.to_N (z mod 256)) with
  | Some b => b
  | None => x00
  end.

(** A [uint32_t] in memory on x86 (little endian). *)
Definition bytes_of_word (v : Z) : list byte :=
  map (fun i => byte_of_Z (Z.shiftr v (8 * i))) [0; 1; 2; 3].

(** What the signals of [sigs], delivered in that order, leave in [done]
    and in [report]. *)
Definition done_after (sigs : list Z) (d : Z) : Z :=
  fold_left (fun d signum =>
    if signum =? SIGPIPE then 1 else if signum =? SIGINT then 1 else d) sigs d.

Definition report_after (sigs : list Z) (r : Z) : Z :=
  fold_left (fun r signum =>
    if signum =? SIGPIPE then r else if signum =? SIGINT then r
    else if signum =? SIGHUP then 1 else r) sigs r.

(** The statements the program executes in a schedule. *)
Definition executed (sch : list action) : nat :=
  length (filter (fun a => match a with Tick => true | _ => false end) sch).

(** No signal of the schedule asks for shutdown. *)
Definition no_shutdown (sch : list action) : Prop :=
  forall signum, In (Deliver signum) sch -> signum <> SIGPIPE /\ signum <> SIGINT.

(** ** seventool *)
Module Seven.

Inductive mode : Type := FAIL | RDRAND | RDSEED.

Definition CAFEBEEF : Z := 0xCAFEBEEF.
Definition DEADCODE : Z := 0xDEADC0DE.

(** [sizeof(word)] for [uint32_t word]. *)
Definition sizeof_word : Z := 4.

(** The variables the option switch assigns. *)
Record options : Type := mkOptions {
  error : Z;
  xc0 : Z;
  debug : Z;
  verbose : Z;
  daemonize : Z;
  path : option string;
  ident : string;
  opt_mode : mode
}.

(** What [getopt] returns for "dvDo:i:hRS": the option letter and, for
    letters with a colon, [optarg]; ['?'] for anything else. *)
Inductive getopt_result : Type :=
| Opt_d | Opt_v | Opt_D
| Opt_o (optarg : string)
| Opt_i (optarg : string)
| Opt_h | Opt_R | Opt_S
| Opt_unknown.

Definition defaults : options :=
  mkOptions 0 1 0 0 0 None "seventool" FAIL.

(** The [switch] on the option letter. *)
Definition switch (o : options) (opt : getopt_result) : options :=
  match opt with
  | Opt_d => mkOptions (error o) (xc0 o) 1 (verbose o) (daemonize o) (path o) (ident o) (opt_mode o)
  | Opt_v => mkOptions (error o) (xc0 o) (debug o) 1 (daemonize o) (path o) (ident o) (opt_mode o)
  | Opt_D => mkOptions (error o) (xc0 o) (debug o) (verbose o) 1 (path o) (ident o) (opt_mode o)
  | Opt_o p => mkOptions (error o) (xc0 o) (debug o) (verbose o) (daemonize o) (Some p) (ident o) (opt_mode o)
  | Opt_i s => mkOptions (error o) (xc0 o) (debug o) (verbose o) (daemonize o) (path o) s (opt_mode o)
  | Opt_h => mkOptions 1 0 (debug o) (verbose o) (daemonize o) (path o) (ident o) (opt_mode o)
  | Opt_R => mkOptions (error o) (xc0 o) (debug o) (verbose o) (daemonize o) (path o) (ident o) RDRAND
  | Opt_S => mkOptions (error o) (xc0 o) (debug o) (verbose o) (daemonize o) (path o) (ident o) RDSEED
  | Opt_unknown => mkOptions 1 (xc0 o) (debug o) (verbose o) (daemonize o) (path o) (ident o) (opt_mode o)
  end.

(** [while ((opt = getopt(...)) >= 0) { switch ...; if (error) break; }] *)
Fixpoint crack (o : options) (argv : list getopt_result) : options :=
  match argv with
  | [] => o
  | opt :: rest =>
      let o' := switch o opt in
      if error o' =? 0 then crack o' rest else o'
  end.

(** What the environment decides.  Calls whose result the loop uses are
    numbered in the order they are made ([clock] below). *)
Record world : Type := mkWorld {
  daemon : Z;
  sigaction : nat -> Z;
  fopen : bool;
  rdrand : nat -> Z * bool;
  rdseed : nat -> Z * bool;
  nanosleep : nat -> Z * Z;
  fwrite : nat -> Z
}.

(** What the run does that is visible outside the process.  Output that is
    guarded by [verbose] goes to the log only and is left out. *)
Inductive event : Type :=
| EvUsage (nomenu : Z)
| EvDaemon (rc : Z)
| EvPerror (what : string)
| EvSigaction (signum : Z) (rc : Z)
| EvFopen (p : string) (ok : bool)
| EvStats (tries size reads total : Z)
| EvRdrand (v : Z) (cf : bool)
| EvRdseed (v : Z) (cf : bool)
| EvNanosleep (tv_sec tv_nsec : Z) (rc errno : Z)
| EvFwrite (data : list byte) (written : Z)
| EvLerror (what : string)
| EvFclose.

(** One label per statement of the work loop and of what follows it. *)
Inductive label : Type :=
| L_while          (* while (!done) *)
| L_if_report      (* if (report) *)
| L_lprintf        (* lprintf("%s: tries=%zu size=%zu reads=%zu total=%zu\n", ...) *)
| L_clear          (* report = 0 *)
| L_tries          (* ++tries *)
| L_sample         (* if (mode == RDRAND) ... else if (mode == RDSEED) ... else ... *)
| L_carry          (* if (carry) *)
| L_nanosleep      (* else if ((rc = nanosleep(...)) >= 0) ... else if (errno == EINTR) ... *)
| L_reads          (* ++reads *)
| L_total          (* total += sizeof(word) *)
| L_fwrite         (* written = fwrite(&word, sizeof(word), 1, fp) *)
| L_written        (* if (written < 1) *)
| L_debug          (* if (debug) *)
| L_xc             (* xc = 0 *)
| L_fclose         (* if (fp != (FILE * )0) fclose(fp) *)
| L_return.        (* return xc *)

(** The variables of [main] the loop uses, the two globals the handler
    writes, and three history variables that are not in the C text:
    [clock] numbers the calls into the world, [trace] records the events,
    and [got] lists the units for which the source reported success. *)
Record state : Type := mkState {
  pc : label;
  done : Z;
  report : Z;
  tries : Z;
  total : Z;
  reads : Z;
  word : Z;
  carry : Z;
  rc : Z;
  written : Z;
  xc : Z;
  clock : nat;
  trace : list event;
  got : list (list byte)
}.

Definition set_pc (l : label) (s : state) : state :=
  mkState l (done s) (report s) (tries s) (total s) (reads s) (word s) (carry s) (rc s) (written s) (xc s) (clock s) (trace s) (got s).
Definition set_done (v : Z) (s : state) : state :=
  mkState (pc s) v (report s) (tries s) (total s) (reads s) (word s) (carry s) (rc s) (written s) (xc s) (clock s) (trace s) (got s).
Definition set_report (v : Z) (s : state) : state :=
  mkState (pc s) (done s) v (tries s) (total s) (reads s) (word s) (carry s) (rc s) (written s) (xc s) (clock s) (trace s) (got s).
Definition set_tries (v : Z) (s : state) : state :=
  mkState (pc s) (done s) (report s) v (total s) (reads s) (word s) (carry s) (rc s) (written s) (xc s) (clock s) (trace s) (got s).
Definition set_total (v : Z) (s : state) : state :=
  mkState (pc s) (done s) (report s) (tries s) v (reads s) (word s) (carry s) (rc s) (written s) (xc s) (clock s) (trace s) (got s).
Definition set_reads (v : Z) (s : state) : state :=
  mkState (pc s) (done s) (report s) (tries s) (total s) v (word s) (carry s) (rc s) (written s) (xc s) (clock s) (trace s) (got s).
Definition set_word (v : Z) (s : state) : state :=
  mkState (pc s) (done s) (report s) (tries s) (total s) (reads s) v (carry s) (rc s) (written s) (xc s) (clock s) (trace s) (got s).
Definition set_carry (v : Z) (s : state) : state :=
  mkState (pc s) (done s) (report s) (tries s) (total s) (reads s) (word s) v (rc s) (written s) (xc s) (clock s) (trace s) (got s).
Definition set_rc (v : Z) (s : state) : state :=
  mkState (pc s) (done s) (report s) (tries s) (total s) (reads s) (word s) (carry s) v (written s) (xc s) (clock s) (trace s) (got s).
Definition set_written (v : Z) (s : state) : state :=
  mkState (pc s) (done s) (report s) (tries s) (total s) (reads s) (word s) (carry s) (rc s) v (xc s) (clock s) (trace s) (got s).
Definition set_xc (v : Z) (s : state) : state :=
  mkState (pc s) (done s) (report s) (tries s) (total s) (reads s) (word s) (carry s) (rc s) (written s) v (clock s) (trace s) (got s).
(** A call into the world was made: the next one gets the next number. *)
Definition called (s : state) : state :=
  mkState (pc s) (done s) (report s) (tries s) (total s) (reads s) (word s) (carry s) (rc s) (written s) (xc s) (S (clock s)) (trace s) (got s).
Definition emit (e : event) (s : state) : state :=
  mkState (pc s) (done s) (report s) (tries s) (total s) (reads s) (word s) (carry s) (rc s) (written s) (xc s) (clock s) (trace s ++ [e]) (got s).
Definition set_got (g : list (list byte)) (s : state) : state :=
  mkState (pc s) (done s) (report s) (tries s) (total s) (reads s) (word s) (carry s) (rc s) (written s) (xc s) (clock s) (trace s) g.

(** [static void handler(int signum)] *)
Definition handler (signum : Z) (s : state) : state :=
  if signum =? SIGPIPE then set_done 1 s
  else if signum =? SIGINT then set_done 1 s
  else if signum =? SIGHUP then set_report 1 s
  else s.

(** The [setc] of the inline assembly. *)
Definition setc (cf : bool) : Z := if cf then 1 else 0.

(** History only: the source reported success for the word in [word].  In
    mode [FAIL] no instruction runs and the carry left by the
    initialisation stands for the source's answer. *)
Definition note_success (s : state) : state :=
  if carry s =? 0 then s else set_got (got s ++ [bytes_of_word (word s)]) s.

Section Loop.

Variable w : world.
Variable o : options.

(** The three-way [if] on [mode]; the branch the preprocessor keeps is the
    [#elif 1] one. *)
Definition sample (s : state) : state :=
  match opt_mode o with
  | RDRAND =>
      let s1 := set_carry 1 (set_word CAFEBEEF s) in
      let '(v, cf) := rdrand w (clock s1) in
      called (emit (EvRdrand v cf) (set_carry (setc cf) (set_word (v mod 2 ^ 32) s1)))
  | RDSEED =>
      let s1 := set_carry 1 (set_word CAFEBEEF s) in
      let '(v, cf) := rdseed w (clock s1) in
      called (emit (EvRdseed v cf) (set_carry (setc cf) (set_word (v mod 2 ^ 32) s1)))
  | FAIL => s
  end.

Definition step (s : state) : state :=
  match pc s with
  | L_while =>
      if done s =? 0 then set_pc L_if_report s else set_pc L_xc s
  | L_if_report =>
      if report s =? 0 then set_pc L_tries s else set_pc L_lprintf s
  | L_lprintf =>
      set_pc L_clear (emit (EvStats (tries s) sizeof_word (reads s) (total s)) s)
  | L_clear =>
      set_pc L_tries (set_report 0 s)
  | L_tries =>
      set_pc L_sample (set_tries (wrap (tries s + 1)) s)
  | L_sample =>
      set_pc L_carry (note_success (sample s))
  | L_carry =>
      if carry s =? 0 then set_pc L_nanosleep s else set_pc L_reads s
  | L_nanosleep =>
      let '(r, errno) := nanosleep w (clock s) in
      let s1 := called (emit (EvNanosleep 0 1000000 r errno) (set_rc r s)) in
      if 0 <=? r then set_pc L_while s1
      else if errno =? EINTR then set_pc L_while s1
      else set_pc L_xc (emit (EvLerror "nanosleep") s1)
  | L_reads =>
      set_pc L_total (set_reads (wrap (reads s + 1)) s)
  | L_total =>
      set_pc L_fwrite (set_total (wrap (total s + sizeof_word)) s)
  | L_fwrite =>
      let n := fwrite w (clock s) in
      set_pc L_written
        (called (emit (EvFwrite (bytes_of_word (word s)) n) (set_written n s)))
  | L_written =>
      if written s <? 1 then set_pc L_xc (emit (EvLerror "fwrite") s)
      else set_pc L_debug s
  | L_debug =>
      if debug o =? 0 then set_pc L_while s
      else set_pc L_while
             (emit (EvStats (tries s) sizeof_word (reads s) (total s)) s)
  | L_xc =>
      set_pc L_fclose (set_xc 0 s)
  | L_fclose =>
      set_pc L_return (emit EvFclose s)
  | L_return => s
  end.

Fixpoint run (sch : list action) (s : state) : state :=
  match sch with
  | [] => s
  | Tick :: rest => run rest (step s)
  | Deliver signum :: rest => run rest (handler signum s)
  end.

(** The state in which the work loop is entered, after
    [word = DEADCODE; carry = 1;], with the events of the set-up.  [rc] and
    [written] are assigned by the loop before it reads them. *)
Definition enter (evs : list event) : state :=
  mkState L_while 0 0 0 0 0 DEADCODE 1 0 0 (xc0 o) 0 evs [].

(** The three [sigaction] calls; the first that fails ends the set-up. *)
Fixpoint install (sigs : list Z) (n : nat) (evs : list event)
  : list event * bool :=
  match sigs with
  | [] => (evs, true)
  | signum :: rest =>
      let r := sigaction w n in
      let evs1 := evs ++ [EvSigaction signum r] in
      if r <? 0 then (evs1 ++ [EvLerror "sigaction"], false)
      else install rest (S n) evs1
  end.

(** How [main] leaves the [do { ... } while (0)] before the loop, or enters
    the loop. *)
Inductive outcome : Type :=
| Exited (code : Z) (evs : list event)
| Entered (s : state).

(** When the set-up breaks out, [fp] is still [stdout] and is closed. *)
Definition setup : outcome :=
  if negb (error o =? 0) then Exited (xc0 o) [EvUsage (xc0 o); EvFclose]
  else
    let evs0 := if daemonize o =? 0 then [] else [EvDaemon (daemon w)] in
    if negb (daemonize o =? 0) && (daemon w <? 0)
    then Exited (xc0 o) (evs0 ++ [EvPerror "daemon"; EvFclose])
    else
      let '(evs1, ok) := install [SIGPIPE; SIGHUP; SIGINT] 0 evs0 in
      if negb ok then Exited (xc0 o) (evs1 ++ [EvFclose])
      else
        match path o with
        | None => Entered (enter evs1)
        | Some p =>
            if fopen w then Entered (enter (evs1 ++ [EvFopen p true]))
            else Exited (xc0 o) (evs1 ++ [EvFopen p false; EvLerror p])
        end.

End Loop.

(** *** What is observed of a run *)

(** The units handed to [fwrite], in call order, and those of them that
    [fwrite] reported as written. *)
Fixpoint wrote (evs : list event) : list (list byte) :=
  match evs with
  | [] => []
  | EvFwrite data _ :: rest => data :: wrote rest
  | _ :: rest => wrote rest
  end.

Fixpoint accepted (evs : list event) : list (list byte) :=
  match evs with
  | [] => []
  | EvFwrite data n :: rest =>
      if n <? 1 then accepted rest else data :: accepted rest
  | _ :: rest => accepted rest
  end.

Definition is_fwrite (e : event) : bool :=
  match e with EvFwrite _ _ => true | _ => false end.

Definition is_short_fwrite (e : event) : bool :=
  match e with EvFwrite _ n => n <? 1 | _ => false end.

Definition is_sampling (e : event) : bool :=
  match e with EvRdrand _ _ | EvRdseed _ _ => true | _ => false end.

Definition is_stats (e : event) : bool :=
  match e with EvStats _ _ _ _ => true | _ => false end.

(** The events the set-up can leave behind when the loop is entered. *)
Definition is_setup_event (e : event) : bool :=
  match e with
  | EvDaemon _ | EvSigaction _ _ | EvFopen _ _ => true
  | _ => false
  end.

(** The byte stream the loop has handed to the sink. *)
Definition sink (s : state) : list byte := concat (wrote (trace s)).

(** The unit that was read and has not reached [fwrite] yet. *)
Definition inflight (s : state) : list (list byte) :=
  match pc s with
  | L_carry => if carry s =? 0 then [] else [bytes_of_word (word s)]
  | L_reads | L_total | L_fwrite => [bytes_of_word (word s)]
  | _ => []
  end.

(** The loop is between two iterations, or has left the loop. *)
Definition at_boundary (s : state) : bool :=
  match pc s with
  | L_while | L_xc | L_fclose | L_return => true
  | _ => false
  end.

(** The loop has been left. *)
Definition terminated (s : state) : bool :=
  match pc s with
  | L_xc | L_fclose | L_return => true
  | _ => false
  end.

(** The unit in flight is already in [reads] and [total]. *)
Definition counted (s : state) : Z :=
  match pc s with
  | L_total | L_fwrite => 1
  | _ => 0
  end.

(** [reads] counts the units that reached [fwrite] and the one about to,
    and [total] is [reads * sizeof(word)] as C computes it, except between
    [++reads] and [total += sizeof(word)]. *)
Definition counters_inv (s : state) : Prop :=
  reads s = wrap (Z.of_nat (length (wrote (trace s))) + counted s) /\
  match pc s with
  | L_total => wrap (total s + sizeof_word) = wrap (reads s * sizeof_word)
  | _ => total s = wrap (reads s * sizeof_word)
  end.

(** What holds of every state when no instruction is selected. *)
Definition fail_inv (s : state) : Prop :=
  word s = DEADCODE /\ carry s = 1 /\ pc s <> L_nanosleep /\
  filter is_sampling (trace s) = [] /\
  Forall (eq (bytes_of_word DEADCODE)) (wrote (trace s)) /\
  match pc s with
  | L_sample | L_carry | L_reads => tries s = wrap (reads s + 1)
  | _ => tries s = reads s
  end.

(** [main] from the option switch to the work loop. *)
Definition main_setup (w : world) (argv : list getopt_result) : outcome :=
  setup w (crack defaults argv).

End Seven.

(** ** quantistool *)
Module Quantis.

(** [QuantisDeviceType] of Quantis.h, and the table [TYPES]. *)
Inductive QuantisDeviceType : Type :=
| QUANTIS_DEVICE_PCI
| QUANTIS_DEVICE_USB.

Definition TYPES : list QuantisDeviceType :=
  [QUANTIS_DEVICE_PCI; QUANTIS_DEVICE_USB].

Definition type_eqb (a b : QuantisDeviceType) : bool :=
  match a, b with
  | QUANTIS_DEVICE_PCI, QUANTIS_DEVICE_PCI => true
  | QUANTIS_DEVICE_USB, QUANTIS_DEVICE_USB => true
  | _, _ => false
  end.

(** What the environment decides: the two constants and the functions of
    the Quantis library the tool uses (Quantis.h is the vendor's), and the
    C library.  [QuantisOpen] gives its return code and what it stores
    through [&handle]; [QuantisReadHandled] gives its return code and the
    bytes it stores in the buffer; [malloc] gives the bytes the block holds,
    or nothing for a null pointer.  Calls whose result the loop uses are
    numbered in the order they are made ([clock] below). *)
Record world : Type := mkWorld {
  QUANTIS_SUCCESS : Z;
  QUANTIS_MAX_READ_SIZE : Z;
  QuantisCount : QuantisDeviceType -> Z;
  QuantisGetModulesStatus : QuantisDeviceType -> Z -> Z;
  QuantisOpen : nat -> Z * Z;
  QuantisReadHandled : nat -> Z * list byte;
  daemon : Z;
  malloc : option (list byte);
  sigaction : nat -> Z;
  fopen : bool;
  fwrite : nat -> Z
}.

(** What the run does that is visible outside the process.  Output of
    [lverbosef] goes to the log only and is left out. *)
Inductive event : Type :=
| EvUsage (nomenu : Z)
| EvDaemon (rc : Z)
| EvPerror (what : string)
| EvQuery (want : QuantisDeviceType) (unit : Z) (rc : Z)
| EvMalloc (size : Z) (ok : bool)
| EvSigaction (signum : Z) (rc : Z)
| EvFopen (p : string) (ok : bool)
| EvOpen (rc : Z) (handle : Z)
| EvStats (opens size reads total : Z)
| EvRead (handle : Z) (rc : Z) (data : list byte)
| EvLprintf (what : string) (rc : Z)
| EvFwrite (data : list byte) (written : Z)
| EvLerror (what : string)
| EvClose (handle : Z)
| EvFclose
| EvFree.

(** The variables the option switch assigns, and one history variable that
    is not in the C text: [printed], what the switch has printed. *)
Record options : Type := mkOptions {
  error : Z;
  xc0 : Z;
  debug : Z;
  verbose : Z;
  daemonize : Z;
  type : QuantisDeviceType;
  unit : Z;
  opt_size : Z;
  check : Z;
  path : option string;
  ident : string;
  printed : list event
}.

(** What [getopt] returns for "dvDu:p:r:co:i:h".  For [-u], [-p] and [-r]
    the argument is what [strtoul(optarg, &end, 0)] returns, and for [-r]
    also [optarg] itself and whether [*end] is the terminating null. *)
Inductive getopt_result : Type :=
| Opt_d | Opt_v | Opt_D
| Opt_u (value : Z)
| Opt_p (value : Z)
| Opt_c
| Opt_r (optarg : string) (value : Z) (end_is_nul : bool)
| Opt_o (optarg : string)
| Opt_i (optarg : string)
| Opt_h
| Opt_unknown.

Definition defaults : options :=
  mkOptions 0 1 0 0 0 QUANTIS_DEVICE_USB 0 512 0 None "quantistool" [].

(** [unsigned int unit = strtoul(...)]. *)
Definition to_unsigned_int (v : Z) : Z := v mod 2 ^ 32.

(** The [unsigned int] passed for the [int unit] of [query]. *)
Definition to_int (v : Z) : Z := if v <? 2 ^ 31 then v else v - 2 ^ 32.

(** The [switch] on the option letter; [max] is [QUANTIS_MAX_READ_SIZE].
    A [-r] that is rejected calls [lerror(optarg)] before it sets [error]. *)
Definition switch (max : Z) (o : options) (opt : getopt_result) : options :=
  match opt with
  | Opt_d => mkOptions (error o) (xc0 o) 1 (verbose o) (daemonize o) (type o) (unit o) (opt_size o) (check o) (path o) (ident o) (printed o)
  | Opt_v => mkOptions (error o) (xc0 o) (debug o) 1 (daemonize o) (type o) (unit o) (opt_size o) (check o) (path o) (ident o) (printed o)
  | Opt_D => mkOptions (error o) (xc0 o) (debug o) (verbose o) 1 (type o) (unit o) (opt_size o) (check o) (path o) (ident o) (printed o)
  | Opt_u v => mkOptions (error o) (xc0 o) (debug o) (verbose o) (daemonize o) QUANTIS_DEVICE_USB (to_unsigned_int v) (opt_size o) (check o) (path o) (ident o) (printed o)
  | Opt_p v => mkOptions (error o) (xc0 o) (debug o) (verbose o) (daemonize o) QUANTIS_DEVICE_PCI (to_unsigned_int v) (opt_size o) (check o) (path o) (ident o) (printed o)
  | Opt_c => mkOptions (error o) (xc0 o) (debug o) (verbose o) (daemonize o) (type o) (unit o) (opt_size o) 1 (path o) (ident o) (printed o)
  | Opt_r optarg v nul =>
      let size := wrap v in
      let bad := negb nul || negb ((0 <=? size) && (size <=? max)) in
      mkOptions (if bad then 1 else error o) (xc0 o) (debug o) (verbose o) (daemonize o) (type o) (unit o) size (check o) (path o) (ident o)
        (if bad then printed o ++ [EvLerror optarg] else printed o)
  | Opt_o p => mkOptions (error o) (xc0 o) (debug o) (verbose o) (daemonize o) (type o) (unit o) (opt_size o) (check o) (Some p) (ident o) (printed o)
  | Opt_i s => mkOptions (error o) (xc0 o) (debug o) (verbose o) (daemonize o) (type o) (unit o) (opt_size o) (check o) (path o) s (printed o)
  | Opt_h => mkOptions 1 0 (debug o) (verbose o) (daemonize o) (type o) (unit o) (opt_size o) (check o) (path o) (ident o) (printed o)
  | Opt_unknown => mkOptions 1 (xc0 o) (debug o) (verbose o) (daemonize o) (type o) (unit o) (opt_size o) (check o) (path o) (ident o) (printed o)
  end.

(** [while ((opt = getopt(...)) >= 0) { switch ...; if (error) break; }] *)
Fixpoint crack (max : Z) (o : options) (argv : list getopt_result) : options :=
  match argv with
  | [] => o
  | opt :: rest =>
      let o' := switch max o opt in
      if error o' =? 0 then crack max o' rest else o'
  end.

(** One label per statement of the work loop and of what follows it. *)
Inductive label : Type :=
| L_outer          (* while (!done) *)
| L_open           (* rc = QuantisOpen(type, unit, &handle) *)
| L_open_rc        (* if (rc < QUANTIS_SUCCESS) { lprintf(...); break; } *)
| L_opens          (* ++opens *)
| L_inner          (* while (!done) *)
| L_if_report      (* if (report) *)
| L_lprintf        (* lprintf("%s: opens=%zu size=%zu reads=%zu total=%zu\n", ...) *)
| L_clear          (* report = 0 *)
| L_read1          (* rc = QuantisReadHandled(handle, buffer, size) *)
| L_rc1            (* if (rc < QUANTIS_SUCCESS) { lprintf(... try=1) *)
| L_read2          (* rc = QuantisReadHandled(handle, buffer, size) *)
| L_rc2            (* if (rc < QUANTIS_SUCCESS) { lprintf(... try=2); break; } *)
| L_rc3            (* if (rc < QUANTIS_SUCCESS) { break; } *)
| L_reads          (* ++reads *)
| L_total          (* total += size *)
| L_fwrite         (* written = fwrite(buffer, size, 1, fp) *)
| L_written        (* if (written < 1) { lerror("fwrite"); break; } *)
| L_debug          (* if (debug) *)
| L_close          (* if (handle != 0) QuantisClose(handle) *)
| L_xc             (* xc = 0 *)
| L_fclose         (* if (fp != (FILE * )0) fclose(fp) *)
| L_free           (* if (buffer != 0) free(buffer) *)
| L_return.        (* return xc *)

(** The variables of [main] the loop uses, the two globals the handler
    writes, and three history variables that are not in the C text:
    [clock] numbers the calls into the world, [trace] records the events,
    and [got] lists the units for which the source reported success. *)
Record state : Type := mkState {
  pc : label;
  done : Z;
  report : Z;
  opens : Z;
  total : Z;
  reads : Z;
  try_ : Z;
  size : Z;
  handle : Z;
  buffer : list byte;
  rc : Z;
  written : Z;
  xc : Z;
  clock : nat;
  trace : list event;
  got : list (list byte)
}.

Definition set_pc (l : label) (s : state) : state :=
  mkState l (done s) (report s) (opens s) (total s) (reads s) (try_ s) (size s) (handle s) (buffer s) (rc s) (written s) (xc s) (clock s) (trace s) (got s).
Definition set_done (v : Z) (s : state) : state :=
  mkState (pc s) v (report s) (opens s) (total s) (reads s) (try_ s) (size s) (handle s) (buffer s) (rc s) (written s) (xc s) (clock s) (trace s) (got s).
Definition set_report (v : Z) (s : state) : state :=
  mkState (pc s) (done s) v (opens s) (total s) (reads s) (try_ s) (size s) (handle s) (buffer s) (rc s) (written s) (xc s) (clock s) (trace s) (got s).
Definition set_opens (v : Z) (s : state) : state :=
  mkState (pc s) (done s) (report s) v (total s) (reads s) (try_ s) (size s) (handle s) (buffer s) (rc s) (written s) (xc s) (clock s) (trace s) (got s).
Definition set_total (v : Z) (s : state) : state :=
  mkState (pc s) (done s) (report s) (opens s) v (reads s) (try_ s) (size s) (handle s) (buffer s) (rc s) (written s) (xc s) (clock s) (trace s) (got s).
Definition set_reads (v : Z) (s : state) : state :=
  mkState (pc s) (done s) (report s) (opens s) (total s) v (try_ s) (size s) (handle s) (buffer s) (rc s) (written s) (xc s) (clock s) (trace s) (got s).
Definition set_handle (v : Z) (s : state) : state :=
  mkState (pc s) (done s) (report s) (opens s) (total s) (reads s) (try_ s) (size s) v (buffer s) (rc s) (written s) (xc s) (clock s) (trace s) (got s).
Definition set_buffer (v : list byte) (s : state) : state :=
  mkState (pc s) (done s) (report s) (opens s) (total s) (reads s) (try_ s) (size s) (handle s) v (rc s) (written s) (xc s) (clock s) (trace s) (got s).
Definition set_rc (v : Z) (s : state) : state :=
  mkState (pc s) (done s) (report s) (opens s) (total s) (reads s) (try_ s) (size s) (handle s) (buffer s) v (written s) (xc s) (clock s) (trace s) (got s).
Definition set_written (v : Z) (s : state) : state :=
  mkState (pc s) (done s) (report s) (opens s) (total s) (reads s) (try_ s) (size s) (handle s) (buffer s) (rc s) v (xc s) (clock s) (trace s) (got s).
Definition set_xc (v : Z) (s : state) : state :=
  mkState (pc s) (done s) (report s) (opens s) (total s) (reads s) (try_ s) (size s) (handle s) (buffer s) (rc s) (written s) v (clock s) (trace s) (got s).
(** A call into the world was made: the next one gets the next number. *)
Definition called (s : state) : state :=
  mkState (pc s) (done s) (report s) (opens s) (total s) (reads s) (try_ s) (size s) (handle s) (buffer s) (rc s) (written s) (xc s) (S (clock s)) (trace s) (got s).
Definition emit (e : event) (s : state) : state :=
  mkState (pc s) (done s) (report s) (opens s) (total s) (reads s) (try_ s) (size s) (handle s) (buffer s) (rc s) (written s) (xc s) (clock s) (trace s ++ [e]) (got s).
Definition set_got (g : list (list byte)) (s : state) : state :=
  mkState (pc s) (done s) (report s) (opens s) (total s) (reads s) (try_ s) (size s) (handle s) (buffer s) (rc s) (written s) (xc s) (clock s) (trace s) g.

(** [static void handler(int signum)] *)
Definition handler (signum : Z) (s : state) : state :=
  if signum =? SIGPIPE then set_done 1 s
  else if signum =? SIGINT then set_done 1 s
  else if signum =? SIGHUP then set_report 1 s
  else s.

(** The library stores [data] at the start of the block [old]; the block
    keeps its length and, past [data], its bytes. *)
Definition store (data old : list byte) : list byte :=
  firstn (length old) (data ++ skipn (length data) old).

Section Main.

Variable w : world.
Variable o : options.

(** History only: the source reported success for the unit in [buffer]. *)
Definition note_success (s : state) : state :=
  if rc s <? QUANTIS_SUCCESS w then s else set_got (got s ++ [buffer s]) s.

(** [rc = QuantisReadHandled(handle, buffer, size)] *)
Definition read (s : state) : state :=
  let '(r, data) := QuantisReadHandled w (clock s) in
  let s1 := set_rc r (set_buffer (store data (buffer s)) s) in
  note_success (called (emit (EvRead (handle s1) r (buffer s1)) s1)).

(** The statistics line of the report and of debug mode. *)
Definition stats (s : state) : event :=
  EvStats (opens s) (size s) (reads s) (total s).

Definition step (s : state) : state :=
  match pc s with
  | L_outer =>
      if done s =? 0 then set_pc L_open s else set_pc L_xc s
  | L_open =>
      let '(r, h) := QuantisOpen w (clock s) in
      set_pc L_open_rc (called (emit (EvOpen r h) (set_rc r (set_handle h s))))
  | L_open_rc =>
      if rc s <? QUANTIS_SUCCESS w
      then set_pc L_xc (emit (EvLprintf "QuantisOpen" (rc s)) s)
      else set_pc L_opens s
  | L_opens =>
      set_pc L_inner (set_opens (wrap (opens s + 1)) s)
  | L_inner =>
      if done s =? 0 then set_pc L_if_report s else set_pc L_close s
  | L_if_report =>
      if report s =? 0 then set_pc L_read1 s else set_pc L_lprintf s
  | L_lprintf =>
      set_pc L_clear (emit (stats s) s)
  | L_clear =>
      set_pc L_read1 (set_report 0 s)
  | L_read1 =>
      set_pc L_rc1 (read s)
  | L_rc1 =>
      if rc s <? QUANTIS_SUCCESS w
      then set_pc L_read2 (emit (EvLprintf "QuantisReadHandled try=1" (rc s)) s)
      else set_pc L_rc3 s
  | L_read2 =>
      set_pc L_rc2 (read s)
  | L_rc2 =>
      if rc s <? QUANTIS_SUCCESS w
      then set_pc L_close (emit (EvLprintf "QuantisReadHandled try=2" (rc s)) s)
      else set_pc L_rc3 s
  | L_rc3 =>
      if rc s <? QUANTIS_SUCCESS w then set_pc L_close s else set_pc L_reads s
  | L_reads =>
      set_pc L_total (set_reads (wrap (reads s + 1)) s)
  | L_total =>
      set_pc L_fwrite (set_total (wrap (total s + size s)) s)
  | L_fwrite =>
      let n := fwrite w (clock s) in
      set_pc L_written (called (emit (EvFwrite (buffer s) n) (set_written n s)))
  | L_written =>
      if written s <? 1 then set_pc L_close (emit (EvLerror "fwrite") s)
      else set_pc L_debug s
  | L_debug =>
      if debug o =? 0 then set_pc L_inner s
      else set_pc L_inner (emit (stats s) s)
  | L_close =>
      if handle s =? 0 then set_pc L_outer s
      else set_pc L_outer (emit (EvClose (handle s)) s)
  | L_xc =>
      set_pc L_fclose (set_xc 0 s)
  | L_fclose =>
      set_pc L_free (emit EvFclose s)
  | L_free =>
      set_pc L_return (emit EvFree s)
  | L_return => s
  end.

Fixpoint run (sch : list action) (s : state) : state :=
  match sch with
  | [] => s
  | Tick :: rest => run rest (step s)
  | Deliver signum :: rest => run rest (handler signum s)
  end.

(** One pass of the inner [for] of [query]: unit [jj] of type [ty]. *)
Definition query_unit (want : QuantisDeviceType) (unit : Z)
    (ty : QuantisDeviceType) (rc : Z) (jj : Z) : Z :=
  let status := QuantisGetModulesStatus w ty jj in
  if negb (type_eqb want ty) then rc
  else if negb (unit =? jj) then rc
  else if status =? 0 then rc
  else 1.

(** One pass of the outer [for] of [query]: the units of type [ty]. *)
Definition query_type (want : QuantisDeviceType) (unit : Z)
    (rc : Z) (ty : QuantisDeviceType) : Z :=
  let detected := QuantisCount w ty in
  if detected <=? 0 then rc
  else fold_left (query_unit want unit ty)
         (map Z.of_nat (seq 0 (Z.to_nat detected))) rc.

(** [static int query(QuantisDeviceType want, int unit)] *)
Definition query (want : QuantisDeviceType) (unit : Z) : Z :=
  fold_left (query_type want unit) TYPES 0.

(** The three [sigaction] calls; the first that fails ends the set-up. *)
Fixpoint install (sigs : list Z) (n : nat) (evs : list event)
  : list event * bool :=
  match sigs with
  | [] => (evs, true)
  | signum :: rest =>
      let r := sigaction w n in
      let evs1 := evs ++ [EvSigaction signum r] in
      if r <? 0 then (evs1 ++ [EvLerror "sigaction"], false)
      else install rest (S n) evs1
  end.

(** The state in which the work loop is entered.  [rc] and [written] are
    assigned by the loop before it reads them. *)
Definition enter (size : Z) (buffer : list byte) (evs : list event) : state :=
  mkState L_outer 0 0 0 0 0 0 size 0 buffer 0 0 (xc0 o) 0 evs [].

(** How [main] leaves the [do { ... } while (0)] before the loop, or enters
    the loop. *)
Inductive outcome : Type :=
| Exited (code : Z) (evs : list event)
| Entered (s : state).

(** [main] from [do {] to the work loop.  The switch prints only when it
    sets [error], so what it has printed comes before [usage(xc)].  When
    [main] breaks out before [fopen], [fp] is still [stdout] and is closed;
    the buffer is freed once it has been allocated. *)
Definition setup : outcome :=
  if negb (error o =? 0)
  then Exited (xc0 o) (printed o ++ [EvUsage (xc0 o); EvFclose])
  else
    let evs0 := if daemonize o =? 0 then [] else [EvDaemon (daemon w)] in
    if negb (daemonize o =? 0) && (daemon w <? 0)
    then Exited (xc0 o) (evs0 ++ [EvPerror "daemon"; EvFclose])
    else
      let rc := query (type o) (to_int (unit o)) in
      let evs1 := evs0 ++ [EvQuery (type o) (to_int (unit o)) rc] in
      if (rc =? 0) && negb (check o =? 0)
      then Exited (xc0 o) (evs1 ++ [EvFclose])
      else if opt_size o =? 0
      then Exited 0 (evs1 ++ [EvFclose])
      else
        let size :=
          if opt_size o >? QUANTIS_MAX_READ_SIZE w
          then QUANTIS_MAX_READ_SIZE w else opt_size o in
        match malloc w with
        | None =>
            Exited (xc0 o)
              (evs1 ++ [EvMalloc size false; EvLerror "malloc"; EvFclose])
        | Some block =>
            let buffer := store block (repeat x00 (Z.to_nat size)) in
            let evs2 := evs1 ++ [EvMalloc size true] in
            let '(evs3, ok) := install [SIGPIPE; SIGHUP; SIGINT] 0 evs2 in
            if negb ok then Exited (xc0 o) (evs3 ++ [EvFclose; EvFree])
            else
              match path o with
              | None => Entered (enter size buffer evs3)
              | Some p =>
                  if fopen w
                  then Entered (enter size buffer (evs3 ++ [EvFopen p true]))
                  else Exited (xc0 o)
                         (evs3 ++ [EvFopen p false; EvLerror p; EvFree])
              end
        end.

End Main.

(** *** What is observed of a run *)

(** The units handed to [fwrite], in call order, and those of them that
    [fwrite] reported as written. *)
Fixpoint wrote (evs : list event) : list (list byte) :=
  match evs with
  | [] => []
  | EvFwrite data _ :: rest => data :: wrote rest
  | _ :: rest => wrote rest
  end.

Fixpoint accepted (evs : list event) : list (list byte) :=
  match evs with
  | [] => []
  | EvFwrite data n :: rest =>
      if n <? 1 then accepted rest else data :: accepted rest
  | _ :: rest => accepted rest
  end.

Definition is_fwrite (e : event) : bool :=
  match e with EvFwrite _ _ => true | _ => false end.

Definition is_short_fwrite (e : event) : bool :=
  match e with EvFwrite _ n => n <? 1 | _ => false end.

Definition is_read (e : event) : bool :=
  match e with EvRead _ _ _ => true | _ => false end.

Definition is_stats (e : event) : bool :=
  match e with EvStats _ _ _ _ => true | _ => false end.

(** A diagnostic line: [lerror], [perror], or the [lprintf] of a failed
    library call. *)
Definition is_diagnostic (e : event) : bool :=
  match e with
  | EvLerror _ | EvPerror _ | EvLprintf _ _ | EvUsage _ => true
  | _ => false
  end.

(** The events the set-up can leave behind when the loop is entered. *)
Definition is_setup_event (e : event) : bool :=
  match e with
  | EvDaemon _ | EvQuery _ _ _ | EvMalloc _ _ | EvSigaction _ _
  | EvFopen _ _ => true
  | _ => false
  end.

(** The byte stream the loop has handed to the sink. *)
Definition sink (s : state) : list byte := concat (wrote (trace s)).

(** The unit that was read and has not reached [fwrite] yet. *)
Definition inflight (w : world) (s : state) : list (list byte) :=
  match pc s with
  | L_rc1 | L_rc2 | L_rc3 =>
      if rc s <? QUANTIS_SUCCESS w then [] else [buffer s]
  | L_reads | L_total | L_fwrite => [buffer s]
  | _ => []
  end.

(** The inner loop is between two iterations, or has been left. *)
Definition at_boundary (s : state) : bool :=
  match pc s with
  | L_inner | L_close | L_outer | L_xc | L_fclose | L_free | L_return => true
  | _ => false
  end.

(** The work loop has been left. *)
Definition terminated (s : state) : bool :=
  match pc s with
  | L_xc | L_fclose | L_free | L_return => true
  | _ => false
  end.

(** The requested device exists and not all of its modules are disabled. *)
Definition present (w : world) (want : QuantisDeviceType) (unit : Z) : Prop :=
  0 <= unit < QuantisCount w want /\ QuantisGetModulesStatus w want unit <> 0.

(** The unit in flight is already in [reads] and [total]. *)
Definition counted (s : state) : Z :=
  match pc s with
  | L_total | L_fwrite => 1
  | _ => 0
  end.

(** [reads] counts the units that reached [fwrite] and the one about to,
    and [total] is [reads * size] as C computes it, except between
    [++reads] and [total += size]. *)
Definition counters_inv (s : state) : Prop :=
  reads s = wrap (Z.of_nat (length (wrote (trace s))) + counted s) /\
  match pc s with
  | L_total => wrap (total s + size s) = wrap (reads s * size s)
  | _ => total s = wrap (reads s * size s)
  end.

(** [main] from the option switch to the work loop. *)
Definition main_setup (w : world) (argv : list getopt_result) : outcome :=
  setup w (crack (QUANTIS_MAX_READ_SIZE w) defaults argv).

End Quantis.

(** * Scenarios

    Concrete worlds, command lines and schedules on which the programs are
    run below. *)

Module Scenario.

(** ** seventool *)

(** A processor whose every sample succeeds with the word [0x1234ABCD], a
    sleep that is always interrupted, a sink that takes everything. *)
Definition seven_world : Seven.world :=
  Seven.mkWorld 0 (fun _ => 0) true
    (fun _ => (0x1234ABCD, true)) (fun _ => (0x1234ABCD, true))
    (fun _ => (-1, EINTR)) (fun _ => 1).

(** The same with a processor that has nothing ready at the first sample. *)
Definition seven_busy : Seven.world :=
  Seven.mkWorld 0 (fun _ => 0) true
    (fun n => match n with O => (0, false) | _ => (0x1234ABCD, true) end)
    (fun n => match n with O => (0, false) | _ => (0x1234ABCD, true) end)
    (fun _ => (-1, EINTR)) (fun _ => 1).

(** [seventool -R], [seventool -d] *)
Definition seven_R : list Seven.getopt_result := [Seven.Opt_R].
Definition seven_d : list Seven.getopt_result := [Seven.Opt_d].

Definition seven_opts_R : Seven.options := Seven.crack Seven.defaults seven_R.
Definition seven_opts_d : Seven.options := Seven.crack Seven.defaults seven_d.

(** The loop as [seventool -R] enters it. *)
Definition seven_start : Seven.state :=
  Seven.enter seven_opts_R
    [Seven.EvSigaction SIGPIPE 0; Seven.EvSigaction SIGHUP 0;
     Seven.EvSigaction SIGINT 0].

(** The loop as [seventool -d] enters it. *)
Definition seven_start_d : Seven.state :=
  Seven.enter seven_opts_d
    [Seven.EvSigaction SIGPIPE 0; Seven.EvSigaction SIGHUP 0;
     Seven.EvSigaction SIGINT 0].

(** Two iterations and the start of a third, with a report requested and
    then a shutdown. *)
Definition seven_schedule : list action :=
  ticks 10 ++ [Deliver SIGHUP] ++ ticks 13 ++ [Deliver SIGINT] ++ ticks 6.

(** ** quantistool *)

Definition four_bytes : list byte := [x01; x02; x03; x04].

(** One USB device, number 0, with its modules enabled; opens and reads
    always succeed; the sink takes everything. *)
Definition quantis_world : Quantis.world :=
  Quantis.mkWorld 0 (16 * 1024 * 1024)
    (fun ty => match ty with
               | Quantis.QUANTIS_DEVICE_USB => 1
               | Quantis.QUANTIS_DEVICE_PCI => 0
               end)
    (fun _ _ => 1)
    (fun n => (0, 1000 + Z.of_nat n))
    (fun _ => (4, four_bytes))
    0 (Some []) (fun _ => 0) true (fun _ => 1).

(** The same with a sink that falls short on the first write (the third
    call into the world) and takes everything afterwards. *)
Definition quantis_short_write : Quantis.world :=
  Quantis.mkWorld 0 (16 * 1024 * 1024)
    (fun ty => match ty with
               | Quantis.QUANTIS_DEVICE_USB => 1
               | Quantis.QUANTIS_DEVICE_PCI => 0
               end)
    (fun _ _ => 1)
    (fun n => (0, 1000 + Z.of_nat n))
    (fun _ => (4, four_bytes))
    0 (Some []) (fun _ => 0) true
    (fun n => match n with 2%nat => 0 | _ => 1 end).

(** The same with a device whose reads always fail. *)
Definition quantis_hiccup : Quantis.world :=
  Quantis.mkWorld 0 (16 * 1024 * 1024)
    (fun ty => match ty with
               | Quantis.QUANTIS_DEVICE_USB => 1
               | Quantis.QUANTIS_DEVICE_PCI => 0
               end)
    (fun _ _ => 1)
    (fun n => (0, 1000 + Z.of_nat n))
    (fun _ => (-1, []))
    0 (Some []) (fun _ => 0) true (fun _ => 1).

(** No Quantis device at all. *)
Definition quantis_none : Quantis.world :=
  Quantis.mkWorld 0 (16 * 1024 * 1024)
    (fun _ => 0) (fun _ _ => 0)
    (fun n => (-1, 0))
    (fun _ => (-1, []))
    0 (Some []) (fun _ => 0) true (fun _ => 1).

(** [quantistool -r 4], [quantistool -c], [quantistool -c -r 0],
    [quantistool -r 0] *)
Definition quantis_r4 : list Quantis.getopt_result := [Quantis.Opt_r "4" 4 true].
Definition quantis_c : list Quantis.getopt_result := [Quantis.Opt_c].
Definition quantis_c_r0 : list Quantis.getopt_result :=
  [Quantis.Opt_c; Quantis.Opt_r "0" 0 true].
Definition quantis_r0 : list Quantis.getopt_result := [Quantis.Opt_r "0" 0 true].

Definition quantis_opts (argv : list Quantis.getopt_result) : Quantis.options :=
  Quantis.crack (16 * 1024 * 1024) Quantis.defaults argv.

(** The loop as [quantistool -r 4] enters it. *)
Definition quantis_start : Quantis.state :=
  Quantis.enter (quantis_opts quantis_r4) 4 [x00; x00; x00; x00]
    [Quantis.EvQuery Quantis.QUANTIS_DEVICE_USB 0 1;
     Quantis.EvMalloc 4 true;
     Quantis.EvSigaction SIGPIPE 0; Quantis.EvSigaction SIGHUP 0;
     Quantis.EvSigaction SIGINT 0].

End Scenario.

(** * More to observe of a run *)

(** The SIGHUPs a schedule delivers. *)
Definition hups (sch : list action) : nat :=
  length (filter (fun a => match a with
                           | Deliver signum => signum =? SIGHUP
                           | Tick => false
                           end) sch).

(** The elements of [l] at the places where [mask] is true; what lies
    beyond the mask is left out. *)
Fixpoint pick {A : Type} (mask : list bool) (l : list A) : list A :=
  match mask, l with
  | b :: mask', x :: l' => if b then x :: pick mask' l' else pick mask' l'
  | _, _ => []
  end.

Module SevenRun.
Import Seven.

(** Statements still to execute before [return xc], at most, once [done]
    is set. *)
Definition remaining (l : label) : nat :=
  match l with
  | L_return => 0
  | L_fclose => 1
  | L_xc => 2
  | L_while => 3
  | L_debug => 4
  | L_written => 5
  | L_fwrite => 6
  | L_total => 7
  | L_reads => 8
  | L_nanosleep => 4
  | L_carry => 9
  | L_sample => 10
  | L_tries => 11
  | L_clear => 12
  | L_lprintf => 13
  | L_if_report => 14
  end.

(** Calls of [fwrite] still possible before the next loop test. *)
Definition writes_left (l : label) : nat :=
  match l with
  | L_if_report | L_lprintf | L_clear | L_tries | L_sample | L_carry
  | L_reads | L_total | L_fwrite => 1
  | _ => 0
  end.

Definition is_rdrand (e : event) : bool :=
  match e with EvRdrand _ _ => true | _ => false end.

Definition is_rdseed (e : event) : bool :=
  match e with EvRdseed _ _ => true | _ => false end.

Definition is_nanosleep (e : event) : bool :=
  match e with EvNanosleep _ _ _ _ => true | _ => false end.

Definition is_failed_sample (e : event) : bool :=
  match e with EvRdrand _ cf | EvRdseed _ cf => negb cf | _ => false end.

Definition is_fclose (e : event) : bool :=
  match e with EvFclose => true | _ => false end.

(** The words the instructions delivered with the carry flag set, as the
    bytes of a [uint32_t]. *)
Fixpoint sampled (evs : list event) : list (list byte) :=
  match evs with
  | [] => []
  | EvRdrand v true :: rest | EvRdseed v true :: rest =>
      bytes_of_word (v mod 2 ^ 32) :: sampled rest
  | _ :: rest => sampled rest
  end.

(** For each call of [fwrite], in call order: whether it reported the unit
    as written. *)
Fixpoint kept (evs : list event) : list bool :=
  match evs with
  | [] => []
  | EvFwrite _ n :: rest => negb (n <? 1) :: kept rest
  | _ :: rest => kept rest
  end.

(** The byte stream the sink has taken: the units [fwrite] reported as
    written.  Of a unit whose [fwrite] fell short the program cannot tell
    how much the stream took; it counts as not delivered. *)
Definition delivered (s : state) : list byte := concat (accepted (trace s)).

(** The attempt counted in [tries] has not sampled yet. *)
Definition try_due (s : state) : Z :=
  match pc s with L_sample => 1 | _ => 0 end.

(** The last sample failed and the sleep for it has not been called yet. *)
Definition sleep_due (s : state) : nat :=
  match pc s with
  | L_carry => if carry s =? 0 then 1 else 0
  | L_nanosleep => 1
  | _ => 0
  end.

(** A statistics line is owed for a SIGHUP already delivered. *)
Definition report_due (s : state) : nat :=
  match pc s with
  | L_lprintf => 1
  | L_clear => 0
  | _ => if report s =? 0 then 0 else 1
  end.

(** What holds of every state when an instruction is selected. *)
Definition sampling_inv (s : state) : Prop :=
  got s = sampled (trace s) /\
  tries s = wrap (Z.of_nat (length (filter is_sampling (trace s))) + try_due s) /\
  (length (filter is_nanosleep (trace s)) + sleep_due s
   = length (filter is_failed_sample (trace s)))%nat.

End SevenRun.

Module QuantisRun.
Import Quantis.

(** Statements still to execute before [return xc], at most, once [done]
    is set. *)
Definition remaining (l : label) : nat :=
  match l with
  | L_return => 0
  | L_free => 1
  | L_fclose => 2
  | L_xc => 3
  | L_outer => 4
  | L_close => 5
  | L_inner => 6
  | L_debug => 7
  | L_written => 8
  | L_fwrite => 9
  | L_total => 10
  | L_reads => 11
  | L_rc3 => 12
  | L_rc2 => 13
  | L_read2 => 14
  | L_rc1 => 15
  | L_read1 => 16
  | L_clear => 17
  | L_lprintf => 18
  | L_if_report => 19
  | L_opens => 7
  | L_open_rc => 8
  | L_open => 9
  end.

(** Calls of [fwrite] still possible before the next loop test. *)
Definition writes_left (l : label) : nat :=
  match l with
  | L_if_report | L_lprintf | L_clear | L_read1 | L_rc1 | L_read2 | L_rc2
  | L_rc3 | L_reads | L_total | L_fwrite => 1
  | _ => 0
  end.

Definition is_fclose (e : event) : bool :=
  match e with EvFclose => true | _ => false end.

Definition is_free (e : event) : bool :=
  match e with EvFree => true | _ => false end.

Definition is_allocation (e : event) : bool :=
  match e with EvMalloc _ ok => ok | _ => false end.

Definition is_failed_fopen (e : event) : bool :=
  match e with EvFopen _ ok => negb ok | _ => false end.

(** The units the library reported as read: what the buffer holds after
    each [QuantisReadHandled] that returned [QUANTIS_SUCCESS] or more. *)
Fixpoint reported (success : Z) (evs : list event) : list (list byte) :=
  match evs with
  | [] => []
  | EvRead _ rc data :: rest =>
      if rc <? success then reported success rest
      else data :: reported success rest
  | _ :: rest => reported success rest
  end.

(** For each call of [fwrite], in call order: whether it reported the unit
    as written. *)
Fixpoint kept (evs : list event) : list bool :=
  match evs with
  | [] => []
  | EvFwrite _ n :: rest => negb (n <? 1) :: kept rest
  | _ :: rest => kept rest
  end.

(** The byte stream the sink has taken: the units [fwrite] reported as
    written.  Of a unit whose [fwrite] fell short the program cannot tell
    how much the stream took; it counts as not delivered. *)
Definition delivered (s : state) : list byte := concat (accepted (trace s)).

(** The handle a sequence of library calls leaves open, starting with [h]
    open: a successful [QuantisOpen] opens, [QuantisClose] closes. *)
Fixpoint held (success : Z) (h : option Z) (evs : list event) : option Z :=
  match evs with
  | [] => h
  | EvOpen rc h' :: rest =>
      held success (if rc <? success then h else Some h') rest
  | EvClose _ :: rest => held success None rest
  | _ :: rest => held success h rest
  end.

(** The library calls respect the life of a handle: no open while a handle
    is open, reads and the close on the handle that is open. *)
Fixpoint disciplined (success : Z) (h : option Z) (evs : list event) : bool :=
  match evs with
  | [] => true
  | EvOpen rc h' :: rest =>
      match h with
      | Some _ => false
      | None =>
          disciplined success (if rc <? success then None else Some h') rest
      end
  | EvRead h' _ _ :: rest =>
      match h with
      | Some x => (x =? h') && disciplined success h rest
      | None => false
      end
  | EvClose h' :: rest =>
      match h with
      | Some x => (x =? h') && disciplined success None rest
      | None => false
      end
  | _ :: rest => disciplined success h rest
  end.

(** The handle the loop holds open at each statement. *)
Definition expected (w : world) (s : state) : option Z :=
  match pc s with
  | L_outer | L_open | L_xc | L_fclose | L_free | L_return => None
  | L_open_rc => if rc s <? QUANTIS_SUCCESS w then None else Some (handle s)
  | _ => Some (handle s)
  end.

Definition handle_inv (w : world) (s : state) : Prop :=
  disciplined (QUANTIS_SUCCESS w) None (trace s) = true /\
  held (QUANTIS_SUCCESS w) None (trace s) = expected w s /\
  (expected w s <> None -> handle s <> 0).

(** A statistics line is owed for a SIGHUP already delivered. *)
Definition report_due (s : state) : nat :=
  match pc s with
  | L_lprintf => 1
  | L_clear => 0
  | _ => if report s =? 0 then 0 else 1
  end.

(** The read size after [else if (size > QUANTIS_MAX_READ_SIZE)]. *)
Definition clamp (w : world) (o : options) : Z :=
  if opt_size o >? QUANTIS_MAX_READ_SIZE w
  then QUANTIS_MAX_READ_SIZE w else opt_size o.

(** What has been released at each statement. *)
Definition released_inv (s : state) : Prop :=
  length (filter is_allocation (trace s)) = 1%nat /\
  filter is_failed_fopen (trace s) = [] /\
  length (filter is_fclose (trace s))
    = match pc s with L_free | L_return => 1%nat | _ => 0%nat end /\
  length (filter is_free (trace s))
    = match pc s with L_return => 1%nat | _ => 0%nat end.

End QuantisRun.

(** More worlds and command lines to run the programs on. *)
Module Cases.

(** The host of [Scenario.quantis_world] out of memory. *)
Definition quantis_no_memory : Quantis.world :=
  Quantis.mkWorld 0 (16 * 1024 * 1024)
    (fun ty => match ty with
               | Quantis.QUANTIS_DEVICE_USB => 1
               | Quantis.QUANTIS_DEVICE_PCI => 0
               end)
    (fun _ _ => 1)
    (fun n => (0, 1000 + Z.of_nat n))
    (fun _ => (4, Scenario.four_bytes))
    0 None (fun _ => 0) true (fun _ => 1).

(** A device whose every read gives the number of the call as a word, and
    a sink that falls short on the first write (the third call into the
    world) and takes everything afterwards. *)
Definition quantis_lossy : Quantis.world :=
  Quantis.mkWorld 0 (16 * 1024 * 1024)
    (fun ty => match ty with
               | Quantis.QUANTIS_DEVICE_USB => 1
               | Quantis.QUANTIS_DEVICE_PCI => 0
               end)
    (fun _ _ => 1)
    (fun n => (0, 1000 + Z.of_nat n))
    (fun n => (4, bytes_of_word (Z.of_nat n)))
    0 (Some []) (fun _ => 0) true
    (fun n => match n with 2%nat => 0 | _ => 1 end).


(** A shutdown request, then enough statements to reach [return]. *)
Definition interrupted : list action :=
  ticks 7 ++ [Deliver SIGINT] ++ ticks 19.

(** Reports requested three times, two of them before the loop looks. *)
Definition three_hups : list action :=
  [Deliver SIGHUP; Deliver SIGHUP] ++ ticks 12 ++ [Deliver SIGHUP] ++ ticks 30.

(** The loop as [quantistool -r 4] enters it on a host without Quantis
    devices (without [-c] the answer of the query is not used). *)
Definition quantis_blind_start : Quantis.state :=
  Quantis.enter (Scenario.quantis_opts Scenario.quantis_r4) 4
    [x00; x00; x00; x00]
    [Quantis.EvQuery Quantis.QUANTIS_DEVICE_USB 0 0;
     Quantis.EvMalloc 4 true;
     Quantis.EvSigaction SIGPIPE 0; Quantis.EvSigaction SIGHUP 0;
     Quantis.EvSigaction SIGINT 0].

(** The loop as [seventool] without options enters it. *)
Definition seven_plain_start : Seven.state :=
  Seven.enter Seven.defaults
    [Seven.EvSigaction SIGPIPE 0; Seven.EvSigaction SIGHUP 0;
     Seven.EvSigaction SIGINT 0].

(** The processor of [Scenario.seven_world] with a sink that takes
    nothing. *)
Definition seven_short_write : Seven.world :=
  Seven.mkWorld 0 (fun _ => 0) true
    (fun _ => (0x1234ABCD, true)) (fun _ => (0x1234ABCD, true))
    (fun _ => (0, 0)) (fun _ => 0).

End Cases.

(** * Facts *)

(** ** Counters and schedules *)

Lemma wrap_wrap (x : Z) : wrap (wrap x) = wrap x.
Proof. unfold wrap. apply Z.mod_mod. discriminate. Qed.

Lemma wrap_add_l (a b : Z) : wrap (wrap a + b) = wrap (a + b).
Proof. unfold wrap. apply Z.add_mod_idemp_l. discriminate. Qed.

Lemma wrap_mul_l (a b : Z) : wrap (wrap a * b) = wrap (a * b).
Proof. unfold wrap. apply Z.mul_mod_idemp_l. discriminate. Qed.

Lemma wrap_small (x : Z) : 0 <= x < 2 ^ SIZE_BITS -> wrap x = x.
Proof. intros H. unfold wrap. apply Z.mod_small. exact H. Qed.

Lemma pick_app_l {A : Type} (mask : list bool) (l l' : list A) :
  (length mask <= length l)%nat -> pick mask (l ++ l') = pick mask l.
Proof.
  revert l. induction mask as [|b mask IH]; intros l H; [reflexivity|].
  destruct l as [|x l]; simpl in *; [lia|].
  rewrite IH by lia. reflexivity.
Qed.

Lemma executed_delivers (sigs : list Z) : executed (delivers sigs) = 0%nat.
Proof. induction sigs as [|n sigs IH]; simpl; auto. Qed.

Lemma executed_none (sch : list action) :
  executed sch = 0%nat -> exists sigs, sch = delivers sigs.
Proof.
  induction sch as [|a sch IH]; intros H.
  - exists []. reflexivity.
  - destruct a as [|n]; [discriminate H|].
    destruct (IH H) as [sigs ->]. exists (n :: sigs). reflexivity.
Qed.

Lemma executed_split (sch : list action) (n : nat) :
  executed sch = S n ->
  exists sigs rest, sch = delivers sigs ++ Tick :: rest /\ executed rest = n.
Proof.
  induction sch as [|a sch IH]; intros H; [discriminate H|].
  destruct a as [|m].
  - exists [], sch. split; [reflexivity|]. now injection H.
  - destruct (IH H) as (sigs & rest & -> & Hn).
    exists (m :: sigs), rest. split; [reflexivity | exact Hn].
Qed.

Lemma done_after_quiet (sigs : list Z) (d : Z) :
  (forall n, In n sigs -> n <> SIGPIPE /\ n <> SIGINT) ->
  done_after sigs d = d.
Proof.
  revert d. induction sigs as [|n sigs IH]; intros d H; [reflexivity|].
  unfold done_after in *. simpl.
  destruct (H n (or_introl eq_refl)) as [Hp Hi].
  apply Z.eqb_neq in Hp, Hi. rewrite Hp, Hi.
  apply IH. intros m Hm. apply H. now right.
Qed.

Lemma no_shutdown_split (sigs : list Z) (rest : list action) (d : Z) :
  no_shutdown (delivers sigs ++ Tick :: rest) ->
  done_after sigs d = d /\ no_shutdown rest.
Proof.
  intros H. split.
  - apply done_after_quiet. intros n Hn. apply H.
    apply in_or_app. left. unfold delivers. now apply in_map.
  - intros n Hn. apply H. apply in_or_app. right. now right.
Qed.

Lemma no_shutdown_delivers (sigs : list Z) (d : Z) :
  no_shutdown (delivers sigs) -> done_after sigs d = d.
Proof.
  intros H. apply done_after_quiet. intros n Hn. apply H.
  unfold delivers. now apply in_map.
Qed.

Lemma report_after_set (sigs : list Z) : report_after sigs 1 = 1.
Proof.
  induction sigs as [|n sigs IH]; [reflexivity|].
  unfold report_after in *. simpl.
  destruct (n =? SIGPIPE); [exact IH|].
  destruct (n =? SIGINT); [exact IH|].
  destruct (n =? SIGHUP); exact IH.
Qed.

Lemma report_after_hup (sigs : list Z) (r : Z) :
  In SIGHUP sigs -> report_after sigs r = 1.
Proof.
  revert r. induction sigs as [|n sigs IH]; intros r H; [destruct H|].
  destruct H as [-> | H].
  - unfold report_after. simpl. apply report_after_set.
  - unfold report_after in *. simpl. apply IH. exact H.
Qed.

Lemma done_after_app (a b : list Z) (d : Z) :
  done_after (a ++ b) d = done_after b (done_after a d).
Proof. unfold done_after. apply fold_left_app. Qed.

(** ** seventool *)

Lemma one_is_set : (1 =? 0) = false.
Proof. reflexivity. Qed.

Lemma zero_is_clear : (0 =? 0) = true.
Proof. reflexivity. Qed.

Module SevenFacts.
Import Seven.

Lemma seven_wrote_app (a b : list event) : wrote (a ++ b) = wrote a ++ wrote b.
Proof.
  induction a as [|e a IH]; [reflexivity|].
  destruct e; simpl; rewrite IH; reflexivity.
Qed.

Lemma seven_accepted_app (a b : list event) :
  accepted (a ++ b) = accepted a ++ accepted b.
Proof.
  induction a as [|e a IH]; [reflexivity|].
  destruct e as [ | | | | | | | | |data n| | ]; simpl; rewrite IH; try reflexivity.
  destruct (n <? 1); reflexivity.
Qed.

Section Facts.

Variable w : world.
Variable o : options.

Lemma seven_run_app (a b : list action) (s : state) :
  run w o (a ++ b) s = run w o b (run w o a s).
Proof.
  revert s. induction a as [|x a IH]; intros s; [reflexivity|].
  destruct x; simpl; apply IH.
Qed.

Lemma seven_run_tick (rest : list action) (s : state) :
  run w o (Tick :: rest) s = run w o rest (step w o s).
Proof. reflexivity. Qed.

Lemma seven_run_nil (s : state) : run w o [] s = s.
Proof. reflexivity. Qed.

Lemma seven_run_delivers (sigs : list Z) (s : state) :
  run w o (delivers sigs) s =
  set_report (report_after sigs (report s))
    (set_done (done_after sigs (done s)) s).
Proof.
  revert s. induction sigs as [|n sigs IH]; intros s.
  - destruct s; reflexivity.
  - simpl. rewrite IH. unfold handler, done_after, report_after. simpl.
    destruct (n =? SIGPIPE); [destruct s; reflexivity|].
    destruct (n =? SIGINT); [destruct s; reflexivity|].
    destruct (n =? SIGHUP); destruct s; reflexivity.
Qed.

Lemma seven_run_invariant (P : state -> Prop) :
  (forall s, P s -> P (step w o s)) ->
  (forall n s, P s -> P (handler n s)) ->
  forall sch s, P s -> P (run w o sch s).
Proof.
  intros Hstep Hsig sch. induction sch as [|a sch IH]; intros s H; [exact H|].
  destruct a; simpl; apply IH; auto.
Qed.

Ltac case_split :=
  match goal with
  | |- context [match opt_mode ?x with _ => _ end] => destruct (opt_mode x) eqn:?
  | |- context [let '(_, _) := ?p in _] => destruct p as [? [|]] eqn:?
  | |- context [let '(_, _) := ?p in _] => destruct p eqn:?
  | |- context [if ?b then _ else _] => destruct b eqn:?
  end.

Ltac by_cases :=
  unfold step, sample, note_success, setc;
  cbn -[bytes_of_word wrap];
  repeat (case_split; cbn -[bytes_of_word wrap] in * ).

Lemma seven_stream_step (s : state) :
  got s = wrote (trace s) ++ inflight s ->
  got (step w o s) = wrote (trace (step w o s)) ++ inflight (step w o s).
Proof.
  destruct s as [p d r t tot rd wd c rc' wr x ck tr g].
  unfold inflight. destruct p; by_cases; intros H.
  all: rewrite ?seven_wrote_app; cbn -[bytes_of_word]; rewrite ?app_nil_r in *.
  all: try congruence.
  all: try (subst g; rewrite <- ?app_assoc; reflexivity).
Qed.

Lemma seven_stream_handler (n : Z) (s : state) :
  got s = wrote (trace s) ++ inflight s ->
  got (handler n s) = wrote (trace (handler n s)) ++ inflight (handler n s).
Proof.
  intros H. unfold handler.
  destruct (n =? SIGPIPE), (n =? SIGINT), (n =? SIGHUP); destruct s; exact H.
Qed.

Lemma seven_stream_run (sch : list action) (s : state) :
  got s = wrote (trace s) ++ inflight s ->
  got (run w o sch s) =
  wrote (trace (run w o sch s)) ++ inflight (run w o sch s).
Proof.
  apply (seven_run_invariant (fun s => got s = wrote (trace s) ++ inflight s)).
  - exact seven_stream_step.
  - exact seven_stream_handler.
Qed.

Lemma seven_inflight_one (s : state) : (length (inflight s) <= 1)%nat.
Proof.
  unfold inflight. destruct (pc s); simpl; try lia.
  destruct (carry s =? 0); simpl; lia.
Qed.

Lemma seven_inflight_boundary (s : state) : at_boundary s = true -> inflight s = [].
Proof. unfold at_boundary, inflight. destruct (pc s); congruence. Qed.

Lemma seven_counters_step (s : state) : counters_inv s -> counters_inv (step w o s).
Proof.
  destruct s as [p d r t tot rd wd c rc' wr x ck tr g].
  unfold counters_inv, counted. destruct p; by_cases; intros [Hr Ht].
  all: rewrite ?seven_wrote_app, ?length_app; cbn -[wrap Z.of_nat].
  all: rewrite ?Nat.add_0_r, ?Z.add_0_r in *.
  all: try (split; assumption).
  - split.
    + rewrite Hr, wrap_add_l. reflexivity.
    + rewrite Ht, wrap_add_l, wrap_mul_l. f_equal. unfold sizeof_word. lia.
  - split; [|assumption]. rewrite Hr. f_equal. lia.
Qed.


Lemma seven_counters_handler (n : Z) (s : state) :
  counters_inv s -> counters_inv (handler n s).
Proof.
  intros H. unfold handler.
  destruct (n =? SIGPIPE), (n =? SIGINT), (n =? SIGHUP); destruct s; exact H.
Qed.

Lemma seven_counters_run (sch : list action) (s : state) :
  counters_inv s -> counters_inv (run w o sch s).
Proof. apply seven_run_invariant; [exact seven_counters_step | exact seven_counters_handler]. Qed.

Lemma fail_step (s : state) :
  opt_mode o = FAIL -> fail_inv s -> fail_inv (step w o s).
Proof.
  intros Hm. destruct s as [p d r t tot rd wd c rc' wr x ck tr g].
  unfold fail_inv. destruct p; by_cases;
    intros (Hw & Hc & Hp & Hs & Hf & Ht); subst.
  all: try congruence.
  all: rewrite ?seven_wrote_app, ?filter_app; cbn -[bytes_of_word wrap].
  all: rewrite ?app_nil_r.
  all: try (repeat split; (assumption || discriminate || reflexivity)).
  repeat split; try assumption; try discriminate.
  apply Forall_app. split; [assumption|]. repeat constructor.
Qed.

Lemma fail_handler (n : Z) (s : state) : fail_inv s -> fail_inv (handler n s).
Proof.
  intros H. unfold handler.
  destruct (n =? SIGPIPE), (n =? SIGINT), (n =? SIGHUP); destruct s; exact H.
Qed.

Lemma seven_terminated_step (s : state) :
  terminated s = true ->
  terminated (step w o s) = true /\
  wrote (trace (step w o s)) = wrote (trace s) /\
  filter is_sampling (trace (step w o s)) = filter is_sampling (trace s) /\
  reads (step w o s) = reads s /\ total (step w o s) = total s /\
  tries (step w o s) = tries s.
Proof.
  destruct s as [p d r t tot rd wd c rc' wr x ck tr g].
  unfold terminated. destruct p; cbn; try discriminate; intros _.
  all: rewrite ?seven_wrote_app, ?filter_app; cbn; rewrite ?app_nil_r.
  all: repeat split; reflexivity.
Qed.

Lemma seven_terminated_handler (n : Z) (s : state) :
  terminated (handler n s) = terminated s /\
  trace (handler n s) = trace s /\
  reads (handler n s) = reads s /\ total (handler n s) = total s /\
  tries (handler n s) = tries s.
Proof.
  unfold handler.
  destruct (n =? SIGPIPE), (n =? SIGINT), (n =? SIGHUP); destruct s;
    repeat split; reflexivity.
Qed.

Lemma seven_terminated_run (sch : list action) (s : state) :
  terminated s = true ->
  terminated (run w o sch s) = true /\
  wrote (trace (run w o sch s)) = wrote (trace s) /\
  filter is_sampling (trace (run w o sch s)) = filter is_sampling (trace s) /\
  reads (run w o sch s) = reads s /\ total (run w o sch s) = total s /\
  tries (run w o sch s) = tries s.
Proof.
  revert s. induction sch as [|a sch IH]; intros s H.
  - repeat split; auto.
  - destruct a as [|n]; simpl.
    + destruct (seven_terminated_step s H) as (H1 & H2 & H3 & H4 & H5 & H6).
      destruct (IH _ H1) as (K1 & K2 & K3 & K4 & K5 & K6).
      repeat split; congruence.
    + destruct (seven_terminated_handler n s) as (H1 & H2 & H4 & H5 & H6).
      rewrite <- H1 in H.
      destruct (IH _ H) as (K1 & K2 & K3 & K4 & K5 & K6).
      repeat split; congruence.
Qed.

(** Segments of the loop, whatever signals are delivered in between. *)

Ltac use_facts E :=
  repeat match goal with
  | Hx : opt_mode _ = _ |- _ => rewrite Hx in E
  | Hx : rdrand _ _ = _ |- _ => rewrite Hx in E
  | Hx : rdseed _ _ = _ |- _ => rewrite Hx in E
  | Hx : nanosleep _ _ = _ |- _ => rewrite Hx in E
  | Hx : (_ =? _) = _ |- _ => rewrite Hx in E
  | Hx : (_ <? _) = _ |- _ => rewrite Hx in E
  | Hx : (_ <=? _) = _ |- _ => rewrite Hx in E
  end.

Ltac compute_state E :=
  cbv beta iota zeta delta
    [step sample note_success setc handler
     set_pc set_done set_report set_tries set_total set_reads set_word
     set_carry set_rc set_written set_xc called emit set_got
     pc done report tries total reads word carry rc written xc clock trace
     got] in E.

Ltac fields :=
  cbv beta iota zeta delta
    [set_pc set_done set_report set_tries set_total set_reads set_word
     set_carry set_rc set_written set_xc called emit set_got
     pc done report tries total reads word carry rc written xc clock trace
     got fst snd] in *.

Ltac reduce E :=
  compute_state E;
  repeat (progress (use_facts E; rewrite ?one_is_set, ?zero_is_clear in E);
          compute_state E);
  lazymatch type of E with
  | context [if _ then _ else _] => fail "a test is left undecided"
  | context [match _ with FAIL => _ | _ => _ end] => fail "the mode is left undecided"
  | _ => idtac
  end.

Ltac tock E :=
  cbv beta iota zeta delta [ticks repeat] in E;
  rewrite seven_run_tick in E;
  reduce E.

Ltac deliver E := rewrite seven_run_app, seven_run_delivers in E; reduce E.

Ltac tick E H :=
  let d := fresh "d" in
  let rest := fresh "rest" in
  let H' := fresh "H" in
  destruct (executed_split _ _ H) as (d & rest & -> & H');
  clear H; rename H' into H;
  deliver E; tock E.

Ltac finish E H :=
  let d := fresh "d" in
  destruct (executed_none _ H) as (d & ->); clear H;
  rewrite seven_run_delivers in E; reduce E.

Lemma seven_successful_read (s : state) (sch : list action) :
  pc s = L_tries -> carry (sample w o s) <> 0 -> executed sch = 6%nat ->
  let s' := run w o sch s in
  let unit := bytes_of_word (word (sample w o s)) in
  pc s' = L_written /\
  tries s' = wrap (tries s + 1) /\
  reads s' = wrap (reads s + 1) /\
  total s' = wrap (total s + sizeof_word) /\
  wrote (trace s') = wrote (trace s) ++ [unit] /\
  got s' = got s ++ [unit].
Proof.
  destruct s as [p d r t tot rd wd c rc' wr x ck tr g].
  fields.
  intros -> Hc H. cbv zeta.
  remember (run w o sch _) as s1 eqn:E.
  unfold sample in *. compute_state Hc. fields.
  destruct (opt_mode o) eqn:Hm.
  - apply Z.eqb_neq in Hc.
    do 6 tick E H. finish E H. subst s1. fields.
    rewrite !seven_wrote_app. cbn [wrote app]. rewrite ?app_nil_r.
    repeat split; reflexivity.
  - destruct (rdrand w ck) as [v [|]] eqn:Hrd; compute_state Hc;
      [clear Hc|congruence].
    do 6 tick E H. finish E H. subst s1. fields.
    rewrite !seven_wrote_app. cbn [wrote app]. rewrite ?app_nil_r.
    repeat split; reflexivity.
  - destruct (rdseed w ck) as [v [|]] eqn:Hrd; compute_state Hc;
      [clear Hc|congruence].
    do 6 tick E H. finish E H. subst s1. fields.
    rewrite !seven_wrote_app. cbn [wrote app]. rewrite ?app_nil_r.
    repeat split; reflexivity.
Qed.

Lemma seven_backoff (s : state) (sch : list action) :
  pc s = L_carry -> carry s = 0 -> done s = 0 ->
  (0 <= fst (nanosleep w (clock s)) \/ snd (nanosleep w (clock s)) = EINTR) ->
  executed sch = 2%nat -> no_shutdown sch ->
  let s1 := run w o sch s in
  let s2 := run w o (ticks (if report s1 =? 0 then 3 else 5)) s1 in
  pc s1 = L_while /\ done s1 = 0 /\
  trace s1 =
    trace s ++ [EvNanosleep 0 1000000 (fst (nanosleep w (clock s)))
                  (snd (nanosleep w (clock s)))] /\
  tries s1 = tries s /\ reads s1 = reads s /\ total s1 = total s /\
  got s1 = got s /\
  pc s2 = L_sample /\ tries s2 = wrap (tries s + 1) /\
  reads s2 = reads s /\ wrote (trace s2) = wrote (trace s).
Proof.
  destruct s as [p d r t tot rd wd c rc' wr x ck tr g].
  fields.
  intros -> -> -> Hn H Hq. cbv zeta.
  remember (run w o sch _) as s1 eqn:E.
  remember (run w o (ticks _) s1) as s2 eqn:E2.
  destruct (nanosleep w ck) as [rs e] eqn:Hs. fields.
  assert (E1 : pc s1 = L_while /\ done s1 = 0 /\
               trace s1 = tr ++ [EvNanosleep 0 1000000 rs e] /\
               tries s1 = t /\ reads s1 = rd /\ total s1 = tot /\
               got s1 = g).
  { assert (Hd : forall d0 d1 d2 rest,
               sch = delivers d0 ++ Tick :: delivers d1 ++ Tick :: rest ->
               rest = delivers d2 ->
               done_after d2 (done_after d1 (done_after d0 0)) = 0).
    { intros d0 d1 d2 rest -> ->.
      destruct (no_shutdown_split _ _ 0 Hq) as [Q0 Hq1].
      destruct (no_shutdown_split _ _ 0 Hq1) as [Q1 Hq2].
      rewrite Q0, Q1. apply (no_shutdown_delivers _ _ Hq2). }
    destruct (0 <=? rs) eqn:Hrs.
    - tick E H. tick E H. finish E H.
      rewrite (Hd _ _ _ _ eq_refl eq_refl) in E.
      subst s1. repeat split; reflexivity.
    - destruct Hn as [Hn | Hn]; [apply Z.leb_gt in Hrs; lia|].
      apply Z.eqb_eq in Hn.
      tick E H. tick E H. finish E H.
      rewrite (Hd _ _ _ _ eq_refl eq_refl) in E.
      subst s1. repeat split; reflexivity. }
  clear E. destruct s1 as [p1 d' r' t1 tot1 rd1 wd1 c1 rc1 wr1 x1 ck1 tr1 g1].
  fields.
  destruct E1 as (-> & -> & -> & -> & -> & -> & ->).
  repeat split; try reflexivity.
  all: destruct (r' =? 0) eqn:Hr;
    [do 3 tock E2 | do 5 tock E2];
    rewrite seven_run_nil in E2; subst s2; fields;
    rewrite ?seven_wrote_app; cbn [wrote app]; rewrite ?app_nil_r; reflexivity.
Qed.

Lemma report_after_nonzero (sigs : list Z) (r : Z) :
  r <> 0 -> report_after sigs r <> 0.
Proof.
  revert r. induction sigs as [|n sigs IH]; intros r H; [exact H|].
  unfold report_after in *. simpl.
  destruct (n =? SIGPIPE); [now apply IH|].
  destruct (n =? SIGINT); [now apply IH|].
  destruct (n =? SIGHUP); apply IH; [discriminate | exact H].
Qed.

Lemma seven_report_check (s : state) (d1 d2 : list Z) :
  pc s = L_if_report -> report s <> 0 ->
  let s' := run w o (Tick :: delivers d1 ++ Tick :: delivers d2 ++ [Tick]) s in
  pc s' = L_tries /\
  trace s' = trace s ++ [EvStats (tries s) sizeof_word (reads s) (total s)] /\
  report s' = 0 /\
  done s' = done_after (d1 ++ d2) (done s) /\
  tries s' = tries s /\ reads s' = reads s /\ total s' = total s.
Proof.
  destruct s as [p d r t tot rd wd c rc' wr x ck tr g].
  fields.
  intros -> Hr. cbv zeta. apply Z.eqb_neq in Hr.
  remember (run w o _ _) as s1 eqn:E.
  tock E. deliver E. tock E. deliver E. tock E.
  rewrite seven_run_nil in E. subst s1. fields.
  rewrite done_after_app. repeat split; reflexivity.
Qed.

Lemma seven_report_collapses (s : state) (sigs : list Z) :
  In SIGHUP sigs ->
  let s' := run w o (delivers sigs) s in
  report s' = 1 /\ pc s' = pc s /\ trace s' = trace s /\
  done s' = done_after sigs (done s).
Proof.
  intros H. cbv zeta. rewrite seven_run_delivers. destruct s. fields.
  rewrite (report_after_hup _ _ H). repeat split; reflexivity.
Qed.

Lemma seven_short_write_is_final (s : state) (sch : list action) :
  pc s = L_fwrite -> fwrite w (clock s) < 1 -> (2 <= executed sch)%nat ->
  let s' := run w o sch s in
  terminated s' = true /\
  wrote (trace s') = wrote (trace s) ++ [bytes_of_word (word s)] /\
  filter is_sampling (trace s') = filter is_sampling (trace s) /\
  reads s' = reads s /\ total s' = total s.
Proof.
  destruct s as [p d r t tot rd wd c rc' wr x ck tr g].
  fields.
  intros -> Hw H. cbv zeta. apply Z.ltb_lt in Hw.
  remember (run w o sch _) as s1 eqn:E.
  destruct (executed sch) as [|[|n]] eqn:Hn; try lia. clear H.
  tick E Hn. tick E Hn.
  match type of E with _ = run _ _ _ ?st =>
    destruct (seven_terminated_run rest0 st eq_refl) as (K1 & K2 & K3 & K4 & K5 & _)
  end.
  rewrite <- E in *. clear E. fields.
  rewrite !seven_wrote_app, !filter_app in *. cbn [wrote filter is_sampling app] in *.
  rewrite ?app_nil_r in *. repeat split; assumption.
Qed.

Lemma fail_iteration (s : state) :
  opt_mode o = FAIL -> fail_inv s ->
  pc s = L_while -> done s = 0 -> report s = 0 ->
  let s' := run w o (ticks 8) s in
  pc s' = L_written /\
  trace s' =
    trace s ++ [EvFwrite (bytes_of_word DEADCODE) (fwrite w (clock s))] /\
  tries s' = wrap (tries s + 1) /\ reads s' = wrap (reads s + 1) /\
  total s' = wrap (total s + sizeof_word).
Proof.
  intros Hm (Hw & Hc & _). destruct s as [p d r t tot rd wd c rc' wr x ck tr g].
  fields.
  intros -> -> ->. subst wd c. cbv zeta.
  remember (run w o _ _) as s1 eqn:E.
  do 8 tock E. rewrite seven_run_nil in E.
  subst s1. fields. repeat split; reflexivity.
Qed.

Lemma seven_install_events (sigs : list Z) (n : nat) (evs evs' : list event) :
  install w sigs n evs = (evs', true) ->
  forallb is_setup_event evs = true -> forallb is_setup_event evs' = true.
Proof.
  revert n evs. induction sigs as [|sg sigs IH]; intros n evs; simpl.
  - intros [= <-]. auto.
  - destruct (sigaction w n <? 0); [discriminate|].
    intros H He. apply (IH _ _ H).
    rewrite forallb_app, He. reflexivity.
Qed.

Lemma seven_setup_entered (s0 : state) :
  setup w o = Entered s0 ->
  exists evs, s0 = enter o evs /\ forallb is_setup_event evs = true.
Proof.
  unfold setup.
  destruct (negb (error o =? 0)); [discriminate|].
  destruct (negb (daemonize o =? 0) && (daemon w <? 0)); [discriminate|].
  destruct (install w _ 0 _) as [evs1 ok] eqn:Hi.
  destruct ok; [|discriminate]. cbn [negb].
  assert (H1 : forallb is_setup_event evs1 = true).
  { apply (seven_install_events _ _ _ _ Hi). destruct (daemonize o =? 0); reflexivity. }
  destruct (path o) as [p|].
  - destruct (fopen w); [|discriminate]. intros [= <-].
    eexists. split; [reflexivity|]. rewrite forallb_app, H1. reflexivity.
  - intros [= <-]. eexists. split; [reflexivity | exact H1].
Qed.

Lemma seven_setup_events_quiet (evs : list event) :
  forallb is_setup_event evs = true ->
  wrote evs = [] /\ filter is_sampling evs = [].
Proof.
  induction evs as [|e evs IH]; [auto|].
  simpl. destruct e; simpl; try discriminate; exact IH.
Qed.

Lemma seven_enter_invariants (evs : list event) :
  forallb is_setup_event evs = true ->
  got (enter o evs) = wrote (trace (enter o evs)) ++ inflight (enter o evs) /\
  counters_inv (enter o evs) /\ fail_inv (enter o evs).
Proof.
  intros H. destruct (seven_setup_events_quiet evs H) as [Hw Hs].
  unfold counters_inv, fail_inv, inflight, counted. cbn.
  rewrite Hw, Hs. repeat split; try reflexivity; try discriminate.
  constructor.
Qed.

End Facts.

Lemma switch_keeps_mode (o : options) (opt : getopt_result) :
  opt <> Opt_R -> opt <> Opt_S -> opt_mode (switch o opt) = opt_mode o.
Proof. destruct opt; cbn; congruence. Qed.

Lemma crack_keeps_mode (argv : list getopt_result) (o : options) :
  ~ In Opt_R argv -> ~ In Opt_S argv -> opt_mode (crack o argv) = opt_mode o.
Proof.
  revert o. induction argv as [|opt argv IH]; intros o HR HS; [reflexivity|].
  simpl in *.
  assert (Hk : opt_mode (switch o opt) = opt_mode o)
    by (apply switch_keeps_mode; intros ->; tauto).
  destruct (error (switch o opt) =? 0); [|exact Hk].
  rewrite IH; tauto.
Qed.

End SevenFacts.

(** ** quantistool *)

Module QuantisFacts.
Import Quantis.

Lemma quantis_wrote_app (a b : list event) : wrote (a ++ b) = wrote a ++ wrote b.
Proof.
  induction a as [|e a IH]; [reflexivity|].
  destruct e; simpl; rewrite IH; reflexivity.
Qed.

Lemma quantis_accepted_app (a b : list event) :
  accepted (a ++ b) = accepted a ++ accepted b.
Proof.
  induction a as [|e a IH]; [reflexivity|].
  destruct e as [ | | | | | | | | | | |data n| | | | ]; simpl; rewrite IH;
    try reflexivity.
  destruct (n <? 1); reflexivity.
Qed.

Lemma store_length (data old : list byte) :
  length (store data old) = length old.
Proof.
  unfold store. rewrite length_firstn, length_app, length_skipn. lia.
Qed.

Section Facts.

Variable w : world.
Variable o : options.

Lemma quantis_run_app (a b : list action) (s : state) :
  run w o (a ++ b) s = run w o b (run w o a s).
Proof.
  revert s. induction a as [|x a IH]; intros s; [reflexivity|].
  destruct x; simpl; apply IH.
Qed.

Lemma quantis_run_tick (rest : list action) (s : state) :
  run w o (Tick :: rest) s = run w o rest (step w o s).
Proof. reflexivity. Qed.

Lemma quantis_run_nil (s : state) : run w o [] s = s.
Proof. reflexivity. Qed.

Lemma quantis_run_delivers (sigs : list Z) (s : state) :
  run w o (delivers sigs) s =
  set_report (report_after sigs (report s))
    (set_done (done_after sigs (done s)) s).
Proof.
  revert s. induction sigs as [|n sigs IH]; intros s.
  - destruct s; reflexivity.
  - simpl. rewrite IH. unfold handler, done_after, report_after. simpl.
    destruct (n =? SIGPIPE); [destruct s; reflexivity|].
    destruct (n =? SIGINT); [destruct s; reflexivity|].
    destruct (n =? SIGHUP); destruct s; reflexivity.
Qed.

Lemma quantis_run_invariant (P : state -> Prop) :
  (forall s, P s -> P (step w o s)) ->
  (forall n s, P s -> P (handler n s)) ->
  forall sch s, P s -> P (run w o sch s).
Proof.
  intros Hstep Hsig sch. induction sch as [|a sch IH]; intros s H; [exact H|].
  destruct a; simpl; apply IH; auto.
Qed.

Ltac case_split :=
  match goal with
  | |- context [let '(_, _) := ?p in _] => destruct p eqn:?
  | |- context [if ?b then _ else _] => destruct b eqn:?
  end.

Ltac by_cases :=
  unfold step, read, note_success, stats;
  cbn -[store wrap];
  repeat (case_split; cbn -[store wrap] in * ).

Lemma quantis_stream_step (s : state) :
  got s = wrote (trace s) ++ inflight w s ->
  got (step w o s) = wrote (trace (step w o s)) ++ inflight w (step w o s).
Proof.
  destruct s as [p d r op tot rd ty sz h b rc' wr x ck tr g].
  unfold inflight. destruct p; by_cases; intros H.
  all: rewrite ?quantis_wrote_app; cbn -[store]; rewrite ?app_nil_r in *.
  all: try congruence.
  all: try (subst g; rewrite <- ?app_assoc; reflexivity).
Qed.

Lemma quantis_stream_handler (n : Z) (s : state) :
  got s = wrote (trace s) ++ inflight w s ->
  got (handler n s) = wrote (trace (handler n s)) ++ inflight w (handler n s).
Proof.
  intros H. unfold handler.
  destruct (n =? SIGPIPE), (n =? SIGINT), (n =? SIGHUP); destruct s; exact H.
Qed.

Lemma quantis_stream_run (sch : list action) (s : state) :
  got s = wrote (trace s) ++ inflight w s ->
  got (run w o sch s) =
  wrote (trace (run w o sch s)) ++ inflight w (run w o sch s).
Proof.
  apply (quantis_run_invariant (fun s => got s = wrote (trace s) ++ inflight w s)).
  - exact quantis_stream_step.
  - exact quantis_stream_handler.
Qed.

Lemma quantis_inflight_one (s : state) : (length (inflight w s) <= 1)%nat.
Proof.
  unfold inflight. destruct (pc s); simpl; try lia.
  all: destruct (rc s <? QUANTIS_SUCCESS w); simpl; lia.
Qed.

Lemma quantis_inflight_boundary (s : state) :
  at_boundary s = true -> inflight w s = [].
Proof. unfold at_boundary, inflight. destruct (pc s); congruence. Qed.

Lemma quantis_counters_step (s : state) : counters_inv s -> counters_inv (step w o s).
Proof.
  destruct s as [p d r op tot rd ty sz h b rc' wr x ck tr g].
  unfold counters_inv, counted. destruct p; by_cases; intros [Hr Ht].
  all: rewrite ?quantis_wrote_app, ?length_app; cbn -[wrap Z.of_nat store].
  all: rewrite ?Nat.add_0_r, ?Z.add_0_r in *.
  all: try (split; assumption).
  - split.
    + rewrite Hr, wrap_add_l. reflexivity.
    + rewrite Ht, wrap_add_l, wrap_mul_l. f_equal. lia.
  - split; [|assumption]. rewrite Hr. f_equal. lia.
Qed.

Lemma quantis_counters_handler (n : Z) (s : state) :
  counters_inv s -> counters_inv (handler n s).
Proof.
  intros H. unfold handler.
  destruct (n =? SIGPIPE), (n =? SIGINT), (n =? SIGHUP); destruct s; exact H.
Qed.

Lemma quantis_counters_run (sch : list action) (s : state) :
  counters_inv s -> counters_inv (run w o sch s).
Proof. apply quantis_run_invariant; [exact quantis_counters_step | exact quantis_counters_handler]. Qed.

(** [try] is declared and never assigned; [size] and the length of the
    buffer are fixed once the loop is entered. *)
Lemma fixed_step (s : state) :
  try_ (step w o s) = try_ s /\ size (step w o s) = size s /\
  length (buffer (step w o s)) = length (buffer s).
Proof.
  destruct s as [p d r op tot rd ty sz h b rc' wr x ck tr g].
  destruct p; by_cases; rewrite ?store_length; repeat split; reflexivity.
Qed.

Lemma fixed_run (sch : list action) (s : state) :
  try_ (run w o sch s) = try_ s /\ size (run w o sch s) = size s /\
  length (buffer (run w o sch s)) = length (buffer s).
Proof.
  revert s. induction sch as [|a sch IH]; intros s; [auto|].
  destruct a as [|n]; simpl.
  - destruct (IH (step w o s)) as (A & B & C).
    destruct (fixed_step s) as (A' & B' & C'). repeat split; congruence.
  - destruct (IH (handler n s)) as (A & B & C). unfold handler in *.
    destruct (n =? SIGPIPE), (n =? SIGINT), (n =? SIGHUP); destruct s;
      repeat split; assumption.
Qed.

Lemma quantis_terminated_step (s : state) :
  terminated s = true ->
  terminated (step w o s) = true /\
  wrote (trace (step w o s)) = wrote (trace s) /\
  filter is_read (trace (step w o s)) = filter is_read (trace s) /\
  reads (step w o s) = reads s /\ total (step w o s) = total s /\
  opens (step w o s) = opens s.
Proof.
  destruct s as [p d r op tot rd ty sz h b rc' wr x ck tr g].
  unfold terminated. destruct p; cbn; try discriminate; intros _.
  all: rewrite ?quantis_wrote_app, ?filter_app; cbn; rewrite ?app_nil_r.
  all: repeat split; reflexivity.
Qed.

Lemma quantis_terminated_handler (n : Z) (s : state) :
  terminated (handler n s) = terminated s /\
  trace (handler n s) = trace s /\
  reads (handler n s) = reads s /\ total (handler n s) = total s /\
  opens (handler n s) = opens s.
Proof.
  unfold handler.
  destruct (n =? SIGPIPE), (n =? SIGINT), (n =? SIGHUP); destruct s;
    repeat split; reflexivity.
Qed.

Lemma quantis_terminated_run (sch : list action) (s : state) :
  terminated s = true ->
  terminated (run w o sch s) = true /\
  wrote (trace (run w o sch s)) = wrote (trace s) /\
  filter is_read (trace (run w o sch s)) = filter is_read (trace s) /\
  reads (run w o sch s) = reads s /\ total (run w o sch s) = total s /\
  opens (run w o sch s) = opens s.
Proof.
  revert s. induction sch as [|a sch IH]; intros s H.
  - repeat split; auto.
  - destruct a as [|n]; simpl.
    + destruct (quantis_terminated_step s H) as (H1 & H2 & H3 & H4 & H5 & H6).
      destruct (IH _ H1) as (K1 & K2 & K3 & K4 & K5 & K6).
      repeat split; congruence.
    + destruct (quantis_terminated_handler n s) as (H1 & H2 & H4 & H5 & H6).
      rewrite <- H1 in H.
      destruct (IH _ H) as (K1 & K2 & K3 & K4 & K5 & K6).
      repeat split; congruence.
Qed.

(** Segments of the loop, whatever signals are delivered in between. *)

Ltac use_facts E :=
  repeat match goal with
  | Hx : QuantisReadHandled _ _ = _ |- _ => rewrite Hx in E
  | Hx : QuantisOpen _ _ = _ |- _ => rewrite Hx in E
  | Hx : (_ =? _) = _ |- _ => rewrite Hx in E
  | Hx : (_ <? _) = _ |- _ => rewrite Hx in E
  | Hx : forall x, done_after _ x = x |- _ => rewrite Hx in E
  end.

Ltac compute_state E :=
  cbv beta iota zeta delta
    [step read note_success stats handler
     set_pc set_done set_report set_opens set_total set_reads set_handle
     set_buffer set_rc set_written set_xc called emit set_got
     pc done report opens total reads try_ size handle buffer rc written xc
     clock trace got] in E.

Ltac fields :=
  cbv beta iota zeta delta
    [set_pc set_done set_report set_opens set_total set_reads set_handle
     set_buffer set_rc set_written set_xc called emit set_got
     pc done report opens total reads try_ size handle buffer rc written xc
     clock trace got fst snd] in *.

Ltac reduce E :=
  compute_state E;
  repeat (progress (use_facts E; rewrite ?one_is_set, ?zero_is_clear in E);
          compute_state E);
  lazymatch type of E with
  | context [if _ then _ else _] => fail "a test is left undecided"
  | _ => idtac
  end.

Ltac tock E :=
  cbv beta iota zeta delta [ticks repeat] in E;
  rewrite quantis_run_tick in E;
  reduce E.

Ltac deliver E := rewrite quantis_run_app, quantis_run_delivers in E; reduce E.

Ltac tick E H :=
  let d := fresh "d" in
  let rest := fresh "rest" in
  let H' := fresh "H" in
  destruct (executed_split _ _ H) as (d & rest & -> & H');
  clear H; rename H' into H;
  deliver E; tock E.

(** The same when the schedule is known to ask for no shutdown. *)
Ltac quiet_tick E H Hq :=
  let d := fresh "d" in
  let rest := fresh "rest" in
  let H' := fresh "H" in
  let Q := fresh "Q" in
  let Hq' := fresh "Hq" in
  destruct (executed_split _ _ H) as (d & rest & -> & H');
  clear H; rename H' into H;
  pose proof (fun x => proj1 (no_shutdown_split _ _ x Hq)) as Q;
  pose proof (proj2 (no_shutdown_split _ _ 0 Hq)) as Hq';
  clear Hq; rename Hq' into Hq;
  deliver E; tock E.

Ltac finish E H :=
  let d := fresh "d" in
  destruct (executed_none _ H) as (d & ->); clear H;
  rewrite quantis_run_delivers in E; reduce E.

Ltac quiet_finish E H Hq :=
  let d := fresh "d" in
  let Q := fresh "Q" in
  destruct (executed_none _ H) as (d & ->); clear H;
  pose proof (fun x => no_shutdown_delivers _ x Hq) as Q;
  rewrite quantis_run_delivers in E; reduce E.

Lemma quantis_read_first_try (s : state) (sch : list action) :
  pc s = L_read1 ->
  QUANTIS_SUCCESS w <= fst (QuantisReadHandled w (clock s)) ->
  executed sch = 6%nat ->
  let s' := run w o sch s in
  let unit := store (snd (QuantisReadHandled w (clock s))) (buffer s) in
  pc s' = L_written /\
  reads s' = wrap (reads s + 1) /\
  total s' = wrap (total s + size s) /\
  opens s' = opens s /\ try_ s' = try_ s /\
  wrote (trace s') = wrote (trace s) ++ [unit] /\
  got s' = got s ++ [unit].
Proof.
  destruct s as [p d r op tot rd ty sz h b rc' wr x ck tr g].
  fields. intros -> Hr H. cbv zeta.
  remember (run w o sch _) as s1 eqn:E.
  destruct (QuantisReadHandled w ck) as [r1 b1] eqn:H1. fields.
  apply Z.ltb_ge in Hr.
  do 6 tick E H. finish E H. subst s1. fields.
  rewrite !quantis_wrote_app. cbn [wrote app]. rewrite ?app_nil_r.
  repeat split; reflexivity.
Qed.

Lemma quantis_read_second_try (s : state) (sch : list action) :
  pc s = L_read1 ->
  fst (QuantisReadHandled w (clock s)) < QUANTIS_SUCCESS w ->
  QUANTIS_SUCCESS w <= fst (QuantisReadHandled w (S (clock s))) ->
  executed sch = 8%nat ->
  let s' := run w o sch s in
  let unit :=
    store (snd (QuantisReadHandled w (S (clock s))))
      (store (snd (QuantisReadHandled w (clock s))) (buffer s)) in
  pc s' = L_written /\
  reads s' = wrap (reads s + 1) /\
  total s' = wrap (total s + size s) /\
  opens s' = opens s /\ try_ s' = try_ s /\
  wrote (trace s') = wrote (trace s) ++ [unit] /\
  got s' = got s ++ [unit].
Proof.
  destruct s as [p d r op tot rd ty sz h b rc' wr x ck tr g].
  fields. intros -> Hr1 Hr2 H. cbv zeta.
  remember (run w o sch _) as s1 eqn:E.
  destruct (QuantisReadHandled w ck) as [r1 b1] eqn:H1.
  destruct (QuantisReadHandled w (S ck)) as [r2 b2] eqn:H2. fields.
  apply Z.ltb_lt in Hr1. apply Z.ltb_ge in Hr2.
  do 8 tick E H. finish E H. subst s1. fields.
  rewrite !quantis_wrote_app. cbn [wrote app]. rewrite ?app_nil_r.
  repeat split; reflexivity.
Qed.

Lemma quantis_open_counts (s : state) (sch : list action) :
  pc s = L_open ->
  QUANTIS_SUCCESS w <= fst (QuantisOpen w (clock s)) ->
  executed sch = 3%nat ->
  let s' := run w o sch s in
  pc s' = L_inner /\
  opens s' = wrap (opens s + 1) /\
  handle s' = snd (QuantisOpen w (clock s)) /\
  reads s' = reads s /\ total s' = total s /\ try_ s' = try_ s /\
  trace s' =
    trace s ++ [EvOpen (fst (QuantisOpen w (clock s)))
                  (snd (QuantisOpen w (clock s)))].
Proof.
  destruct s as [p d r op tot rd ty sz h b rc' wr x ck tr g].
  fields. intros -> Hr H. cbv zeta.
  remember (run w o sch _) as s1 eqn:E.
  destruct (QuantisOpen w ck) as [r1 h1] eqn:H1. fields.
  apply Z.ltb_ge in Hr.
  do 3 tick E H. finish E H. subst s1. fields.
  repeat split; reflexivity.
Qed.

Lemma quantis_reopen (s : state) (sch : list action) :
  pc s = L_read1 -> done s = 0 -> handle s <> 0 ->
  fst (QuantisReadHandled w (clock s)) < QUANTIS_SUCCESS w ->
  fst (QuantisReadHandled w (S (clock s))) < QUANTIS_SUCCESS w ->
  executed sch = 9%nat -> no_shutdown sch ->
  let s' := run w o sch s in
  let '(r1, b1) := QuantisReadHandled w (clock s) in
  let '(r2, b2) := QuantisReadHandled w (S (clock s)) in
  let '(r3, h3) := QuantisOpen w (S (S (clock s))) in
  let retried :=
    [EvRead (handle s) r1 (store b1 (buffer s));
     EvLprintf "QuantisReadHandled try=1" r1;
     EvRead (handle s) r2 (store b2 (store b1 (buffer s)));
     EvLprintf "QuantisReadHandled try=2" r2;
     EvClose (handle s);
     EvOpen r3 h3] in
  reads s' = reads s /\ total s' = total s /\ got s' = got s /\
  if r3 <? QUANTIS_SUCCESS w
  then opens s' = opens s /\
       trace s' = trace s ++ retried ++ [EvLprintf "QuantisOpen" r3] /\
       forall more, terminated (run w o more s') = true /\
         filter is_read (trace (run w o more s')) = filter is_read (trace s')
  else pc s' = L_inner /\ opens s' = wrap (opens s + 1) /\ handle s' = h3 /\
       trace s' = trace s ++ retried.
Proof.
  destruct s as [p d r op tot rd ty sz h b rc' wr x ck tr g].
  fields. intros -> -> Hh Hr1 Hr2 H Hq. cbv zeta.
  remember (run w o sch _) as s1 eqn:E.
  destruct (QuantisReadHandled w ck) as [r1 b1] eqn:H1.
  destruct (QuantisReadHandled w (S ck)) as [r2 b2] eqn:H2.
  destruct (QuantisOpen w (S (S ck))) as [r3 h3] eqn:H3. fields.
  apply Z.ltb_lt in Hr1, Hr2. apply Z.eqb_neq in Hh.
  destruct (r3 <? QUANTIS_SUCCESS w) eqn:Hr3.
  - do 9 quiet_tick E H Hq.
    split; [|split; [|split; [|split; [|split]]]].
    1-5: quiet_finish E H Hq; subst s1; fields;
      rewrite <- ?app_assoc; reflexivity.
    intros more.
    match type of E with _ = run _ _ ?rs ?st =>
      destruct (quantis_terminated_run (rs ++ more) st eq_refl)
        as (K1 & _ & K3 & _);
      destruct (quantis_terminated_run rs st eq_refl) as (_ & _ & K3' & _)
    end.
    rewrite E, <- quantis_run_app. fields. split; [exact K1 | congruence].
  - do 9 quiet_tick E H Hq. quiet_finish E H Hq. subst s1. fields.
    rewrite <- ?app_assoc. repeat split; reflexivity.
Qed.

Lemma quantis_report_check (s : state) (d1 d2 : list Z) :
  pc s = L_if_report -> report s <> 0 ->
  let s' := run w o (Tick :: delivers d1 ++ Tick :: delivers d2 ++ [Tick]) s in
  pc s' = L_read1 /\
  trace s' = trace s ++ [EvStats (opens s) (size s) (reads s) (total s)] /\
  report s' = 0 /\
  done s' = done_after (d1 ++ d2) (done s) /\
  opens s' = opens s /\ reads s' = reads s /\ total s' = total s.
Proof.
  destruct s as [p d r op tot rd ty sz h b rc' wr x ck tr g].
  fields. intros -> Hr. cbv zeta. apply Z.eqb_neq in Hr.
  remember (run w o _ _) as s1 eqn:E.
  tock E. deliver E. tock E. deliver E. tock E.
  rewrite quantis_run_nil in E. subst s1. fields.
  rewrite done_after_app. repeat split; reflexivity.
Qed.

Lemma quantis_report_collapses (s : state) (sigs : list Z) :
  In SIGHUP sigs ->
  let s' := run w o (delivers sigs) s in
  report s' = 1 /\ pc s' = pc s /\ trace s' = trace s /\
  done s' = done_after sigs (done s).
Proof.
  intros H. cbv zeta. rewrite quantis_run_delivers. destruct s. fields.
  rewrite (report_after_hup _ _ H). repeat split; reflexivity.
Qed.

End Facts.
Section Setup.

Variable w : world.

Lemma quantis_install_events (sigs : list Z) (n : nat) (evs evs' : list event) :
  install w sigs n evs = (evs', true) ->
  forallb is_setup_event evs = true -> forallb is_setup_event evs' = true.
Proof.
  revert n evs. induction sigs as [|sg sigs IH]; intros n evs; simpl.
  - intros [= <-]. auto.
  - destruct (sigaction w n <? 0); [discriminate|].
    intros H He. apply (IH _ _ H).
    rewrite forallb_app, He. reflexivity.
Qed.

Lemma quantis_setup_entered (o : options) (s0 : state) :
  setup w o = Entered s0 ->
  exists sz buf evs,
    s0 = enter o sz buf evs /\ forallb is_setup_event evs = true /\
    length buf = Z.to_nat sz.
Proof.
  unfold setup.
  destruct (negb (error o =? 0)); [discriminate|].
  destruct (negb (daemonize o =? 0) && (daemon w <? 0)); [discriminate|].
  destruct ((query w (type o) (to_int (unit o)) =? 0) && negb (check o =? 0));
    [discriminate|].
  destruct (opt_size o =? 0); [discriminate|].
  destruct (malloc w) as [block|]; [|discriminate].
  destruct (install w _ 0 _) as [evs3 ok] eqn:Hi.
  destruct ok; [|discriminate]. cbn [negb].
  assert (H3 : forallb is_setup_event evs3 = true).
  { apply (quantis_install_events _ _ _ _ Hi). rewrite !forallb_app.
    destruct (daemonize o =? 0); reflexivity. }
  destruct (path o) as [p|].
  - destruct (fopen w); [|discriminate]. intros [= <-].
    do 3 eexists. split; [reflexivity|]. split.
    + rewrite forallb_app, H3. reflexivity.
    + rewrite store_length. apply repeat_length.
  - intros [= <-]. do 3 eexists. split; [reflexivity|]. split; [exact H3|].
    rewrite store_length. apply repeat_length.
Qed.

Lemma quantis_setup_events_quiet (evs : list event) :
  forallb is_setup_event evs = true ->
  wrote evs = [] /\ filter is_read evs = [].
Proof.
  induction evs as [|e evs IH]; [auto|].
  simpl. destruct e; simpl; try discriminate; exact IH.
Qed.

Lemma quantis_enter_invariants (o : options) (sz : Z) (buf : list byte)
    (evs : list event) :
  forallb is_setup_event evs = true ->
  let s0 := enter o sz buf evs in
  got s0 = wrote (trace s0) ++ inflight w s0 /\ counters_inv s0.
Proof.
  intros H. destruct (quantis_setup_events_quiet evs H) as [Hw Hs].
  unfold counters_inv, inflight, counted. cbn.
  rewrite Hw. repeat split; reflexivity.
Qed.

(** [query] finds the device exactly when it is present. *)

Lemma query_units (want ty : QuantisDeviceType) (unit : Z) (l : list Z)
    (rc : Z) :
  fold_left (query_unit w want unit ty) l rc =
  if type_eqb want ty && existsb (Z.eqb unit) l
     && negb (QuantisGetModulesStatus w ty unit =? 0)
  then 1 else rc.
Proof.
  revert rc. induction l as [|jj l IH]; intros rc.
  - simpl. rewrite andb_false_r. reflexivity.
  - simpl. rewrite IH. unfold query_unit.
    destruct (type_eqb want ty); simpl; [|reflexivity].
    destruct (Z.eqb_spec unit jj) as [->|Hne]; simpl; [|reflexivity].
    destruct (QuantisGetModulesStatus w ty jj =? 0); simpl.
    + rewrite andb_false_r. reflexivity.
    + destruct (existsb _ l); reflexivity.
Qed.

Lemma existsb_units (unit : Z) (n : nat) :
  existsb (Z.eqb unit) (map Z.of_nat (seq 0 n)) = true <->
  0 <= unit < Z.of_nat n.
Proof.
  rewrite existsb_exists. split.
  - intros (x & Hin & Heq). apply Z.eqb_eq in Heq. subst x.
    apply in_map_iff in Hin. destruct Hin as (k & <- & Hk).
    apply in_seq in Hk. lia.
  - intros H. exists unit. split; [|apply Z.eqb_refl].
    apply in_map_iff. exists (Z.to_nat unit). split; [lia|].
    apply in_seq. lia.
Qed.

Lemma type_eqb_eq (a b : QuantisDeviceType) : type_eqb a b = true <-> a = b.
Proof. destruct a, b; simpl; split; congruence. Qed.

Lemma query_type_found (want ty : QuantisDeviceType) (unit rc : Z) :
  want = ty -> present w want unit -> query_type w want unit rc ty = 1.
Proof.
  intros <- [Hu Hs]. unfold query_type.
  destruct (Z.leb_spec (QuantisCount w want) 0) as [Hle|Hgt]; [lia|].
  rewrite query_units.
  assert (Ht : type_eqb want want = true) by (now apply type_eqb_eq).
  assert (He : existsb (Z.eqb unit)
                 (map Z.of_nat (seq 0 (Z.to_nat (QuantisCount w want)))) = true)
    by (apply existsb_units; lia).
  apply Z.eqb_neq in Hs. rewrite Ht, He, Hs. reflexivity.
Qed.

Lemma query_type_missed (want ty : QuantisDeviceType) (unit rc : Z) :
  want <> ty \/ ~ present w want unit ->
  query_type w want unit rc ty = rc.
Proof.
  intros H. unfold query_type.
  destruct (Z.leb_spec (QuantisCount w ty) 0) as [Hle|Hgt]; [reflexivity|].
  rewrite query_units.
  destruct (type_eqb want ty) eqn:Ht; [|reflexivity].
  apply type_eqb_eq in Ht. subst ty.
  destruct H as [H|H]; [congruence|].
  destruct (existsb _ _) eqn:He; [|reflexivity].
  apply existsb_units in He.
  destruct (Z.eqb_spec (QuantisGetModulesStatus w want unit) 0) as [Hs|Hs];
    [reflexivity|].
  exfalso. apply H. split; [lia | exact Hs].
Qed.

Lemma query_present (want : QuantisDeviceType) (unit : Z) :
  present w want unit -> query w want unit = 1.
Proof.
  intros H. unfold query, TYPES. simpl.
  destruct want.
  - rewrite (query_type_found _ QUANTIS_DEVICE_PCI _ _ eq_refl H).
    apply query_type_missed. left. discriminate.
  - rewrite (query_type_missed _ QUANTIS_DEVICE_PCI);
      [|left; discriminate].
    apply (query_type_found _ _ _ _ eq_refl H).
Qed.

Lemma query_absent (want : QuantisDeviceType) (unit : Z) :
  ~ present w want unit -> query w want unit = 0.
Proof.
  intros H. unfold query, TYPES. simpl.
  rewrite !query_type_missed; auto.
Qed.

Lemma setup_check_absent (o : options) :
  error o = 0 -> daemonize o = 0 \/ 0 <= daemon w -> check o <> 0 ->
  ~ present w (type o) (to_int (unit o)) ->
  setup w o =
  Exited (xc0 o)
    ((if daemonize o =? 0 then [] else [EvDaemon (daemon w)]) ++
     [EvQuery (type o) (to_int (unit o)) 0; EvFclose]).
Proof.
  intros He Hd Hc Hp. unfold setup. rewrite He. cbn [Z.eqb negb].
  assert (Hdm : negb (daemonize o =? 0) && (daemon w <? 0) = false).
  { destruct Hd as [-> | Hd]; [reflexivity|].
    apply Z.ltb_ge in Hd. rewrite Hd. apply andb_false_r. }
  rewrite Hdm, (query_absent _ _ Hp). apply Z.eqb_neq in Hc. rewrite Hc.
  cbn [Z.eqb negb andb]. rewrite <- app_assoc. reflexivity.
Qed.

Lemma setup_size_zero (o : options) :
  error o = 0 -> daemonize o = 0 \/ 0 <= daemon w -> opt_size o = 0 ->
  check o = 0 \/ present w (type o) (to_int (unit o)) ->
  setup w o =
  Exited 0
    ((if daemonize o =? 0 then [] else [EvDaemon (daemon w)]) ++
     [EvQuery (type o) (to_int (unit o))
        (query w (type o) (to_int (unit o))); EvFclose]).
Proof.
  intros He Hd Hz Hc. unfold setup. rewrite He, Hz. cbn [Z.eqb negb].
  assert (Hdm : negb (daemonize o =? 0) && (daemon w <? 0) = false).
  { destruct Hd as [-> | Hd]; [reflexivity|].
    apply Z.ltb_ge in Hd. rewrite Hd. apply andb_false_r. }
  rewrite Hdm.
  assert (Hq : (query w (type o) (to_int (unit o)) =? 0)
               && negb (check o =? 0) = false).
  { destruct Hc as [-> | Hp]; [apply andb_false_r|].
    rewrite (query_present _ _ Hp). reflexivity. }
  rewrite Hq, <- app_assoc. reflexivity.
Qed.

Lemma switch_exit_code (max : Z) (o : options) (opt : getopt_result) :
  xc0 o = 1 \/ error o <> 0 ->
  xc0 (switch max o opt) = 1 \/ error (switch max o opt) <> 0.
Proof.
  intros H. destruct opt; cbn; try assumption; try (right; discriminate).
  destruct (negb end_is_nul || _); [right; discriminate | assumption].
Qed.

Lemma crack_exit_code (max : Z) (argv : list getopt_result) (o : options) :
  xc0 o = 1 \/ error o <> 0 ->
  xc0 (crack max o argv) = 1 \/ error (crack max o argv) <> 0.
Proof.
  revert o. induction argv as [|opt argv IH]; intros o H; [exact H|].
  simpl. pose proof (switch_exit_code max o opt H) as Hs.
  destruct (error (switch max o opt) =? 0); [apply IH|]; exact Hs.
Qed.

End Setup.

End QuantisFacts.

(** ** What the sink accepts *)

Lemma seven_accepted_all (evs : list Seven.event) :
  existsb Seven.is_short_fwrite evs = false ->
  Seven.accepted evs = Seven.wrote evs.
Proof.
  induction evs as [|e evs IH]; [reflexivity|].
  destruct e; simpl; auto.
  destruct (written <? 1); simpl; [discriminate|].
  intros H. rewrite (IH H). reflexivity.
Qed.

Lemma seven_accepted_short (evs : list Seven.event) :
  (length (Seven.accepted evs) <= length (Seven.wrote evs))%nat /\
  (existsb Seven.is_short_fwrite evs = true ->
   (length (Seven.accepted evs) < length (Seven.wrote evs))%nat).
Proof.
  induction evs as [|e evs [IH1 IH2]]; [simpl; split; [lia|discriminate]|].
  destruct e; simpl; auto.
  destruct (written <? 1); simpl; split; try lia.
  intros H. specialize (IH2 H). lia.
Qed.

Lemma quantis_accepted_all (evs : list Quantis.event) :
  existsb Quantis.is_short_fwrite evs = false ->
  Quantis.accepted evs = Quantis.wrote evs.
Proof.
  induction evs as [|e evs IH]; [reflexivity|].
  destruct e; simpl; auto.
  destruct (written <? 1); simpl; [discriminate|].
  intros H. rewrite (IH H). reflexivity.
Qed.

Lemma quantis_accepted_short (evs : list Quantis.event) :
  (length (Quantis.accepted evs) <= length (Quantis.wrote evs))%nat /\
  (existsb Quantis.is_short_fwrite evs = true ->
   (length (Quantis.accepted evs) < length (Quantis.wrote evs))%nat).
Proof.
  induction evs as [|e evs [IH1 IH2]]; [simpl; split; [lia|discriminate]|].
  destruct e; simpl; auto.
  destruct (written <? 1); simpl; split; try lia.
  intros H. specialize (IH2 H). lia.
Qed.

(** ** Every run, from the set-up on *)

Lemma seven_reachable (w : Seven.world) (o : Seven.options)
    (s0 : Seven.state) (sch : list action) :
  Seven.setup w o = Seven.Entered s0 ->
  let s := Seven.run w o sch s0 in
  Seven.got s = Seven.wrote (Seven.trace s) ++ Seven.inflight s /\
  Seven.counters_inv s /\
  (Seven.opt_mode o = Seven.FAIL -> Seven.fail_inv s).
Proof.
  intros H. destruct (SevenFacts.seven_setup_entered w o s0 H) as (evs & -> & He).
  destruct (SevenFacts.seven_enter_invariants o evs He) as (A & B & C).
  cbv zeta. split; [|split].
  - apply SevenFacts.seven_stream_run. exact A.
  - apply SevenFacts.seven_counters_run. exact B.
  - intros Hm.
    apply (SevenFacts.seven_run_invariant w o Seven.fail_inv); auto.
    + intros s. apply SevenFacts.fail_step. exact Hm.
    + intros n s. apply SevenFacts.fail_handler.
Qed.

Lemma quantis_reachable (w : Quantis.world) (o : Quantis.options)
    (s0 : Quantis.state) (sch : list action) :
  Quantis.setup w o = Quantis.Entered s0 ->
  let s := Quantis.run w o sch s0 in
  Quantis.got s = Quantis.wrote (Quantis.trace s) ++ Quantis.inflight w s /\
  Quantis.counters_inv s /\
  Quantis.try_ s = 0 /\
  length (Quantis.buffer s) = Z.to_nat (Quantis.size s).
Proof.
  intros H.
  destruct (QuantisFacts.quantis_setup_entered w o s0 H) as (sz & buf & evs & -> & He & Hl).
  destruct (QuantisFacts.quantis_enter_invariants w o sz buf evs He) as (A & B).
  destruct (QuantisFacts.fixed_run w o sch (Quantis.enter o sz buf evs))
    as (F1 & F2 & F3).
  cbv zeta. split; [|split; [|split]].
  - apply QuantisFacts.quantis_stream_run. exact A.
  - apply QuantisFacts.quantis_counters_run. exact B.
  - rewrite F1. reflexivity.
  - rewrite F2, F3. exact Hl.
Qed.

(** * More facts: shutdown, exit codes, resources *)

Module SevenRunFacts.
Import Seven SevenRun.

Ltac split_step :=
  match goal with
  | |- context [match opt_mode ?x with _ => _ end] => destruct (opt_mode x) eqn:?
  | |- context [let '(_, _) := ?p in _] => destruct p as [? [|]] eqn:?
  | |- context [let '(_, _) := ?p in _] => destruct p eqn:?
  | |- context [if ?b then _ else _] => destruct b eqn:?
  end.

Ltac step_cases :=
  unfold step, sample, note_success, setc;
  cbn -[bytes_of_word wrap Z.pow Z.modulo];
  repeat (split_step; cbn -[bytes_of_word wrap Z.pow Z.modulo] in * ).

Ltac handler_cases n s :=
  unfold handler;
  destruct (n =? SIGPIPE) eqn:?, (n =? SIGINT) eqn:?, (n =? SIGHUP) eqn:?;
  destruct s; cbn in *.

Section Facts.

Variable w : world.
Variable o : options.

(** [done] is only ever set. *)
Lemma seven_done_stays_set (sch : list action) (s : state) :
  done s <> 0 -> done (run w o sch s) <> 0.
Proof.
  apply (SevenFacts.seven_run_invariant w o (fun s => done s <> 0)).
  - intros s0. destruct s0 as [p d r t tot rd wd c rc' wr x ck tr g].
    destruct p; step_cases; auto.
  - intros n s0. handler_cases n s0; auto; discriminate.
Qed.

Lemma seven_remaining_step (s : state) :
  done s <> 0 -> pc s <> L_return ->
  (remaining (pc (step w o s)) < remaining (pc s))%nat /\
  done (step w o s) <> 0.
Proof.
  destruct s as [p d r t tot rd wd c rc' wr x ck tr g].
  cbn [pc done]. intros Hd Hp. apply Z.eqb_neq in Hd.
  destruct p; step_cases; try rewrite Hd in *; cbn; try (split; [lia|]);
    try (apply Z.eqb_neq; assumption); try congruence.
Qed.

Lemma seven_returned_stays (sch : list action) (s : state) :
  pc s = L_return -> run w o sch s = set_report (report (run w o sch s))
                                       (set_done (done (run w o sch s)) s).
Proof.
  revert s. induction sch as [|a sch IH]; intros s H.
  - destruct s; reflexivity.
  - destruct a as [|n]; simpl.
    + assert (step w o s = s) as -> by (unfold step; rewrite H; reflexivity).
      apply IH, H.
    + assert (Hp : pc (handler n s) = L_return)
        by (handler_cases n s; assumption).
      rewrite (IH _ Hp) at 1. handler_cases n s; reflexivity.
Qed.

Lemma seven_shutdown_returns (sch : list action) (s : state) :
  done s <> 0 -> (remaining (pc s) <= executed sch)%nat ->
  pc (run w o sch s) = L_return.
Proof.
  revert s. induction sch as [|a sch IH]; intros s Hd Hr.
  - unfold executed in Hr. simpl in *.
    destruct (pc s); simpl in Hr; try lia. reflexivity.
  - destruct a as [|n]; simpl.
    + destruct (pc s) eqn:Hp.
      16: { assert (step w o s = s) as ->
              by (unfold step; rewrite Hp; reflexivity).
            rewrite seven_returned_stays by exact Hp. destruct s; exact Hp. }
      all: destruct (seven_remaining_step s Hd) as [Hlt Hd'];
        [rewrite Hp; discriminate|];
        apply IH; [exact Hd'|];
        rewrite Hp in Hlt; unfold executed in *; simpl in *; lia.
    + apply IH.
      * handler_cases n s; auto; discriminate.
      * assert (pc (handler n s) = pc s) as ->
          by (handler_cases n s; reflexivity).
        exact Hr.
Qed.

Lemma seven_shutdown_writes_step (s : state) :
  done s <> 0 ->
  (length (wrote (trace (step w o s))) + writes_left (pc (step w o s))
   <= length (wrote (trace s)) + writes_left (pc s))%nat.
Proof.
  destruct s as [p d r t tot rd wd c rc' wr x ck tr g].
  cbn [pc done trace]. intros Hd. apply Z.eqb_neq in Hd.
  destruct p; step_cases; try congruence;
    rewrite ?SevenFacts.seven_wrote_app, ?length_app; cbn; lia.
Qed.

Lemma seven_shutdown_writes (sch : list action) (s : state) :
  done s <> 0 ->
  (length (wrote (trace (run w o sch s))) + writes_left (pc (run w o sch s))
   <= length (wrote (trace s)) + writes_left (pc s))%nat.
Proof.
  revert s. induction sch as [|a sch IH]; intros s Hd; [simpl; lia|].
  destruct a as [|n]; simpl.
  - pose proof (seven_shutdown_writes_step s Hd).
    assert (Hd' : done (step w o s) <> 0)
      by (apply (seven_done_stays_set [Tick] s Hd)).
    specialize (IH _ Hd'). lia.
  - assert (Hd' : done (handler n s) <> 0)
      by (apply (seven_done_stays_set [Deliver n] s Hd)).
    specialize (IH _ Hd').
    assert (E : trace (handler n s) = trace s /\ pc (handler n s) = pc s)
      by (handler_cases n s; split; reflexivity).
    destruct E as [E1 E2]. rewrite E1, E2 in IH. exact IH.
Qed.

Lemma seven_quiet_run_invariant (P : state -> Prop) :
  (forall s, P s -> P (step w o s)) ->
  (forall n s, n <> SIGPIPE -> n <> SIGINT -> P s -> P (handler n s)) ->
  forall sch s, no_shutdown sch -> P s -> P (run w o sch s).
Proof.
  intros Hstep Hsig sch. induction sch as [|a sch IH]; intros s Hq H;
    [exact H|].
  assert (Hq' : no_shutdown sch) by (intros n Hn; apply Hq; now right).
  destruct a as [|n]; simpl; apply IH; auto.
  destruct (Hq n (or_introl eq_refl)). apply Hsig; auto.
Qed.

(** The loop is left only through [done], a short write, or a sleep that
    fails for another reason than a signal. *)
Lemma seven_keeps_running (sch : list action) (s : state) :
  (forall n, 1 <= fwrite w n) ->
  (forall n, 0 <= fst (nanosleep w n) \/ snd (nanosleep w n) = EINTR) ->
  no_shutdown sch ->
  done s = 0 -> terminated s = false -> (pc s = L_written -> 1 <= written s) ->
  done (run w o sch s) = 0 /\ terminated (run w o sch s) = false.
Proof.
  intros Hw Hn Hq Hd Ht Hp.
  enough (H : done (run w o sch s) = 0 /\ terminated (run w o sch s) = false
              /\ (pc (run w o sch s) = L_written -> 1 <= written (run w o sch s)))
    by tauto.
  apply (seven_quiet_run_invariant
           (fun s => done s = 0 /\ terminated s = false /\
                     (pc s = L_written -> 1 <= written s))); auto.
  - clear s Hd Ht Hp. intros s (Hd & Ht & Hp).
    destruct s as [p d r t tot rd wd c rc' wr x ck tr g].
    cbn [pc done written] in *. subst d. unfold terminated in *.
    cbn [pc] in *. specialize (Hw ck). specialize (Hn ck).
    destruct p; try discriminate Ht; step_cases;
      repeat split; try reflexivity; try discriminate; try congruence;
      try (intros _; assumption).
    + cbn in Hn. apply Z.leb_gt in Heqb.
      apply Z.eqb_neq in Heqb0. lia.
    + specialize (Hp eq_refl). apply Z.ltb_lt in Heqb. lia.
  - clear s Hd Ht Hp. intros n s Hp Hi (Hd & Ht & Hw').
    apply Z.eqb_neq in Hp, Hi. unfold handler. rewrite Hp, Hi.
    destruct (n =? SIGHUP); destruct s; auto.
Qed.

(** After the loop, [xc] is 0 whatever ended the loop. *)
Lemma seven_exit_code_step (s : state) :
  (pc s = L_fclose \/ pc s = L_return -> xc s = 0) ->
  (pc (step w o s) = L_fclose \/ pc (step w o s) = L_return ->
   xc (step w o s) = 0).
Proof.
  destruct s as [p d r t tot rd wd c rc' wr x ck tr g]. cbn [pc xc].
  intros H. destruct p; step_cases; intros [K|K]; try discriminate K;
    try reflexivity; apply H; auto.
Qed.

Lemma seven_exit_code_run (sch : list action) (s : state) :
  (pc s = L_fclose \/ pc s = L_return -> xc s = 0) ->
  pc (run w o sch s) = L_return -> xc (run w o sch s) = 0.
Proof.
  intros H Hp.
  apply (SevenFacts.seven_run_invariant w o
           (fun s => pc s = L_fclose \/ pc s = L_return -> xc s = 0));
    auto.
  - exact seven_exit_code_step.
  - intros n s0 H0. handler_cases n s0; exact H0.
Qed.

(** The stream and the instruction. *)

Lemma seven_sampled_app (a b : list event) : sampled (a ++ b) = sampled a ++ sampled b.
Proof.
  induction a as [|e a IH]; [reflexivity|].
  destruct e as [ | | | | | |v [|]|v [|]| | | | ]; simpl; rewrite IH; reflexivity.
Qed.

Lemma seven_sampling_step (s : state) :
  opt_mode o <> FAIL -> sampling_inv s -> sampling_inv (step w o s).
Proof.
  intros Hm. destruct s as [p d r t tot rd wd c rc' wr x ck tr g].
  unfold sampling_inv, try_due, sleep_due. destruct p; step_cases;
    intros (Hg & Ht & Hs).
  all: try congruence.
  all: rewrite ?seven_sampled_app, ?filter_app, ?length_app;
    cbn -[bytes_of_word wrap Z.pow Z.modulo Z.of_nat];
    rewrite ?app_nil_r, ?Nat.add_0_r, ?Z.add_0_r in *.
  all: try (repeat split; (assumption || lia)).
  all: try (subst; repeat split; try reflexivity; try lia;
            rewrite ?wrap_add_l; f_equal; lia).
Qed.

Lemma seven_sampling_handler (n : Z) (s : state) :
  sampling_inv s -> sampling_inv (handler n s).
Proof. intros H. handler_cases n s; exact H. Qed.

Lemma seven_only_selected_step (s : state) :
  (opt_mode o <> RDRAND -> filter is_rdrand (trace s) = []) /\
  (opt_mode o <> RDSEED -> filter is_rdseed (trace s) = []) ->
  (opt_mode o <> RDRAND -> filter is_rdrand (trace (step w o s)) = []) /\
  (opt_mode o <> RDSEED -> filter is_rdseed (trace (step w o s)) = []).
Proof.
  destruct s as [p d r t tot rd wd c rc' wr x ck tr g]. cbn [trace].
  intros [H1 H2]. destruct p; step_cases.
  all: rewrite ?filter_app; cbn; rewrite ?app_nil_r.
  all: split; intros K; try congruence; auto.
Qed.

(** Reports and SIGHUPs. *)

Lemma seven_reports_step (s : state) :
  debug o = 0 ->
  (length (filter is_stats (trace (step w o s))) + report_due (step w o s)
   <= length (filter is_stats (trace s)) + report_due s)%nat.
Proof.
  intros Hdb. destruct s as [p d r t tot rd wd c rc' wr x ck tr g].
  unfold report_due. rewrite <- Z.eqb_eq in Hdb.
  destruct p; step_cases; try congruence;
    rewrite ?filter_app, ?length_app; cbn; lia.
Qed.

Lemma seven_reports_handler (n : Z) (s : state) :
  (length (filter is_stats (trace (handler n s))) + report_due (handler n s)
   <= length (filter is_stats (trace s)) + report_due s
      + (if (n =? SIGHUP)%Z then 1 else 0))%nat.
Proof.
  unfold handler, report_due.
  destruct (Z.eqb_spec n SIGPIPE) as [->|]; [destruct s; cbn; lia|].
  destruct (Z.eqb_spec n SIGINT) as [->|]; [destruct s; cbn; lia|].
  destruct (n =? SIGHUP); destruct s as [p d r t tot rd wd c rc' wr x ck tr g];
    cbn; destruct p; cbn; try destruct (r =? 0); lia.
Qed.

Lemma seven_reports_run (sch : list action) (s : state) :
  debug o = 0 ->
  (length (filter is_stats (trace (run w o sch s))) + report_due (run w o sch s)
   <= length (filter is_stats (trace s)) + report_due s + hups sch)%nat.
Proof.
  intros Hdb. revert s. induction sch as [|a sch IH]; intros s.
  - unfold hups. simpl. lia.
  - destruct a as [|n]; simpl.
    + pose proof (seven_reports_step s Hdb). specialize (IH (step w o s)).
      unfold hups in *. simpl. lia.
    + pose proof (seven_reports_handler n s). specialize (IH (handler n s)).
      unfold hups in *. simpl. destruct (n =? SIGHUP); simpl; lia.
Qed.

(** Every unit is one word. *)
Lemma seven_words_step (s : state) :
  Forall (fun u => length u = 4%nat) (wrote (trace s)) ->
  Forall (fun u => length u = 4%nat) (wrote (trace (step w o s))).
Proof.
  destruct s as [p d r t tot rd wd c rc' wr x ck tr g]. cbn [trace].
  intros H. destruct p; step_cases;
    rewrite ?SevenFacts.seven_wrote_app; cbn -[bytes_of_word];
    rewrite ?app_nil_r; try assumption.
  apply Forall_app. split; [assumption|]. repeat constructor.
Qed.

Lemma seven_words_run (sch : list action) (s : state) :
  Forall (fun u => length u = 4%nat) (wrote (trace s)) ->
  Forall (fun u => length u = 4%nat) (wrote (trace (run w o sch s))).
Proof.
  apply (SevenFacts.seven_run_invariant w o
           (fun s => Forall (fun u => length u = 4%nat) (wrote (trace s)))).
  - exact seven_words_step.
  - intros n s0 H. handler_cases n s0; exact H.
Qed.

(** The stream is closed once, on the way out. *)
Lemma seven_closed_step (s : state) :
  length (filter is_fclose (trace s))
    = match pc s with L_return => 1%nat | _ => 0%nat end ->
  length (filter is_fclose (trace (step w o s)))
    = match pc (step w o s) with L_return => 1%nat | _ => 0%nat end.
Proof.
  destruct s as [p d r t tot rd wd c rc' wr x ck tr g]. cbn [pc trace].
  destruct p; step_cases; intros H;
    rewrite ?filter_app, ?length_app; cbn; lia.
Qed.

Lemma seven_closed_run (sch : list action) (s : state) :
  length (filter is_fclose (trace s))
    = match pc s with L_return => 1%nat | _ => 0%nat end ->
  length (filter is_fclose (trace (run w o sch s)))
    = match pc (run w o sch s) with L_return => 1%nat | _ => 0%nat end.
Proof.
  apply (SevenFacts.seven_run_invariant w o
           (fun s => length (filter is_fclose (trace s))
                     = match pc s with L_return => 1%nat | _ => 0%nat end)).
  - exact seven_closed_step.
  - intros n s0 H. handler_cases n s0; exact H.
Qed.

Lemma seven_setup_events_silent (evs : list event) :
  forallb is_setup_event evs = true ->
  sampled evs = [] /\ filter is_sampling evs = [] /\
  filter is_nanosleep evs = [] /\ filter is_failed_sample evs = [] /\
  filter is_rdrand evs = [] /\ filter is_rdseed evs = [] /\
  filter is_stats evs = [] /\ filter is_fclose evs = [] /\ wrote evs = [].
Proof.
  induction evs as [|e evs IH]; [repeat split; reflexivity|].
  simpl. destruct e; simpl; try discriminate; exact IH.
Qed.

(** With an instruction selected, the units counted as read are the words
    the instruction delivered with the carry flag set. *)
Lemma seven_sampling_run (s0 : state) (sch : list action) :
  opt_mode o <> FAIL -> setup w o = Entered s0 ->
  sampling_inv (run w o sch s0).
Proof.
  intros Hm H.
  destruct (SevenFacts.seven_setup_entered w o s0 H) as (evs & -> & He).
  destruct (seven_setup_events_silent evs He) as (E1 & E2 & E3 & E4 & _).
  apply (SevenFacts.seven_run_invariant w o sampling_inv).
  - intros s1. apply seven_sampling_step, Hm.
  - apply seven_sampling_handler.
  - unfold sampling_inv, try_due, sleep_due. cbn.
    rewrite E1, E2, E3, E4. repeat split; reflexivity.
Qed.

End Facts.

(** What [fwrite] reported, call by call. *)

Lemma seven_accepted_pick (evs : list event) :
  accepted evs = pick (kept evs) (wrote evs).
Proof.
  induction evs as [|e evs IH]; [reflexivity|].
  destruct e; simpl; try exact IH.
  destruct (_ <? 1); simpl; rewrite IH; reflexivity.
Qed.

Lemma seven_kept_length (evs : list event) :
  length (kept evs) = length (wrote evs).
Proof.
  induction evs as [|e evs IH]; [reflexivity|].
  destruct e; simpl; try exact IH. rewrite IH. reflexivity.
Qed.

Lemma seven_remaining_bound (l : label) : (remaining l <= 14)%nat.
Proof. destruct l; simpl; lia. Qed.

Lemma seven_writes_left_bound (l : label) : (writes_left l <= 1)%nat.
Proof. destruct l; simpl; lia. Qed.

Lemma seven_concat_words (l : list (list byte)) :
  Forall (fun u => length u = 4%nat) l ->
  length (concat l) = (4 * length l)%nat.
Proof.
  induction 1 as [|u l Hu Hl IH]; [reflexivity|].
  simpl. rewrite length_app, Hu, IH. lia.
Qed.




End SevenRunFacts.


Module QuantisRunFacts.
Import Quantis QuantisRun.

Ltac split_step :=
  match goal with
  | |- context [let '(_, _) := ?p in _] => destruct p eqn:?
  | |- context [if ?b then _ else _] => destruct b eqn:?
  end.

Ltac step_cases :=
  unfold step, read, note_success, stats;
  cbn -[store wrap];
  repeat (split_step; cbn -[store wrap] in * ).

Ltac handler_cases n s :=
  unfold handler;
  destruct (n =? SIGPIPE) eqn:?, (n =? SIGINT) eqn:?, (n =? SIGHUP) eqn:?;
  destruct s; cbn in *.

Lemma quantis_held_app (success : Z) (a b : list event) (h : option Z) :
  held success h (a ++ b) = held success (held success h a) b.
Proof.
  revert h. induction a as [|e a IH]; intros h; [reflexivity|].
  destruct e; simpl; apply IH.
Qed.

Lemma quantis_disciplined_app (success : Z) (a b : list event) (h : option Z) :
  disciplined success h (a ++ b) =
  disciplined success h a && disciplined success (held success h a) b.
Proof.
  revert h. induction a as [|e a IH]; intros h; [reflexivity|].
  destruct e; simpl; try apply IH.
  - destruct h; [reflexivity | apply IH].
  - destruct h; [|reflexivity]. rewrite IH, andb_assoc. reflexivity.
  - destruct h; [|reflexivity]. rewrite IH, andb_assoc. reflexivity.
Qed.

Lemma quantis_reported_app (success : Z) (a b : list event) :
  reported success (a ++ b) = reported success a ++ reported success b.
Proof.
  induction a as [|e a IH]; [reflexivity|].
  destruct e; simpl; try exact IH.
  destruct (_ <? success); simpl; rewrite IH; reflexivity.
Qed.

Lemma quantis_accepted_pick (evs : list event) :
  accepted evs = pick (kept evs) (wrote evs).
Proof.
  induction evs as [|e evs IH]; [reflexivity|].
  destruct e; simpl; try exact IH.
  destruct (_ <? 1); simpl; rewrite IH; reflexivity.
Qed.

Lemma quantis_kept_length (evs : list event) :
  length (kept evs) = length (wrote evs).
Proof.
  induction evs as [|e evs IH]; [reflexivity|].
  destruct e; simpl; try exact IH. rewrite IH. reflexivity.
Qed.

Lemma quantis_setup_events_unread (success : Z) (evs : list event) :
  forallb is_setup_event evs = true -> reported success evs = [].
Proof.
  induction evs as [|e evs IH]; [reflexivity|].
  simpl. destruct e; simpl; try discriminate; exact IH.
Qed.

Section Facts.

Variable w : world.
Variable o : options.

(** The units counted as read are the buffers the library reported as
    read. *)
Lemma quantis_reported_step (s : state) :
  got s = reported (QUANTIS_SUCCESS w) (trace s) ->
  got (step w o s) = reported (QUANTIS_SUCCESS w) (trace (step w o s)).
Proof.
  destruct s as [p d r op tot rd ty sz h b rc' wr x ck tr g].
  cbn [trace got]. intros H. destruct p; step_cases;
    rewrite ?quantis_reported_app; cbn -[store];
    repeat match goal with
           | E : (_ <? _) = _ |- _ => rewrite E
           end;
    rewrite ?app_nil_r; congruence.
Qed.

Lemma quantis_reported_run (sch : list action) (s0 : state) :
  setup w o = Entered s0 ->
  got (run w o sch s0) = reported (QUANTIS_SUCCESS w) (trace (run w o sch s0)).
Proof.
  intros H.
  destruct (QuantisFacts.quantis_setup_entered w o s0 H)
    as (sz & buf & evs & -> & He & _).
  apply (QuantisFacts.quantis_run_invariant w o
           (fun s => got s = reported (QUANTIS_SUCCESS w) (trace s))).
  - exact quantis_reported_step.
  - intros n s1 K. handler_cases n s1; exact K.
  - cbn. rewrite (quantis_setup_events_unread _ evs He). reflexivity.
Qed.

Lemma quantis_done_stays_set (sch : list action) (s : state) :
  done s <> 0 -> done (run w o sch s) <> 0.
Proof.
  apply (QuantisFacts.quantis_run_invariant w o (fun s => done s <> 0)).
  - intros s0. destruct s0 as [p d r op tot rd ty sz h b rc' wr x ck tr g].
    destruct p; step_cases; auto.
  - intros n s0. handler_cases n s0; auto; discriminate.
Qed.

Lemma quantis_remaining_step (s : state) :
  done s <> 0 -> pc s <> L_return ->
  (remaining (pc (step w o s)) < remaining (pc s))%nat /\
  done (step w o s) <> 0.
Proof.
  destruct s as [p d r op tot rd ty sz h b rc' wr x ck tr g].
  cbn [pc done]. intros Hd Hp. apply Z.eqb_neq in Hd.
  destruct p; step_cases; try rewrite Hd in *; cbn; try (split; [lia|]);
    try (apply Z.eqb_neq; assumption); try congruence.
Qed.

Lemma quantis_returned_stays (sch : list action) (s : state) :
  pc s = L_return -> run w o sch s = set_report (report (run w o sch s))
                                       (set_done (done (run w o sch s)) s).
Proof.
  revert s. induction sch as [|a sch IH]; intros s H.
  - destruct s; reflexivity.
  - destruct a as [|n]; simpl.
    + assert (step w o s = s) as -> by (unfold step; rewrite H; reflexivity).
      apply IH, H.
    + assert (Hp : pc (handler n s) = L_return)
        by (handler_cases n s; assumption).
      rewrite (IH _ Hp) at 1. handler_cases n s; reflexivity.
Qed.

Lemma quantis_shutdown_returns (sch : list action) (s : state) :
  done s <> 0 -> (remaining (pc s) <= executed sch)%nat ->
  pc (run w o sch s) = L_return.
Proof.
  revert s. induction sch as [|a sch IH]; intros s Hd Hr.
  - unfold executed in Hr. simpl in *.
    destruct (pc s); simpl in Hr; try lia. reflexivity.
  - destruct a as [|n]; simpl.
    + destruct (pc s) eqn:Hp.
      23: { assert (step w o s = s) as ->
              by (unfold step; rewrite Hp; reflexivity).
            rewrite quantis_returned_stays by exact Hp. destruct s; exact Hp. }
      all: destruct (quantis_remaining_step s Hd) as [Hlt Hd'];
        [rewrite Hp; discriminate|];
        apply IH; [exact Hd'|];
        rewrite Hp in Hlt; unfold executed in *; simpl in *; lia.
    + apply IH.
      * handler_cases n s; auto; discriminate.
      * assert (pc (handler n s) = pc s) as ->
          by (handler_cases n s; reflexivity).
        exact Hr.
Qed.

Lemma quantis_shutdown_writes_step (s : state) :
  done s <> 0 ->
  (length (wrote (trace (step w o s))) + writes_left (pc (step w o s))
   <= length (wrote (trace s)) + writes_left (pc s))%nat.
Proof.
  destruct s as [p d r op tot rd ty sz h b rc' wr x ck tr g].
  cbn [pc done trace]. intros Hd. apply Z.eqb_neq in Hd.
  destruct p; step_cases; try congruence;
    rewrite ?QuantisFacts.quantis_wrote_app, ?length_app; cbn; lia.
Qed.

Lemma quantis_shutdown_writes (sch : list action) (s : state) :
  done s <> 0 ->
  (length (wrote (trace (run w o sch s))) + writes_left (pc (run w o sch s))
   <= length (wrote (trace s)) + writes_left (pc s))%nat.
Proof.
  revert s. induction sch as [|a sch IH]; intros s Hd; [simpl; lia|].
  destruct a as [|n]; simpl.
  - pose proof (quantis_shutdown_writes_step s Hd).
    assert (Hd' : done (step w o s) <> 0)
      by (apply (quantis_done_stays_set [Tick] s Hd)).
    specialize (IH _ Hd'). lia.
  - assert (Hd' : done (handler n s) <> 0)
      by (apply (quantis_done_stays_set [Deliver n] s Hd)).
    specialize (IH _ Hd').
    assert (E : trace (handler n s) = trace s /\ pc (handler n s) = pc s)
      by (handler_cases n s; split; reflexivity).
    destruct E as [E1 E2]. rewrite E1, E2 in IH. exact IH.
Qed.

Lemma quantis_quiet_run_invariant (P : state -> Prop) :
  (forall s, P s -> P (step w o s)) ->
  (forall n s, n <> SIGPIPE -> n <> SIGINT -> P s -> P (handler n s)) ->
  forall sch s, no_shutdown sch -> P s -> P (run w o sch s).
Proof.
  intros Hstep Hsig sch. induction sch as [|a sch IH]; intros s Hq H;
    [exact H|].
  assert (Hq' : no_shutdown sch) by (intros n Hn; apply Hq; now right).
  destruct a as [|n]; simpl; apply IH; auto.
  destruct (Hq n (or_introl eq_refl)). apply Hsig; auto.
Qed.

(** The loop is left only through [done] or a failed open. *)
Lemma quantis_keeps_running (sch : list action) (s : state) :
  (forall n, QUANTIS_SUCCESS w <= fst (QuantisOpen w n)) ->
  no_shutdown sch ->
  done s = 0 -> terminated s = false ->
  (pc s = L_open_rc -> QUANTIS_SUCCESS w <= rc s) ->
  done (run w o sch s) = 0 /\ terminated (run w o sch s) = false.
Proof.
  intros Ho Hq Hd Ht Hp.
  enough (H : done (run w o sch s) = 0 /\ terminated (run w o sch s) = false
              /\ (pc (run w o sch s) = L_open_rc ->
                  QUANTIS_SUCCESS w <= rc (run w o sch s)))
    by tauto.
  apply (quantis_quiet_run_invariant
           (fun s => done s = 0 /\ terminated s = false /\
                     (pc s = L_open_rc -> QUANTIS_SUCCESS w <= rc s))); auto.
  - clear s Hd Ht Hp. intros s (Hd & Ht & Hp).
    destruct s as [p d r op tot rd ty sz h b rc' wr x ck tr g].
    cbn [pc done rc] in *. subst d. unfold terminated in *.
    cbn [pc] in *. specialize (Ho ck).
    destruct p; try discriminate Ht; step_cases;
      repeat split; try reflexivity; try discriminate; try congruence.
    specialize (Hp eq_refl). apply Z.ltb_lt in Heqb0. lia.
  - clear s Hd Ht Hp. intros n s Hp Hi (Hd & Ht & Hw').
    apply Z.eqb_neq in Hp, Hi. unfold handler. rewrite Hp, Hi.
    destruct (n =? SIGHUP); destruct s; auto.
Qed.

Lemma quantis_exit_code_step (s : state) :
  (pc s = L_fclose \/ pc s = L_free \/ pc s = L_return -> xc s = 0) ->
  (pc (step w o s) = L_fclose \/ pc (step w o s) = L_free \/
   pc (step w o s) = L_return -> xc (step w o s) = 0).
Proof.
  destruct s as [p d r op tot rd ty sz h b rc' wr x ck tr g]. cbn [pc xc].
  intros H. destruct p; step_cases; intros [K|[K|K]]; try discriminate K;
    try reflexivity; apply H; auto.
Qed.

Lemma quantis_exit_code_run (sch : list action) (s : state) :
  (pc s = L_fclose \/ pc s = L_free \/ pc s = L_return -> xc s = 0) ->
  pc (run w o sch s) = L_return -> xc (run w o sch s) = 0.
Proof.
  intros H Hp.
  apply (QuantisFacts.quantis_run_invariant w o
           (fun s => pc s = L_fclose \/ pc s = L_free \/ pc s = L_return ->
                     xc s = 0)); auto.
  - exact quantis_exit_code_step.
  - intros n s0 H0. handler_cases n s0; exact H0.
Qed.

(** The life of the device handle. *)
Lemma quantis_handle_step (s : state) :
  (forall n, QUANTIS_SUCCESS w <= fst (QuantisOpen w n) ->
             snd (QuantisOpen w n) <> 0) ->
  handle_inv w s -> handle_inv w (step w o s).
Proof.
  intros Hc. destruct s as [p d r op tot rd ty sz h b rc' wr x ck tr g].
  unfold handle_inv, expected. specialize (Hc ck).
  destruct p; step_cases; intros (Hd & Hh & Hn).
  all: rewrite ?quantis_disciplined_app, ?quantis_held_app, ?Hd, ?Hh;
    cbn -[store]; rewrite ?Z.eqb_refl;
    repeat match goal with
           | Hx : (_ <? _) = _ |- _ => rewrite Hx
           end; cbn -[store].
  all: try (repeat split; (reflexivity || assumption || congruence)).
  all: try (repeat split; try reflexivity; try congruence;
            intros _; apply Hn; discriminate).
  - repeat split; try reflexivity. intros _. apply Hc.
    cbn. apply Z.ltb_ge. assumption.
  - exfalso. apply Z.eqb_eq in Heqb0. apply Hn; [discriminate | assumption].
Qed.

Lemma quantis_handle_handler (n : Z) (s : state) :
  handle_inv w s -> handle_inv w (handler n s).
Proof. intros H. handler_cases n s; exact H. Qed.

Lemma quantis_handle_run (sch : list action) (s : state) :
  (forall n, QUANTIS_SUCCESS w <= fst (QuantisOpen w n) ->
             snd (QuantisOpen w n) <> 0) ->
  handle_inv w s -> handle_inv w (run w o sch s).
Proof.
  intros Hc. apply QuantisFacts.quantis_run_invariant.
  - intros s0. apply quantis_handle_step, Hc.
  - exact quantis_handle_handler.
Qed.

(** Reports and SIGHUPs. *)
Lemma quantis_reports_step (s : state) :
  debug o = 0 ->
  (length (filter is_stats (trace (step w o s))) + report_due (step w o s)
   <= length (filter is_stats (trace s)) + report_due s)%nat.
Proof.
  intros Hdb. destruct s as [p d r op tot rd ty sz h b rc' wr x ck tr g].
  unfold report_due. rewrite <- Z.eqb_eq in Hdb.
  destruct p; step_cases; try congruence;
    rewrite ?filter_app, ?length_app; cbn; lia.
Qed.

Lemma quantis_reports_handler (n : Z) (s : state) :
  (length (filter is_stats (trace (handler n s))) + report_due (handler n s)
   <= length (filter is_stats (trace s)) + report_due s
      + (if (n =? SIGHUP)%Z then 1 else 0))%nat.
Proof.
  unfold handler, report_due.
  destruct (Z.eqb_spec n SIGPIPE) as [->|]; [destruct s; cbn; lia|].
  destruct (Z.eqb_spec n SIGINT) as [->|]; [destruct s; cbn; lia|].
  destruct (n =? SIGHUP);
    destruct s as [p d r op tot rd ty sz h b rc' wr x ck tr g];
    cbn; destruct p; cbn; try destruct (r =? 0); lia.
Qed.

Lemma quantis_reports_run (sch : list action) (s : state) :
  debug o = 0 ->
  (length (filter is_stats (trace (run w o sch s))) + report_due (run w o sch s)
   <= length (filter is_stats (trace s)) + report_due s + hups sch)%nat.
Proof.
  intros Hdb. revert s. induction sch as [|a sch IH]; intros s.
  - unfold hups. simpl. lia.
  - destruct a as [|n]; simpl.
    + pose proof (quantis_reports_step s Hdb). specialize (IH (step w o s)).
      unfold hups in *. simpl. lia.
    + pose proof (quantis_reports_handler n s). specialize (IH (handler n s)).
      unfold hups in *. simpl. destruct (n =? SIGHUP); simpl; lia.
Qed.

(** Every unit is one buffer. *)
Lemma quantis_units_step (s : state) :
  Forall (fun u => length u = length (buffer s)) (wrote (trace s)) ->
  Forall (fun u => length u = length (buffer (step w o s)))
    (wrote (trace (step w o s))).
Proof.
  destruct s as [p d r op tot rd ty sz h b rc' wr x ck tr g].
  cbn [trace buffer]. intros H. destruct p; step_cases;
    rewrite ?QuantisFacts.quantis_wrote_app; cbn -[store];
    rewrite ?app_nil_r, ?QuantisFacts.store_length; try assumption.
  apply Forall_app. split; [assumption|]. repeat constructor.
Qed.

Lemma quantis_units_run (sch : list action) (s : state) :
  Forall (fun u => length u = length (buffer s)) (wrote (trace s)) ->
  Forall (fun u => length u = length (buffer (run w o sch s)))
    (wrote (trace (run w o sch s))).
Proof.
  apply (QuantisFacts.quantis_run_invariant w o
           (fun s => Forall (fun u => length u = length (buffer s))
                       (wrote (trace s)))).
  - exact quantis_units_step.
  - intros n s0 H. handler_cases n s0; exact H.
Qed.

(** What is released on the way out. *)
Lemma quantis_released_step (s : state) : released_inv s -> released_inv (step w o s).
Proof.
  destruct s as [p d r op tot rd ty sz h b rc' wr x ck tr g].
  unfold released_inv. destruct p; step_cases; intros (Ha & Hf & Hc & Hr);
    rewrite ?filter_app, ?length_app; cbn -[store];
    rewrite ?app_nil_r, ?Nat.add_0_r; repeat split; (assumption || lia).
Qed.

Lemma quantis_released_run (sch : list action) (s : state) :
  released_inv s -> released_inv (run w o sch s).
Proof.
  apply QuantisFacts.quantis_run_invariant.
  - exact quantis_released_step.
  - intros n s0 H. handler_cases n s0; exact H.
Qed.

End Facts.
Section Setup.

Variable w : world.

(** [install] only appends [sigaction] calls and their diagnostic. *)
Lemma quantis_install_filter (f : event -> bool) (sigs : list Z) (n : nat)
    (evs evs' : list event) (ok : bool) :
  (forall sg r, f (EvSigaction sg r) = false) ->
  (forall what, f (EvLerror what) = false) ->
  install w sigs n evs = (evs', ok) -> filter f evs' = filter f evs.
Proof.
  intros Hs He. revert n evs. induction sigs as [|sg sigs IH]; intros n evs.
  - simpl. intros [= <- <-]. reflexivity.
  - simpl. destruct (sigaction w n <? 0).
    + intros [= <- <-]. rewrite !filter_app. simpl. rewrite Hs, He.
      rewrite !app_nil_r. reflexivity.
    + intros H. rewrite (IH _ _ H), filter_app. simpl. rewrite Hs.
      apply app_nil_r.
Qed.

Lemma quantis_setup_events_closed (evs : list event) :
  forallb is_setup_event evs = true ->
  held (QUANTIS_SUCCESS w) None evs = None /\
  disciplined (QUANTIS_SUCCESS w) None evs = true /\
  filter is_fclose evs = [] /\ filter is_free evs = [] /\
  filter is_stats evs = [].
Proof.
  induction evs as [|e evs IH]; [repeat split; reflexivity|].
  simpl. destruct e; simpl; try discriminate; exact IH.
Qed.

Lemma quantis_entered_shape (o : options) (s0 : state) :
  setup w o = Entered s0 ->
  exists buf evs,
    s0 = enter o (clamp w o) buf evs /\
    forallb is_setup_event evs = true /\
    length buf = Z.to_nat (clamp w o) /\
    length (filter is_allocation evs) = 1%nat /\
    filter is_failed_fopen evs = [] /\
    error o = 0 /\ opt_size o <> 0.
Proof.
  unfold setup, clamp.
  destruct (Z.eqb_spec (error o) 0) as [He|He]; [|discriminate]. cbn [negb].
  destruct (negb (daemonize o =? 0) && (daemon w <? 0)); [discriminate|].
  destruct ((query w (type o) (to_int (unit o)) =? 0) && negb (check o =? 0));
    [discriminate|].
  destruct (Z.eqb_spec (opt_size o) 0) as [Hz|Hz]; [discriminate|].
  destruct (malloc w) as [block|]; [|discriminate].
  destruct (install w _ 0 _) as [evs3 ok] eqn:Hi.
  destruct ok; [|discriminate]. cbn [negb].
  assert (H3 : forallb is_setup_event evs3 = true).
  { apply (QuantisFacts.quantis_install_events _ _ _ _ _ Hi).
    rewrite !forallb_app. destruct (daemonize o =? 0); reflexivity. }
  assert (Ha : length (filter is_allocation evs3) = 1%nat).
  { rewrite (quantis_install_filter is_allocation _ _ _ _ _
               (fun _ _ => eq_refl) (fun _ => eq_refl) Hi).
    rewrite !filter_app. destruct (daemonize o =? 0); reflexivity. }
  assert (Hf : filter is_failed_fopen evs3 = []).
  { rewrite (quantis_install_filter is_failed_fopen _ _ _ _ _
               (fun _ _ => eq_refl) (fun _ => eq_refl) Hi).
    rewrite !filter_app. destruct (daemonize o =? 0); reflexivity. }
  destruct (path o) as [p|].
  - destruct (fopen w); [|discriminate]. intros [= <-].
    do 2 eexists. split; [reflexivity|].
    rewrite forallb_app, !filter_app, length_app, H3, Ha, Hf.
    rewrite QuantisFacts.store_length, repeat_length.
    repeat split; auto.
  - intros [= <-]. do 2 eexists. split; [reflexivity|].
    rewrite QuantisFacts.store_length, repeat_length. repeat split; auto.
Qed.

Lemma quantis_present_dec (want : QuantisDeviceType) (unit : Z) :
  present w want unit \/ ~ present w want unit.
Proof.
  unfold present.
  destruct (Z_le_dec 0 unit); [|right; lia].
  destruct (Z_lt_dec unit (QuantisCount w want)); [|right; lia].
  destruct (Z.eq_dec (QuantisGetModulesStatus w want unit) 0);
    [right; tauto | left; tauto].
Qed.

Lemma quantis_exited_shape (o : options) (c : Z) (evs : list event) :
  error o = 0 -> setup w o = Exited c evs ->
  (c = 0 /\ opt_size o = 0 /\
   (check o = 0 \/ present w (type o) (to_int (unit o))) /\
   filter is_diagnostic evs = []
   \/ c = xc0 o) /\
  length (filter is_free evs) = length (filter is_allocation evs) /\
  (length (filter is_fclose evs) + length (filter is_failed_fopen evs) = 1)%nat.
Proof.
  intros He. unfold setup. rewrite He. cbn [Z.eqb negb].
  set (evs0 := if daemonize o =? 0 then [] else [EvDaemon (daemon w)]).
  assert (E0 : forall f, (forall r, f (EvDaemon r) = false) ->
                         filter f evs0 = []).
  { intros f Hf. unfold evs0. destruct (daemonize o =? 0); simpl;
      rewrite ?Hf; reflexivity. }
  destruct (negb (daemonize o =? 0) && (daemon w <? 0)).
  { intros [= <- <-]. rewrite !filter_app, !E0 by reflexivity.
    repeat split; auto. }
  destruct ((query w (type o) (to_int (unit o)) =? 0) && negb (check o =? 0))
    eqn:Hqc.
  { intros [= <- <-]. rewrite !filter_app, !E0 by reflexivity.
    repeat split; auto. }
  assert (Hpass : check o = 0 \/ present w (type o) (to_int (unit o))).
  { apply andb_false_iff in Hqc. destruct Hqc as [Hq|Hc].
    - right. apply Z.eqb_neq in Hq.
      destruct (quantis_present_dec (type o) (to_int (unit o))) as [Hp|Hp];
        [exact Hp | exfalso; apply Hq, QuantisFacts.query_absent, Hp].
    - left. apply negb_false_iff, Z.eqb_eq in Hc. exact Hc. }
  destruct (Z.eqb_spec (opt_size o) 0) as [Hz|Hz].
  { intros [= <- <-]. rewrite !filter_app, !E0 by reflexivity.
    split; [left; repeat split; auto | split; reflexivity]. }
  destruct (malloc w) as [block|].
  2: { intros [= <- <-]. rewrite !filter_app, !E0 by reflexivity.
       repeat split; auto. }
  destruct (install w _ 0 _) as [evs3 ok] eqn:Hi.
  pose proof (quantis_install_filter is_free _ _ _ _ _
                (fun _ _ => eq_refl) (fun _ => eq_refl) Hi) as F1.
  pose proof (quantis_install_filter is_allocation _ _ _ _ _
                (fun _ _ => eq_refl) (fun _ => eq_refl) Hi) as F2.
  pose proof (quantis_install_filter is_fclose _ _ _ _ _
                (fun _ _ => eq_refl) (fun _ => eq_refl) Hi) as F3.
  pose proof (quantis_install_filter is_failed_fopen _ _ _ _ _
                (fun _ _ => eq_refl) (fun _ => eq_refl) Hi) as F4.
  rewrite !filter_app, !E0 in F1, F2, F3, F4 by reflexivity.
  simpl in F1, F2, F3, F4.
  destruct ok; cbn [negb].
  2: { intros [= <- <-]. rewrite !filter_app, F1, F2, F3, F4.
       repeat split; auto. }
  destruct (path o) as [p|]; [|discriminate].
  destruct (fopen w); [discriminate|].
  intros [= <- <-]. rewrite !filter_app, F1, F2, F3, F4.
  repeat split; auto.
Qed.

(** The option switch. *)



Lemma quantis_crack_error_or_accepted (max : Z) (argv : list getopt_result)
    (o : options) :
  error o = 0 -> 0 <= opt_size o <= max -> 0 <= unit o < 2 ^ 32 ->
  error (crack max o argv) = 0 ->
  0 <= opt_size (crack max o argv) <= max /\
  0 <= unit (crack max o argv) < 2 ^ 32.
Proof.
  revert o. induction argv as [|opt argv IH]; intros o He Hs Hu H;
    [split; assumption|].
  simpl in *. destruct (Z.eqb_spec (error (switch max o opt)) 0) as [E|E];
    [|contradiction].
  apply IH; auto.
  - destruct opt; cbn in *; auto.
    destruct (negb end_is_nul || negb ((0 <=? wrap value) && (wrap value <=? max)))
      eqn:Hb; [discriminate E|].
    apply orb_false_elim in Hb. destruct Hb as [_ Hb].
    apply negb_false_iff, andb_prop in Hb. destruct Hb as [H1 H2].
    apply Z.leb_le in H1, H2. lia.
  - destruct opt; cbn in *; auto; unfold to_unsigned_int;
      apply Z.mod_pos_bound; reflexivity.
Qed.

End Setup.

Lemma quantis_remaining_bound (l : label) : (remaining l <= 19)%nat.
Proof. destruct l; simpl; lia. Qed.

Lemma quantis_writes_left_bound (l : label) : (writes_left l <= 1)%nat.
Proof. destruct l; simpl; lia. Qed.

Lemma quantis_concat_units (n : nat) (l : list (list byte)) :
  Forall (fun u => length u = n) l ->
  length (concat l) = (n * length l)%nat.
Proof.
  induction 1 as [|u l Hu Hl IH]; [simpl; lia|].
  simpl. rewrite length_app, Hu, IH. lia.
Qed.

End QuantisRunFacts.

(** * The claims *)

(** C1, as the claim states it, fails.  [seventool -R] on a sink that takes
    nothing: the instruction delivers one word, the write of it falls
    short, and the process returns with nothing delivered.
    [quantistool -r 4] on a sink that falls short once, with no signal:
    of the three units the library has reported as read the sink has taken
    the second and the third.  [seventool] without [-R] or [-S]: a unit is
    delivered though no instruction was executed. *)
Lemma C1_unit_read_is_not_delivered :
  (Seven.main_setup Cases.seven_short_write Scenario.seven_R
     = Seven.Entered Scenario.seven_start /\
   let s := Seven.run Cases.seven_short_write Scenario.seven_opts_R
              (ticks 11) Scenario.seven_start in
   Seven.pc s = Seven.L_return /\
   SevenRun.sampled (Seven.trace s) = [bytes_of_word 0x1234ABCD] /\
   SevenRun.delivered s = [] /\
   SevenRun.delivered s <> concat (SevenRun.sampled (Seven.trace s)))
  /\
  (Quantis.main_setup Cases.quantis_lossy Scenario.quantis_r4
     = Quantis.Entered Scenario.quantis_start /\
   let s := Quantis.run Cases.quantis_lossy
              (Scenario.quantis_opts Scenario.quantis_r4)
              (ticks 38) Scenario.quantis_start in
   Quantis.pc s = Quantis.L_inner /\ Quantis.done s = 0 /\
   QuantisRun.reported 0 (Quantis.trace s)
     = [bytes_of_word 1; bytes_of_word 4; bytes_of_word 6] /\
   QuantisRun.delivered s = bytes_of_word 4 ++ bytes_of_word 6 /\
   QuantisRun.delivered s <> concat (QuantisRun.reported 0 (Quantis.trace s)))
  /\
  (Seven.main_setup Scenario.seven_world []
     = Seven.Entered Cases.seven_plain_start /\
   let s := Seven.run Scenario.seven_world Seven.defaults
              (ticks 10) Cases.seven_plain_start in
   Seven.pc s = Seven.L_while /\
   filter Seven.is_sampling (Seven.trace s) = [] /\
   SevenRun.delivered s = bytes_of_word Seven.DEADCODE).
Proof.
  split; [|split].
  - split; [reflexivity|]. cbv zeta.
    split; [reflexivity|]. split; [reflexivity|]. split; [reflexivity|].
    vm_compute. discriminate.
  - split; [reflexivity|]. cbv zeta.
    split; [reflexivity|]. split; [reflexivity|]. split; [reflexivity|].
    split; [reflexivity|]. vm_compute. discriminate.
  - split; [reflexivity|]. cbv zeta.
    split; [reflexivity|]. split; reflexivity.
Qed.

(** C1, amended.  In every run of either tool the units handed to the sink
    are, in read order and once each, exactly the units the source has
    reported as read (for seventool with [-R] or [-S]: the words the
    instruction delivered with the carry flag set), less the one unit that
    is read and not yet written; nothing else is handed over and at most
    one unit is in flight.  The units the sink reports as written are those
    of the units read whose [fwrite] did not fall short: as long as no
    write has fallen short the delivered stream, with the unit in flight,
    is the concatenation of the units read, and between two iterations it
    is that concatenation itself.  In seventool without [-R] and [-S] no
    instruction is executed and every unit handed over is the initial
    word. *)
Theorem C1_delivered_units_are_units_read :
  (forall (w : Seven.world) (o : Seven.options) (s0 : Seven.state)
          (sch : list action),
     Seven.setup w o = Seven.Entered s0 ->
     let s := Seven.run w o sch s0 in
     let read := SevenRun.sampled (Seven.trace s) in
     (length (Seven.inflight s) <= 1)%nat /\
     (Seven.opt_mode o <> Seven.FAIL ->
      Seven.wrote (Seven.trace s) ++ Seven.inflight s = read /\
      Seven.accepted (Seven.trace s)
        = pick (SevenRun.kept (Seven.trace s)) read /\
      (existsb Seven.is_short_fwrite (Seven.trace s) = false ->
       SevenRun.delivered s ++ concat (Seven.inflight s) = concat read /\
       (Seven.at_boundary s = true -> SevenRun.delivered s = concat read))) /\
     (Seven.opt_mode o = Seven.FAIL ->
      filter Seven.is_sampling (Seven.trace s) = [] /\
      Forall (eq (bytes_of_word Seven.DEADCODE)) (Seven.wrote (Seven.trace s))))
  /\
  (forall (w : Quantis.world) (o : Quantis.options) (s0 : Quantis.state)
          (sch : list action),
     Quantis.setup w o = Quantis.Entered s0 ->
     let s := Quantis.run w o sch s0 in
     let read := QuantisRun.reported (Quantis.QUANTIS_SUCCESS w)
                   (Quantis.trace s) in
     (length (Quantis.inflight w s) <= 1)%nat /\
     Quantis.wrote (Quantis.trace s) ++ Quantis.inflight w s = read /\
     Quantis.accepted (Quantis.trace s)
       = pick (QuantisRun.kept (Quantis.trace s)) read /\
     (existsb Quantis.is_short_fwrite (Quantis.trace s) = false ->
      QuantisRun.delivered s ++ concat (Quantis.inflight w s) = concat read /\
      (Quantis.at_boundary s = true -> QuantisRun.delivered s = concat read))).
Proof.
  split.
  - intros w o s0 sch H s read.
    destruct (seven_reachable w o s0 sch H) as (A & _ & F). fold s in A, F.
    split; [apply SevenFacts.seven_inflight_one|]. split.
    + intros Hm.
      destruct (SevenRunFacts.seven_sampling_run w o s0 sch Hm H) as (G & _).
      fold s in G.
      assert (R : Seven.wrote (Seven.trace s) ++ Seven.inflight s = read)
        by (unfold read; rewrite <- G, A; reflexivity).
      split; [exact R|]. split.
      * rewrite <- R, pick_app_l
          by (rewrite SevenRunFacts.seven_kept_length; apply Nat.le_refl).
        apply SevenRunFacts.seven_accepted_pick.
      * intros Hs.
        assert (D : SevenRun.delivered s ++ concat (Seven.inflight s)
                    = concat read).
        { unfold SevenRun.delivered.
          rewrite (seven_accepted_all _ Hs), <- concat_app, R. reflexivity. }
        split; [exact D|]. intros Hb.
        rewrite (SevenFacts.seven_inflight_boundary _ Hb) in D.
        simpl in D. rewrite app_nil_r in D. exact D.
    + intros Hm. destruct (F Hm) as (_ & _ & _ & F4 & F5 & _).
      split; [exact F4 | exact F5].
  - intros w o s0 sch H s read.
    destruct (quantis_reachable w o s0 sch H) as (A & _). fold s in A.
    pose proof (QuantisRunFacts.quantis_reported_run w o sch s0 H) as G.
    fold s in G.
    assert (R : Quantis.wrote (Quantis.trace s) ++ Quantis.inflight w s = read)
      by (unfold read; rewrite <- G, A; reflexivity).
    split; [apply QuantisFacts.quantis_inflight_one|].
    split; [exact R|]. split.
    + rewrite <- R, pick_app_l
        by (rewrite QuantisRunFacts.quantis_kept_length; apply Nat.le_refl).
      apply QuantisRunFacts.quantis_accepted_pick.
    + intros Hs.
      assert (D : QuantisRun.delivered s ++ concat (Quantis.inflight w s)
                  = concat read).
      { unfold QuantisRun.delivered.
        rewrite (quantis_accepted_all _ Hs), <- concat_app, R. reflexivity. }
      split; [exact D|]. intros Hb.
      rewrite (QuantisFacts.quantis_inflight_boundary w _ Hb) in D.
      simpl in D. rewrite app_nil_r in D. exact D.
Qed.

(** C1 on [seventool -R] interrupted and run to its return, on
    [quantistool -r 4] after a write that fell short and with none, and on
    [seventool] without options. *)
Lemma C1_delivered_units_witness :
  (Seven.setup Scenario.seven_world Scenario.seven_opts_R
     = Seven.Entered Scenario.seven_start /\
   Seven.opt_mode Scenario.seven_opts_R <> Seven.FAIL /\
   let s := Seven.run Scenario.seven_world Scenario.seven_opts_R
              Cases.interrupted Scenario.seven_start in
   existsb Seven.is_short_fwrite (Seven.trace s) = false /\
   Seven.at_boundary s = true /\
   SevenRun.delivered s = concat (SevenRun.sampled (Seven.trace s)))
  /\
  (Quantis.setup Cases.quantis_lossy (Scenario.quantis_opts Scenario.quantis_r4)
     = Quantis.Entered Scenario.quantis_start /\
   let s := Quantis.run Cases.quantis_lossy
              (Scenario.quantis_opts Scenario.quantis_r4)
              (ticks 38) Scenario.quantis_start in
   Quantis.accepted (Quantis.trace s)
     = pick [false; true; true]
         (QuantisRun.reported 0 (Quantis.trace s)))
  /\
  (Quantis.setup Scenario.quantis_world (Scenario.quantis_opts Scenario.quantis_r4)
     = Quantis.Entered Scenario.quantis_start /\
   let s := Quantis.run Scenario.quantis_world
              (Scenario.quantis_opts Scenario.quantis_r4)
              (ticks 40) Scenario.quantis_start in
   existsb Quantis.is_short_fwrite (Quantis.trace s) = false /\
   QuantisRun.delivered s ++ concat (Quantis.inflight Scenario.quantis_world s)
     = concat (QuantisRun.reported 0 (Quantis.trace s)))
  /\
  (Seven.setup Scenario.seven_world Seven.defaults
     = Seven.Entered Cases.seven_plain_start /\
   Seven.opt_mode Seven.defaults = Seven.FAIL /\
   let s := Seven.run Scenario.seven_world Seven.defaults
              (ticks 10) Cases.seven_plain_start in
   filter Seven.is_sampling (Seven.trace s) = []).
Proof.
  destruct C1_delivered_units_are_units_read as [HS HQ].
  assert (Hm : Seven.opt_mode Scenario.seven_opts_R <> Seven.FAIL)
    by discriminate.
  split; [|split; [|split]].
  - split; [reflexivity|]. split; [exact Hm|]. cbv zeta.
    split; [reflexivity|]. split; [reflexivity|].
    destruct (HS Scenario.seven_world Scenario.seven_opts_R Scenario.seven_start
                Cases.interrupted eq_refl) as (_ & A & _).
    destruct (A Hm) as (_ & _ & B).
    destruct (B eq_refl) as (_ & C). exact (C eq_refl).
  - split; [reflexivity|]. cbv zeta.
    destruct (HQ Cases.quantis_lossy (Scenario.quantis_opts Scenario.quantis_r4)
                Scenario.quantis_start (ticks 38) eq_refl) as (_ & _ & A & _).
    rewrite A. reflexivity.
  - split; [reflexivity|]. cbv zeta. split; [reflexivity|].
    destruct (HQ Scenario.quantis_world (Scenario.quantis_opts Scenario.quantis_r4)
                Scenario.quantis_start (ticks 40) eq_refl) as (_ & _ & _ & A).
    destruct (A eq_refl) as (B & _). exact B.
  - split; [reflexivity|]. split; [reflexivity|]. cbv zeta.
    destruct (HS Scenario.seven_world Seven.defaults Cases.seven_plain_start
                (ticks 10) eq_refl) as (_ & _ & A).
    destruct (A eq_refl) as (B & _). exact B.
Defined.

(** C2.  quantistool, a sink that falls short on the first write and a run
    in which no signal arrives: after the short write the loop closes the
    device, opens it again and reads again. *)
Theorem C2_quantistool_reads_after_short_write :
  Quantis.main_setup Scenario.quantis_short_write Scenario.quantis_r4
    = Quantis.Entered Scenario.quantis_start /\
  let s := Quantis.run Scenario.quantis_short_write
             (Scenario.quantis_opts Scenario.quantis_r4)
             (ticks 21) Scenario.quantis_start in
  Quantis.done s = 0 /\
  Quantis.terminated s = false /\
  skipn 5 (Quantis.trace s) =
    [Quantis.EvOpen 0 1000;
     Quantis.EvRead 1000 4 Scenario.four_bytes;
     Quantis.EvFwrite Scenario.four_bytes 0;
     Quantis.EvLerror "fwrite";
     Quantis.EvClose 1000;
     Quantis.EvOpen 0 1003;
     Quantis.EvRead 1003 4 Scenario.four_bytes].
Proof. repeat split; reflexivity. Qed.

(** C3.  quantistool, at the read of an iteration, with an open handle and
    no shutdown requested before or during what follows: when the read and
    its one retry on the same handle both fail, the handle is closed and
    the device is opened again; [reads] and [total] are unchanged; if the
    open succeeds the loop reads on with [opens] one higher, and if it
    fails the work loop is left for good and nothing is read any more. *)
Theorem C3_two_read_failures_reopen :
  forall (w : Quantis.world) (o : Quantis.options) (s : Quantis.state)
         (sch : list action),
  Quantis.pc s = Quantis.L_read1 -> Quantis.done s = 0 ->
  Quantis.handle s <> 0 ->
  fst (Quantis.QuantisReadHandled w (Quantis.clock s))
    < Quantis.QUANTIS_SUCCESS w ->
  fst (Quantis.QuantisReadHandled w (S (Quantis.clock s)))
    < Quantis.QUANTIS_SUCCESS w ->
  executed sch = 9%nat -> no_shutdown sch ->
  let s' := Quantis.run w o sch s in
  let '(r1, b1) := Quantis.QuantisReadHandled w (Quantis.clock s) in
  let '(r2, b2) := Quantis.QuantisReadHandled w (S (Quantis.clock s)) in
  let '(r3, h3) := Quantis.QuantisOpen w (S (S (Quantis.clock s))) in
  let retried :=
    [Quantis.EvRead (Quantis.handle s) r1 (Quantis.store b1 (Quantis.buffer s));
     Quantis.EvLprintf "QuantisReadHandled try=1" r1;
     Quantis.EvRead (Quantis.handle s) r2
       (Quantis.store b2 (Quantis.store b1 (Quantis.buffer s)));
     Quantis.EvLprintf "QuantisReadHandled try=2" r2;
     Quantis.EvClose (Quantis.handle s);
     Quantis.EvOpen r3 h3] in
  Quantis.reads s' = Quantis.reads s /\
  Quantis.total s' = Quantis.total s /\
  Quantis.got s' = Quantis.got s /\
  if r3 <? Quantis.QUANTIS_SUCCESS w
  then Quantis.opens s' = Quantis.opens s /\
       Quantis.trace s' =
         Quantis.trace s ++ retried ++ [Quantis.EvLprintf "QuantisOpen" r3] /\
       forall more,
         Quantis.terminated (Quantis.run w o more s') = true /\
         filter Quantis.is_read (Quantis.trace (Quantis.run w o more s'))
           = filter Quantis.is_read (Quantis.trace s')
  else Quantis.pc s' = Quantis.L_inner /\
       Quantis.opens s' = wrap (Quantis.opens s + 1) /\
       Quantis.handle s' = h3 /\
       Quantis.trace s' = Quantis.trace s ++ retried.
Proof.
  intros w o s sch Hpc Hdone Hhandle Hfirst Hsecond Hexec Hquiet.
  exact (QuantisFacts.quantis_reopen w o s sch
           Hpc Hdone Hhandle Hfirst Hsecond Hexec Hquiet).
Qed.

(** C3 on a device whose reads always fail, with a report requested
    between the two attempts. *)
Lemma C3_two_read_failures_reopen_witness :
  let w := Scenario.quantis_hiccup in
  let o := Scenario.quantis_opts Scenario.quantis_r4 in
  let s := Quantis.run w o (ticks 6) Scenario.quantis_start in
  let sch := ticks 3 ++ [Deliver SIGHUP] ++ ticks 6 in
  let s' := Quantis.run w o sch s in
  (Quantis.pc s = Quantis.L_read1 /\ Quantis.done s = 0 /\
   Quantis.handle s <> 0 /\
   fst (Quantis.QuantisReadHandled w (Quantis.clock s))
     < Quantis.QUANTIS_SUCCESS w /\
   fst (Quantis.QuantisReadHandled w (S (Quantis.clock s)))
     < Quantis.QUANTIS_SUCCESS w /\
   executed sch = 9%nat /\ no_shutdown sch) /\
  Quantis.reads s' = Quantis.reads s /\
  Quantis.pc s' = Quantis.L_inner /\
  Quantis.opens s' = wrap (Quantis.opens s + 1).
Proof.
  cbv zeta.
  assert (Hq : no_shutdown (ticks 3 ++ [Deliver SIGHUP] ++ ticks 6)).
  { intros n H. simpl in H.
    repeat (destruct H as [H|H]; [try discriminate H|]); [|destruct H].
    injection H as <-. split; discriminate. }
  assert (Hh : Quantis.handle
                 (Quantis.run Scenario.quantis_hiccup
                    (Scenario.quantis_opts Scenario.quantis_r4) (ticks 6)
                    Scenario.quantis_start) <> 0)
    by (vm_compute; discriminate).
  pose proof (C3_two_read_failures_reopen Scenario.quantis_hiccup
                (Scenario.quantis_opts Scenario.quantis_r4)
                (Quantis.run Scenario.quantis_hiccup
                   (Scenario.quantis_opts Scenario.quantis_r4) (ticks 6)
                   Scenario.quantis_start)
                (ticks 3 ++ [Deliver SIGHUP] ++ ticks 6)
                eq_refl eq_refl Hh eq_refl eq_refl eq_refl Hq) as H.
  split.
  - repeat split; try reflexivity; try exact Hh; apply Hq; assumption.
  - destruct H as (A & _ & _ & B & C & _).
    split; [exact A | split; [exact B | exact C]].
Defined.

(** C4, as the claim states it, fails: quantistool declares [int try] and
    never assigns it, so a successful hardware read leaves the attempts
    counter where it was. *)
Lemma C4_quantistool_counts_no_attempts :
  let w := Scenario.quantis_world in
  let o := Scenario.quantis_opts Scenario.quantis_r4 in
  let s := Quantis.run w o (ticks 6) Scenario.quantis_start in
  let s' := Quantis.run w o (ticks 6) s in
  Quantis.pc s = Quantis.L_read1 /\
  Quantis.QUANTIS_SUCCESS w
    <= fst (Quantis.QuantisReadHandled w (Quantis.clock s)) /\
  Quantis.reads s' = Quantis.reads s + 1 /\
  Quantis.total s' = Quantis.total s + 4 /\
  ~ (Quantis.try_ s' = Quantis.try_ s + 1).
Proof.
  cbv zeta. repeat split; try reflexivity; vm_compute; discriminate.
Qed.

(** C4, amended.  A successful read (in seventool, an attempt that starts
    at [++tries] and whose sample comes back with the carry set) increases,
    in instruction-sampler mode, [tries] and [reads] by one and [total] by
    the four bytes of the word;
    in hardware-device mode, whether the first attempt or the retry
    succeeds, [reads] by one and [total] by the configured size, which is
    the length of the unit, while [try] stays as it is (it is zero in every
    run); and every successful open increases [opens] by one.  The counters
    are [size_t] and wrap around. *)
Theorem C4_successful_read_counters :
  (forall (w : Seven.world) (o : Seven.options) (s : Seven.state)
          (sch : list action),
     Seven.pc s = Seven.L_tries ->
     Seven.carry (Seven.sample w o s) <> 0 ->
     executed sch = 6%nat ->
     let s' := Seven.run w o sch s in
     let unit := bytes_of_word (Seven.word (Seven.sample w o s)) in
     Seven.pc s' = Seven.L_written /\
     Seven.tries s' = wrap (Seven.tries s + 1) /\
     Seven.reads s' = wrap (Seven.reads s + 1) /\
     Seven.total s' = wrap (Seven.total s + Seven.sizeof_word) /\
     Seven.wrote (Seven.trace s') = Seven.wrote (Seven.trace s) ++ [unit] /\
     Seven.got s' = Seven.got s ++ [unit])
  /\
  (forall (w : Quantis.world) (o : Quantis.options) (s : Quantis.state)
          (sch : list action),
     Quantis.pc s = Quantis.L_read1 ->
     Quantis.QUANTIS_SUCCESS w
       <= fst (Quantis.QuantisReadHandled w (Quantis.clock s)) ->
     executed sch = 6%nat ->
     let s' := Quantis.run w o sch s in
     let unit :=
       Quantis.store (snd (Quantis.QuantisReadHandled w (Quantis.clock s)))
         (Quantis.buffer s) in
     Quantis.pc s' = Quantis.L_written /\
     Quantis.reads s' = wrap (Quantis.reads s + 1) /\
     Quantis.total s' = wrap (Quantis.total s + Quantis.size s) /\
     Quantis.opens s' = Quantis.opens s /\
     Quantis.try_ s' = Quantis.try_ s /\
     Quantis.wrote (Quantis.trace s')
       = Quantis.wrote (Quantis.trace s) ++ [unit] /\
     Quantis.got s' = Quantis.got s ++ [unit])
  /\
  (forall (w : Quantis.world) (o : Quantis.options) (s : Quantis.state)
          (sch : list action),
     Quantis.pc s = Quantis.L_read1 ->
     fst (Quantis.QuantisReadHandled w (Quantis.clock s))
       < Quantis.QUANTIS_SUCCESS w ->
     Quantis.QUANTIS_SUCCESS w
       <= fst (Quantis.QuantisReadHandled w (S (Quantis.clock s))) ->
     executed sch = 8%nat ->
     let s' := Quantis.run w o sch s in
     let unit :=
       Quantis.store
         (snd (Quantis.QuantisReadHandled w (S (Quantis.clock s))))
         (Quantis.store (snd (Quantis.QuantisReadHandled w (Quantis.clock s)))
            (Quantis.buffer s)) in
     Quantis.pc s' = Quantis.L_written /\
     Quantis.reads s' = wrap (Quantis.reads s + 1) /\
     Quantis.total s' = wrap (Quantis.total s + Quantis.size s) /\
     Quantis.opens s' = Quantis.opens s /\
     Quantis.try_ s' = Quantis.try_ s /\
     Quantis.wrote (Quantis.trace s')
       = Quantis.wrote (Quantis.trace s) ++ [unit] /\
     Quantis.got s' = Quantis.got s ++ [unit])
  /\
  (forall (w : Quantis.world) (o : Quantis.options) (s : Quantis.state)
          (sch : list action),
     Quantis.pc s = Quantis.L_open ->
     Quantis.QUANTIS_SUCCESS w
       <= fst (Quantis.QuantisOpen w (Quantis.clock s)) ->
     executed sch = 3%nat ->
     let s' := Quantis.run w o sch s in
     Quantis.pc s' = Quantis.L_inner /\
     Quantis.opens s' = wrap (Quantis.opens s + 1) /\
     Quantis.handle s' = snd (Quantis.QuantisOpen w (Quantis.clock s)) /\
     Quantis.reads s' = Quantis.reads s /\
     Quantis.total s' = Quantis.total s /\
     Quantis.try_ s' = Quantis.try_ s /\
     Quantis.trace s' =
       Quantis.trace s ++
       [Quantis.EvOpen (fst (Quantis.QuantisOpen w (Quantis.clock s)))
          (snd (Quantis.QuantisOpen w (Quantis.clock s)))])
  /\
  (forall (w : Quantis.world) (o : Quantis.options) (s0 : Quantis.state)
          (sch : list action),
     Quantis.setup w o = Quantis.Entered s0 ->
     let s := Quantis.run w o sch s0 in
     Quantis.try_ s = 0 /\
     length (Quantis.buffer s) = Z.to_nat (Quantis.size s))
  /\
  (forall v : Z, Z.of_nat (length (bytes_of_word v)) = Seven.sizeof_word).
Proof.
  split; [exact SevenFacts.seven_successful_read|].
  split; [exact QuantisFacts.quantis_read_first_try|].
  split; [exact QuantisFacts.quantis_read_second_try|].
  split; [exact QuantisFacts.quantis_open_counts|].
  split; [|reflexivity].
  intros w o s0 sch H.
  destruct (quantis_reachable w o s0 sch H) as (_ & _ & A & B).
  split; assumption.
Qed.

(** C4 on the first iteration of [seventool -R] and of
    [quantistool -r 4]. *)
Lemma C4_successful_read_counters_witness :
  (let w := Scenario.seven_world in
   let o := Scenario.seven_opts_R in
   let s := Seven.run w o (ticks 2) Scenario.seven_start in
   let s' := Seven.run w o ([Deliver SIGHUP] ++ ticks 6) s in
   (Seven.pc s = Seven.L_tries /\ Seven.carry (Seven.sample w o s) <> 0 /\
    executed ([Deliver SIGHUP] ++ ticks 6) = 6%nat) /\
   Seven.tries s' = 1 /\ Seven.reads s' = 1 /\ Seven.total s' = 4)
  /\
  (let w := Scenario.quantis_world in
   let o := Scenario.quantis_opts Scenario.quantis_r4 in
   let s := Quantis.run w o (ticks 6) Scenario.quantis_start in
   let s' := Quantis.run w o (ticks 6) s in
   (Quantis.pc s = Quantis.L_read1 /\
    Quantis.QUANTIS_SUCCESS w
      <= fst (Quantis.QuantisReadHandled w (Quantis.clock s)) /\
    executed (ticks 6) = 6%nat) /\
   Quantis.reads s' = 1 /\ Quantis.total s' = 4 /\ Quantis.try_ s' = 0)
  /\
  (let w := Scenario.quantis_world in
   let o := Scenario.quantis_opts Scenario.quantis_r4 in
   let s := Quantis.run w o (ticks 1) Scenario.quantis_start in
   let s' := Quantis.run w o (ticks 3) s in
   (Quantis.pc s = Quantis.L_open /\
    Quantis.QUANTIS_SUCCESS w
      <= fst (Quantis.QuantisOpen w (Quantis.clock s)) /\
    executed (ticks 3) = 3%nat) /\
   Quantis.opens s' = 1)
  /\
  (let w := Scenario.quantis_world in
   let o := Scenario.quantis_opts Scenario.quantis_r4 in
   Quantis.setup w o = Quantis.Entered Scenario.quantis_start /\
   Quantis.try_ (Quantis.run w o (ticks 40) Scenario.quantis_start) = 0).
Proof.
  destruct C4_successful_read_counters as (HS & HQ1 & _ & HO & HR & _).
  cbv zeta.
  assert (Hc : Seven.carry
                 (Seven.sample Scenario.seven_world Scenario.seven_opts_R
                    (Seven.run Scenario.seven_world Scenario.seven_opts_R
                       (ticks 2) Scenario.seven_start)) <> 0)
    by (vm_compute; discriminate).
  assert (Hr : Quantis.QUANTIS_SUCCESS Scenario.quantis_world
               <= fst (Quantis.QuantisReadHandled Scenario.quantis_world
                         (Quantis.clock
                            (Quantis.run Scenario.quantis_world
                               (Scenario.quantis_opts Scenario.quantis_r4)
                               (ticks 6) Scenario.quantis_start))))
    by (vm_compute; discriminate).
  assert (Ho : Quantis.QUANTIS_SUCCESS Scenario.quantis_world
               <= fst (Quantis.QuantisOpen Scenario.quantis_world
                         (Quantis.clock
                            (Quantis.run Scenario.quantis_world
                               (Scenario.quantis_opts Scenario.quantis_r4)
                               (ticks 1) Scenario.quantis_start))))
    by (vm_compute; discriminate).
  split; [|split; [|split]].
  - split; [repeat split; try reflexivity; exact Hc|].
    destruct (HS Scenario.seven_world Scenario.seven_opts_R
                (Seven.run Scenario.seven_world Scenario.seven_opts_R
                   (ticks 2) Scenario.seven_start)
                ([Deliver SIGHUP] ++ ticks 6) eq_refl Hc eq_refl)
      as (_ & A & B & C & _).
    split; [exact A | split; [exact B | exact C]].
  - split; [repeat split; try reflexivity; exact Hr|].
    destruct (HQ1 Scenario.quantis_world
                (Scenario.quantis_opts Scenario.quantis_r4)
                (Quantis.run Scenario.quantis_world
                   (Scenario.quantis_opts Scenario.quantis_r4) (ticks 6)
                   Scenario.quantis_start)
                (ticks 6) eq_refl Hr eq_refl)
      as (_ & A & B & _ & C & _).
    split; [exact A | split; [exact B | exact C]].
  - split; [repeat split; try reflexivity; exact Ho|].
    destruct (HO Scenario.quantis_world
                (Scenario.quantis_opts Scenario.quantis_r4)
                (Quantis.run Scenario.quantis_world
                   (Scenario.quantis_opts Scenario.quantis_r4) (ticks 1)
                   Scenario.quantis_start)
                (ticks 3) eq_refl Ho eq_refl)
      as (_ & A & _).
    exact A.
  - split; [reflexivity|].
    exact (proj1 (HR Scenario.quantis_world
                    (Scenario.quantis_opts Scenario.quantis_r4)
                    Scenario.quantis_start (ticks 40) eq_refl)).
Defined.

(** C5, as the claim states it, fails: [quantistool -c] on a host without
    the device leaves with the exit code 1 that [xc] is initialised to, not
    with 0. *)
Lemma C5_check_absent_exits_with_one :
  let w := Scenario.quantis_none in
  let o := Scenario.quantis_opts Scenario.quantis_c in
  Quantis.check o <> 0 /\
  ~ Quantis.present w (Quantis.type o) (Quantis.to_int (Quantis.unit o)) /\
  Quantis.main_setup w Scenario.quantis_c =
    Quantis.Exited 1
      [Quantis.EvQuery Quantis.QUANTIS_DEVICE_USB 0 0; Quantis.EvFclose] /\
  ~ exists evs, Quantis.main_setup w Scenario.quantis_c = Quantis.Exited 0 evs.
Proof.
  cbv zeta. split; [discriminate|]. split; [|split].
  - intros [[_ H] _]. vm_compute in H. discriminate.
  - reflexivity.
  - intros [evs H]. vm_compute in H. discriminate.
Qed.

(** C5, amended.  When the check is requested on the command line and the
    requested device is absent or has a zero status, the process calls
    nothing but the query (after daemonizing, if asked to), prints no
    diagnostic, allocates no buffer, opens neither sink nor device, never
    enters the work loop, and leaves with exit code 1. *)
Theorem C5_check_absent_exit_code :
  forall (w : Quantis.world) (argv : list Quantis.getopt_result),
  let o := Quantis.crack (Quantis.QUANTIS_MAX_READ_SIZE w) Quantis.defaults argv in
  Quantis.error o = 0 ->
  Quantis.daemonize o = 0 \/ 0 <= Quantis.daemon w ->
  Quantis.check o <> 0 ->
  ~ Quantis.present w (Quantis.type o) (Quantis.to_int (Quantis.unit o)) ->
  Quantis.main_setup w argv =
  Quantis.Exited 1
    ((if Quantis.daemonize o =? 0 then []
      else [Quantis.EvDaemon (Quantis.daemon w)]) ++
     [Quantis.EvQuery (Quantis.type o) (Quantis.to_int (Quantis.unit o)) 0;
      Quantis.EvFclose]).
Proof.
  intros w argv o He Hd Hc Hp. unfold Quantis.main_setup. fold o.
  rewrite (QuantisFacts.setup_check_absent w o He Hd Hc Hp).
  destruct (QuantisFacts.crack_exit_code (Quantis.QUANTIS_MAX_READ_SIZE w)
              argv Quantis.defaults (or_introl eq_refl)) as [Hx|Hx].
  - fold o in Hx. rewrite Hx. reflexivity.
  - contradiction.
Qed.

(** C5 on [quantistool -c] and a host without Quantis devices. *)
Lemma C5_check_absent_exit_code_witness :
  let w := Scenario.quantis_none in
  let o := Quantis.crack (Quantis.QUANTIS_MAX_READ_SIZE w) Quantis.defaults
             Scenario.quantis_c in
  (Quantis.error o = 0 /\
   (Quantis.daemonize o = 0 \/ 0 <= Quantis.daemon w) /\
   Quantis.check o <> 0 /\
   ~ Quantis.present w (Quantis.type o) (Quantis.to_int (Quantis.unit o))) /\
  Quantis.main_setup w Scenario.quantis_c =
  Quantis.Exited 1
    [Quantis.EvQuery Quantis.QUANTIS_DEVICE_USB 0 0; Quantis.EvFclose].
Proof.
  cbv zeta.
  assert (Hp : ~ Quantis.present Scenario.quantis_none
                 (Quantis.type
                    (Quantis.crack
                       (Quantis.QUANTIS_MAX_READ_SIZE Scenario.quantis_none)
                       Quantis.defaults Scenario.quantis_c))
                 (Quantis.to_int
                    (Quantis.unit
                       (Quantis.crack
                          (Quantis.QUANTIS_MAX_READ_SIZE Scenario.quantis_none)
                          Quantis.defaults Scenario.quantis_c)))).
  { intros [[_ H] _]. vm_compute in H. discriminate. }
  assert (Hc : Quantis.check
                 (Quantis.crack
                    (Quantis.QUANTIS_MAX_READ_SIZE Scenario.quantis_none)
                    Quantis.defaults Scenario.quantis_c) <> 0)
    by (vm_compute; discriminate).
  split.
  - split; [reflexivity|]. split; [left; reflexivity|].
    split; [exact Hc | exact Hp].
  - exact (C5_check_absent_exit_code Scenario.quantis_none Scenario.quantis_c
             eq_refl (or_introl eq_refl) Hc Hp).
Defined.

(** C6.  seventool, at the test of the carry flag of a sampling attempt
    that failed, with no shutdown requested before or during what follows:
    the loop calls [nanosleep] for 0 s and 1000000 ns, and when the sleep
    completes or is interrupted ([EINTR]) control is back at the loop test
    with nothing written and no counter changed; from there the loop goes
    on to a fresh attempt ([tries] one higher) without having written
    anything. *)
Theorem C6_failed_attempt_backs_off :
  forall (w : Seven.world) (o : Seven.options) (s : Seven.state)
         (sch : list action),
  Seven.pc s = Seven.L_carry -> Seven.carry s = 0 -> Seven.done s = 0 ->
  (0 <= fst (Seven.nanosleep w (Seven.clock s)) \/
   snd (Seven.nanosleep w (Seven.clock s)) = EINTR) ->
  executed sch = 2%nat -> no_shutdown sch ->
  let s1 := Seven.run w o sch s in
  let s2 := Seven.run w o (ticks (if Seven.report s1 =? 0 then 3 else 5)) s1 in
  Seven.pc s1 = Seven.L_while /\ Seven.done s1 = 0 /\
  Seven.trace s1 =
    Seven.trace s ++
    [Seven.EvNanosleep 0 1000000
       (fst (Seven.nanosleep w (Seven.clock s)))
       (snd (Seven.nanosleep w (Seven.clock s)))] /\
  Seven.tries s1 = Seven.tries s /\ Seven.reads s1 = Seven.reads s /\
  Seven.total s1 = Seven.total s /\ Seven.got s1 = Seven.got s /\
  Seven.pc s2 = Seven.L_sample /\
  Seven.tries s2 = wrap (Seven.tries s + 1) /\
  Seven.reads s2 = Seven.reads s /\
  Seven.wrote (Seven.trace s2) = Seven.wrote (Seven.trace s).
Proof.
  intros w o s sch Hpc Hcarry Hdone Hsleep Hexec Hquiet.
  exact (SevenFacts.seven_backoff w o s sch
           Hpc Hcarry Hdone Hsleep Hexec Hquiet).
Qed.

(** C6 on a processor with nothing ready at the first sample and a
    sleep that SIGHUP interrupts. *)
Lemma C6_failed_attempt_backs_off_witness :
  let w := Scenario.seven_busy in
  let o := Scenario.seven_opts_R in
  let s := Seven.run w o (ticks 4) Scenario.seven_start in
  let sch := [Tick; Deliver SIGHUP; Tick] in
  let s1 := Seven.run w o sch s in
  (Seven.pc s = Seven.L_carry /\ Seven.carry s = 0 /\ Seven.done s = 0 /\
   (0 <= fst (Seven.nanosleep w (Seven.clock s)) \/
    snd (Seven.nanosleep w (Seven.clock s)) = EINTR) /\
   executed sch = 2%nat /\ no_shutdown sch) /\
  Seven.pc s1 = Seven.L_while /\
  Seven.trace s1 = Seven.trace s ++ [Seven.EvNanosleep 0 1000000 (-1) EINTR].
Proof.
  cbv zeta.
  assert (Hq : no_shutdown [Tick; Deliver SIGHUP; Tick]).
  { intros n H. simpl in H.
    repeat (destruct H as [H|H]; [try discriminate H|]); [|destruct H].
    injection H as <-. split; discriminate. }
  split.
  - split; [reflexivity|]. split; [reflexivity|]. split; [reflexivity|].
    split; [right; reflexivity|]. split; [reflexivity | exact Hq].
  - destruct (C6_failed_attempt_backs_off Scenario.seven_busy
                Scenario.seven_opts_R
                (Seven.run Scenario.seven_busy Scenario.seven_opts_R
                   (ticks 4) Scenario.seven_start)
                [Tick; Deliver SIGHUP; Tick]
                eq_refl eq_refl eq_refl (or_intror eq_refl) eq_refl Hq)
      as (A & _ & B & _).
    split; [exact A | exact B].
Defined.

(** C7, as the claim states it, fails: [quantistool -c -r 0] on a host
    without the device leaves at the failed check, with exit code 1, before
    the read size is looked at. *)
Lemma C7_size_zero_after_failed_check :
  let w := Scenario.quantis_none in
  let o := Scenario.quantis_opts Scenario.quantis_c_r0 in
  Quantis.error o = 0 /\ Quantis.opt_size o = 0 /\
  Quantis.main_setup w Scenario.quantis_c_r0 =
    Quantis.Exited 1
      [Quantis.EvQuery Quantis.QUANTIS_DEVICE_USB 0 0; Quantis.EvFclose] /\
  ~ exists evs,
      Quantis.main_setup w Scenario.quantis_c_r0 = Quantis.Exited 0 evs.
Proof.
  cbv zeta. split; [reflexivity|]. split; [reflexivity|].
  split; [reflexivity|].
  intros [evs H]. vm_compute in H. discriminate.
Qed.

(** C7, amended.  When the configured read size is zero, the options were
    accepted, daemonizing (if asked for) did not fail, and the check is
    either not requested or finds the device, the process performs the
    query and leaves with exit code 0: the work loop is not entered, so
    nothing is read, no buffer is allocated and the output path is not
    opened. *)
Theorem C7_size_zero_checks_only :
  forall (w : Quantis.world) (argv : list Quantis.getopt_result),
  let o := Quantis.crack (Quantis.QUANTIS_MAX_READ_SIZE w) Quantis.defaults argv in
  Quantis.error o = 0 ->
  Quantis.daemonize o = 0 \/ 0 <= Quantis.daemon w ->
  Quantis.opt_size o = 0 ->
  Quantis.check o = 0 \/
  Quantis.present w (Quantis.type o) (Quantis.to_int (Quantis.unit o)) ->
  Quantis.main_setup w argv =
  Quantis.Exited 0
    ((if Quantis.daemonize o =? 0 then []
      else [Quantis.EvDaemon (Quantis.daemon w)]) ++
     [Quantis.EvQuery (Quantis.type o) (Quantis.to_int (Quantis.unit o))
        (Quantis.query w (Quantis.type o) (Quantis.to_int (Quantis.unit o)));
      Quantis.EvFclose]).
Proof.
  intros w argv o He Hd Hz Hc. unfold Quantis.main_setup. fold o.
  exact (QuantisFacts.setup_size_zero w o He Hd Hz Hc).
Qed.

(** C7 on [quantistool -c -r 0] and a host with the device. *)
Lemma C7_size_zero_checks_only_witness :
  let w := Scenario.quantis_world in
  let o := Quantis.crack (Quantis.QUANTIS_MAX_READ_SIZE w) Quantis.defaults
             Scenario.quantis_c_r0 in
  (Quantis.error o = 0 /\
   (Quantis.daemonize o = 0 \/ 0 <= Quantis.daemon w) /\
   Quantis.opt_size o = 0 /\
   (Quantis.check o = 0 \/
    Quantis.present w (Quantis.type o) (Quantis.to_int (Quantis.unit o)))) /\
  Quantis.main_setup w Scenario.quantis_c_r0 =
  Quantis.Exited 0
    [Quantis.EvQuery Quantis.QUANTIS_DEVICE_USB 0 1; Quantis.EvFclose].
Proof.
  cbv zeta.
  assert (Hp : Quantis.present Scenario.quantis_world
                 (Quantis.type
                    (Quantis.crack
                       (Quantis.QUANTIS_MAX_READ_SIZE Scenario.quantis_world)
                       Quantis.defaults Scenario.quantis_c_r0))
                 (Quantis.to_int
                    (Quantis.unit
                       (Quantis.crack
                          (Quantis.QUANTIS_MAX_READ_SIZE Scenario.quantis_world)
                          Quantis.defaults Scenario.quantis_c_r0)))).
  { split; [split; vm_compute; [discriminate | reflexivity]|].
    vm_compute. discriminate. }
  split.
  - split; [reflexivity|]. split; [left; reflexivity|].
    split; [reflexivity | right; exact Hp].
  - exact (C7_size_zero_checks_only Scenario.quantis_world
             Scenario.quantis_c_r0 eq_refl (or_introl eq_refl) eq_refl
             (or_intror Hp)).
Defined.

(** C8.  In both tools, when [report] is set at the [if (report)] at the
    top of an iteration, the three statements of the check emit exactly one
    statistics line, carrying the counters as they stand, and leave
    [report] reset, whatever signals arrive in between; no counter changes,
    and [done] changes only as the signals delivered meanwhile change it.
    However many signals were delivered before the check, if one of them
    was SIGHUP then [report] holds 1 and [done] is what the same signals
    left in it. *)
Theorem C8_report_check :
  (forall (w : Seven.world) (o : Seven.options) (s : Seven.state)
          (d1 d2 : list Z),
     Seven.pc s = Seven.L_if_report -> Seven.report s <> 0 ->
     let s' := Seven.run w o
                 (Tick :: delivers d1 ++ Tick :: delivers d2 ++ [Tick]) s in
     Seven.pc s' = Seven.L_tries /\
     Seven.trace s' =
       Seven.trace s ++
       [Seven.EvStats (Seven.tries s) Seven.sizeof_word (Seven.reads s)
          (Seven.total s)] /\
     Seven.report s' = 0 /\
     Seven.done s' = done_after (d1 ++ d2) (Seven.done s) /\
     Seven.tries s' = Seven.tries s /\ Seven.reads s' = Seven.reads s /\
     Seven.total s' = Seven.total s)
  /\
  (forall (w : Seven.world) (o : Seven.options) (s : Seven.state)
          (sigs : list Z),
     In SIGHUP sigs ->
     let s' := Seven.run w o (delivers sigs) s in
     Seven.report s' = 1 /\ Seven.pc s' = Seven.pc s /\
     Seven.trace s' = Seven.trace s /\
     Seven.done s' = done_after sigs (Seven.done s))
  /\
  (forall (w : Quantis.world) (o : Quantis.options) (s : Quantis.state)
          (d1 d2 : list Z),
     Quantis.pc s = Quantis.L_if_report -> Quantis.report s <> 0 ->
     let s' := Quantis.run w o
                 (Tick :: delivers d1 ++ Tick :: delivers d2 ++ [Tick]) s in
     Quantis.pc s' = Quantis.L_read1 /\
     Quantis.trace s' =
       Quantis.trace s ++
       [Quantis.EvStats (Quantis.opens s) (Quantis.size s) (Quantis.reads s)
          (Quantis.total s)] /\
     Quantis.report s' = 0 /\
     Quantis.done s' = done_after (d1 ++ d2) (Quantis.done s) /\
     Quantis.opens s' = Quantis.opens s /\
     Quantis.reads s' = Quantis.reads s /\
     Quantis.total s' = Quantis.total s)
  /\
  (forall (w : Quantis.world) (o : Quantis.options) (s : Quantis.state)
          (sigs : list Z),
     In SIGHUP sigs ->
     let s' := Quantis.run w o (delivers sigs) s in
     Quantis.report s' = 1 /\ Quantis.pc s' = Quantis.pc s /\
     Quantis.trace s' = Quantis.trace s /\
     Quantis.done s' = done_after sigs (Quantis.done s)).
Proof.
  split; [exact SevenFacts.seven_report_check|].
  split; [exact SevenFacts.seven_report_collapses|].
  split; [exact QuantisFacts.quantis_report_check|].
  exact QuantisFacts.quantis_report_collapses.
Qed.

(** C8 with three SIGHUPs before the check of seventool, and with two
    before and a SIGINT during the check of quantistool. *)
Lemma C8_report_check_witness :
  (let w := Scenario.seven_world in
   let o := Scenario.seven_opts_R in
   let s := Seven.run w o (Tick :: delivers [SIGHUP; SIGHUP; SIGHUP])
              Scenario.seven_start in
   let s' := Seven.run w o
               (Tick :: delivers [SIGHUP] ++ Tick :: delivers [] ++ [Tick]) s in
   (Seven.pc s = Seven.L_if_report /\ Seven.report s <> 0) /\
   length (filter Seven.is_stats (Seven.trace s')) = 1%nat /\
   Seven.report s' = 0 /\ Seven.done s' = 0)
  /\
  (let w := Scenario.quantis_world in
   let o := Scenario.quantis_opts Scenario.quantis_r4 in
   let s0 := Quantis.run w o (ticks 5) Scenario.quantis_start in
   let s := Quantis.run w o (delivers [SIGHUP; SIGHUP]) s0 in
   let s' := Quantis.run w o
               (Tick :: delivers [] ++ Tick :: delivers [SIGINT] ++ [Tick]) s in
   (Quantis.pc s = Quantis.L_if_report /\ Quantis.report s <> 0 /\
    In SIGHUP [SIGHUP; SIGHUP]) /\
   Quantis.report s = 1 /\
   length (filter Quantis.is_stats (Quantis.trace s')) = 1%nat /\
   Quantis.report s' = 0 /\ Quantis.done s' = 1).
Proof.
  destruct C8_report_check as (HS & _ & HQ & HC).
  cbv zeta.
  assert (Hs : Seven.report
                 (Seven.run Scenario.seven_world Scenario.seven_opts_R
                    (Tick :: delivers [SIGHUP; SIGHUP; SIGHUP])
                    Scenario.seven_start) <> 0)
    by (vm_compute; discriminate).
  assert (Hr : Quantis.report
                 (Quantis.run Scenario.quantis_world
                    (Scenario.quantis_opts Scenario.quantis_r4)
                    (delivers [SIGHUP; SIGHUP])
                    (Quantis.run Scenario.quantis_world
                       (Scenario.quantis_opts Scenario.quantis_r4) (ticks 5)
                       Scenario.quantis_start)) <> 0)
    by (vm_compute; discriminate).
  split.
  - split; [split; [reflexivity | exact Hs]|].
    destruct (HS Scenario.seven_world Scenario.seven_opts_R
                (Seven.run Scenario.seven_world Scenario.seven_opts_R
                   (Tick :: delivers [SIGHUP; SIGHUP; SIGHUP])
                   Scenario.seven_start)
                [SIGHUP] [] eq_refl Hs) as (_ & A & B & C & _).
    split; [rewrite A; reflexivity | split; [exact B | exact C]].
  - split; [split; [reflexivity | split; [exact Hr | left; reflexivity]]|].
    destruct (HQ Scenario.quantis_world
                (Scenario.quantis_opts Scenario.quantis_r4)
                (Quantis.run Scenario.quantis_world
                   (Scenario.quantis_opts Scenario.quantis_r4)
                   (delivers [SIGHUP; SIGHUP])
                   (Quantis.run Scenario.quantis_world
                      (Scenario.quantis_opts Scenario.quantis_r4) (ticks 5)
                      Scenario.quantis_start))
                [] [SIGINT] eq_refl Hr) as (_ & A & B & C & _).
    destruct (HC Scenario.quantis_world
                (Scenario.quantis_opts Scenario.quantis_r4)
                (Quantis.run Scenario.quantis_world
                   (Scenario.quantis_opts Scenario.quantis_r4) (ticks 5)
                   Scenario.quantis_start)
                [SIGHUP; SIGHUP] (or_introl eq_refl)) as (D & _).
    split; [exact D|].
    split; [rewrite A; reflexivity | split; [exact B | exact C]].
Defined.

(** C9.  seventool started without [-R] and without [-S]: the mode is
    [FAIL]; in every state of every run [word] is 0xDEADC0DE and [carry] is
    1, no sampling instruction has been executed, and every unit handed to
    the sink is the four bytes DE C0 AD DE; between iterations every try
    has been counted as a read; and an iteration entered with neither flag
    set counts one more try and one more read and hands that same word to
    [fwrite]. *)
Theorem C9_no_instruction_selected :
  forall (w : Seven.world) (argv : list Seven.getopt_result)
         (s0 : Seven.state) (sch : list action),
  ~ In Seven.Opt_R argv -> ~ In Seven.Opt_S argv ->
  Seven.main_setup w argv = Seven.Entered s0 ->
  let o := Seven.crack Seven.defaults argv in
  let s := Seven.run w o sch s0 in
  Seven.opt_mode o = Seven.FAIL /\
  Seven.word s = 0xDEADC0DE /\ Seven.carry s = 1 /\
  filter Seven.is_sampling (Seven.trace s) = [] /\
  Forall (eq [xde; xc0; xad; xde]) (Seven.wrote (Seven.trace s)) /\
  (Seven.at_boundary s = true -> Seven.tries s = Seven.reads s) /\
  (Seven.pc s = Seven.L_while -> Seven.done s = 0 -> Seven.report s = 0 ->
   let s' := Seven.run w o (ticks 8) s in
   Seven.pc s' = Seven.L_written /\
   Seven.trace s' =
     Seven.trace s ++
     [Seven.EvFwrite [xde; xc0; xad; xde] (Seven.fwrite w (Seven.clock s))] /\
   Seven.tries s' = wrap (Seven.tries s + 1) /\
   Seven.reads s' = wrap (Seven.reads s + 1) /\
   Seven.total s' = wrap (Seven.total s + Seven.sizeof_word)).
Proof.
  intros w argv s0 sch HR HS H o s.
  assert (Hm : Seven.opt_mode o = Seven.FAIL)
    by (exact (SevenFacts.crack_keeps_mode argv Seven.defaults HR HS)).
  destruct (seven_reachable w o s0 sch H) as (_ & _ & Hf).
  specialize (Hf Hm). fold s in Hf.
  pose proof Hf as (Hw & Hc & Hp & Hs & Hu & Ht).
  split; [exact Hm|]. split; [exact Hw|]. split; [exact Hc|].
  split; [exact Hs|]. split; [exact Hu|]. split.
  - intros Hb. unfold Seven.at_boundary in Hb.
    destruct (Seven.pc s); try discriminate Hb; exact Ht.
  - intros Hpc Hd Hr.
    exact (SevenFacts.fail_iteration w o s Hm Hf Hpc Hd Hr).
Qed.

(** C9 on three iterations of [seventool -d]. *)
Lemma C9_no_instruction_selected_witness :
  let w := Scenario.seven_world in
  let o := Seven.crack Seven.defaults Scenario.seven_d in
  let s := Seven.run w o (ticks 30) Scenario.seven_start_d in
  (~ In Seven.Opt_R Scenario.seven_d /\ ~ In Seven.Opt_S Scenario.seven_d /\
   Seven.main_setup w Scenario.seven_d
     = Seven.Entered Scenario.seven_start_d) /\
  Seven.word s = 0xDEADC0DE /\
  Seven.wrote (Seven.trace s) =
    [[xde; xc0; xad; xde]; [xde; xc0; xad; xde]; [xde; xc0; xad; xde]] /\
  Forall (eq [xde; xc0; xad; xde]) (Seven.wrote (Seven.trace s)).
Proof.
  cbv zeta.
  assert (HR : ~ In Seven.Opt_R Scenario.seven_d)
    by (intros [H|[]]; discriminate H).
  assert (HS : ~ In Seven.Opt_S Scenario.seven_d)
    by (intros [H|[]]; discriminate H).
  split; [split; [exact HR | split; [exact HS | reflexivity]]|].
  destruct (C9_no_instruction_selected Scenario.seven_world Scenario.seven_d
              Scenario.seven_start_d (ticks 30) HR HS eq_refl)
    as (_ & A & _ & _ & B & _).
  split; [exact A | split; [reflexivity | exact B]].
Defined.

(** C10.  In both tools and in every state of every run: [total] equals
    [reads] times the unit size, computed as C computes it, everywhere but
    between [++reads] and the [total +=] that follows it; when [fwrite] is
    about to be called [reads] already counts the unit it is given; between
    iterations and after the loop [reads] is the number of units the source
    reported as read; and once a write has fallen short the sink has
    accepted fewer units than were read and counted. *)
Theorem C10_counters_count_units_read :
  (forall (w : Seven.world) (o : Seven.options) (s0 : Seven.state)
          (sch : list action),
     Seven.setup w o = Seven.Entered s0 ->
     let s := Seven.run w o sch s0 in
     (Seven.pc s <> Seven.L_total ->
      Seven.total s = wrap (Seven.reads s * Seven.sizeof_word)) /\
     (Seven.pc s = Seven.L_fwrite ->
      Seven.reads s =
      wrap (Z.of_nat (length (Seven.wrote (Seven.trace s))) + 1)) /\
     (Seven.at_boundary s = true ->
      Seven.reads s = wrap (Z.of_nat (length (Seven.got s)))) /\
     (existsb Seven.is_short_fwrite (Seven.trace s) = true ->
      (length (Seven.accepted (Seven.trace s)) < length (Seven.got s))%nat))
  /\
  (forall (w : Quantis.world) (o : Quantis.options) (s0 : Quantis.state)
          (sch : list action),
     Quantis.setup w o = Quantis.Entered s0 ->
     let s := Quantis.run w o sch s0 in
     (Quantis.pc s <> Quantis.L_total ->
      Quantis.total s = wrap (Quantis.reads s * Quantis.size s)) /\
     (Quantis.pc s = Quantis.L_fwrite ->
      Quantis.reads s =
      wrap (Z.of_nat (length (Quantis.wrote (Quantis.trace s))) + 1)) /\
     (Quantis.at_boundary s = true ->
      Quantis.reads s = wrap (Z.of_nat (length (Quantis.got s)))) /\
     (existsb Quantis.is_short_fwrite (Quantis.trace s) = true ->
      (length (Quantis.accepted (Quantis.trace s))
       < length (Quantis.got s))%nat)).
Proof.
  split.
  - intros w o s0 sch H.
    destruct (seven_reachable w o s0 sch H) as (A & [Br Bt] & _).
    cbv zeta. split; [|split; [|split]].
    + intros Hp. destruct (Seven.pc (Seven.run w o sch s0));
        try exact Bt; congruence.
    + intros Hp. rewrite Br. unfold Seven.counted. rewrite Hp. reflexivity.
    + intros Hb. rewrite Br, A.
      rewrite (SevenFacts.seven_inflight_boundary _ Hb), app_nil_r.
      unfold Seven.counted, Seven.at_boundary in *.
      destruct (Seven.pc (Seven.run w o sch s0)); try discriminate Hb;
        rewrite Z.add_0_r; reflexivity.
    + intros Hs. rewrite A, length_app.
      pose proof (proj2 (seven_accepted_short _) Hs). lia.
  - intros w o s0 sch H.
    destruct (quantis_reachable w o s0 sch H) as (A & [Br Bt] & _).
    cbv zeta. split; [|split; [|split]].
    + intros Hp. destruct (Quantis.pc (Quantis.run w o sch s0));
        try exact Bt; congruence.
    + intros Hp. rewrite Br. unfold Quantis.counted. rewrite Hp. reflexivity.
    + intros Hb. rewrite Br, A.
      rewrite (QuantisFacts.quantis_inflight_boundary w _ Hb), app_nil_r.
      unfold Quantis.counted, Quantis.at_boundary in *.
      destruct (Quantis.pc (Quantis.run w o sch s0)); try discriminate Hb;
        rewrite Z.add_0_r; reflexivity.
    + intros Hs. rewrite A, length_app.
      pose proof (proj2 (quantis_accepted_short _) Hs). lia.
Qed.

(** C10 on [seventool -R] stopped at [fwrite], and on quantistool just
    after a short write. *)
Lemma C10_counters_count_units_read_witness :
  (let w := Scenario.seven_world in
   let o := Scenario.seven_opts_R in
   let s := Seven.run w o Scenario.seven_schedule Scenario.seven_start in
   Seven.setup w o = Seven.Entered Scenario.seven_start /\
   (Seven.pc s <> Seven.L_total /\ Seven.pc s = Seven.L_fwrite) /\
   Seven.total s = 12 /\ Seven.reads s = 3)
  /\
  (let w := Scenario.quantis_short_write in
   let o := Scenario.quantis_opts Scenario.quantis_r4 in
   let s := Quantis.run w o (ticks 14) Scenario.quantis_start in
   Quantis.setup w o = Quantis.Entered Scenario.quantis_start /\
   (Quantis.at_boundary s = true /\
    existsb Quantis.is_short_fwrite (Quantis.trace s) = true) /\
   Quantis.reads s = 1 /\
   (length (Quantis.accepted (Quantis.trace s)) < length (Quantis.got s))%nat).
Proof.
  destruct C10_counters_count_units_read as (HS & HQ).
  cbv zeta. split.
  - split; [reflexivity|].
    assert (Hp : Seven.pc (Seven.run Scenario.seven_world
                             Scenario.seven_opts_R Scenario.seven_schedule
                             Scenario.seven_start) <> Seven.L_total)
      by (vm_compute; discriminate).
    split; [split; [exact Hp | reflexivity]|].
    destruct (HS Scenario.seven_world Scenario.seven_opts_R
                Scenario.seven_start Scenario.seven_schedule eq_refl)
      as (A & B & _).
    split; [exact (A Hp) | exact (B eq_refl)].
  - split; [reflexivity|]. split; [split; reflexivity|].
    destruct (HQ Scenario.quantis_short_write
                (Scenario.quantis_opts Scenario.quantis_r4)
                Scenario.quantis_start (ticks 14) eq_refl)
      as (_ & _ & C & D).
    split; [exact (C eq_refl) | exact (D eq_refl)].
Defined.

(** * More of what the code does *)

(** X1.  [query] answers 1 when the wanted unit of the wanted type is
    among the units the library counts and its status is not zero, and 0
    in every other case. *)
Theorem X1_query_finds_the_present_device :
  forall (w : Quantis.world) (want : Quantis.QuantisDeviceType) (unit : Z),
  (Quantis.present w want unit /\ Quantis.query w want unit = 1) \/
  (~ Quantis.present w want unit /\ Quantis.query w want unit = 0).
Proof.
  intros w want unit.
  destruct (QuantisRunFacts.quantis_present_dec w want unit) as [H|H].
  - left. split; [exact H | apply QuantisFacts.query_present, H].
  - right. split; [exact H | apply QuantisFacts.query_absent, H].
Qed.

(** X2.  A unit number of 2^31 or more reaches [query] as a negative
    [int] and is never found, whatever the library reports. *)
Theorem X2_unit_beyond_int_is_never_found :
  forall (w : Quantis.world) (want : Quantis.QuantisDeviceType) (u : Z),
  2 ^ 31 <= u < 2 ^ 32 ->
  Quantis.to_int u < 0 /\ Quantis.query w want (Quantis.to_int u) = 0.
Proof.
  intros w want u Hu.
  assert (Hn : Quantis.to_int u < 0).
  { unfold Quantis.to_int. destruct (Z.ltb_spec u (2 ^ 31)); lia. }
  split; [exact Hn|].
  apply QuantisFacts.query_absent. intros [[H _] _]. lia.
Qed.

Lemma X2_unit_beyond_int_witness :
  2 ^ 31 <= 4294967295 < 2 ^ 32 /\
  Quantis.query Scenario.quantis_world Quantis.QUANTIS_DEVICE_USB
    (Quantis.to_int 4294967295) = 0.
Proof.
  assert (H : 2 ^ 31 <= 4294967295 < 2 ^ 32) by (split; [discriminate | reflexivity]).
  split; [exact H|].
  exact (proj2 (X2_unit_beyond_int_is_never_found Scenario.quantis_world
                  Quantis.QUANTIS_DEVICE_USB 4294967295 H)).
Defined.

(** X3.  When the default read size of 512 is within the library's
    maximum, every command line the option switch accepts leaves a read
    size between 0 and the maximum and a unit number that fits an
    [unsigned int]; and when the loop is entered the clamp has changed
    nothing: the loop's size is the configured one, it is positive, the
    buffer has that many bytes, and counters and handle are zero. *)
Theorem X3_accepted_options_are_in_range :
  forall (w : Quantis.world) (argv : list Quantis.getopt_result),
  let o := Quantis.crack (Quantis.QUANTIS_MAX_READ_SIZE w) Quantis.defaults argv in
  512 <= Quantis.QUANTIS_MAX_READ_SIZE w ->
  Quantis.error o = 0 ->
  0 <= Quantis.opt_size o <= Quantis.QUANTIS_MAX_READ_SIZE w /\
  0 <= Quantis.unit o < 2 ^ 32 /\
  forall s0, Quantis.main_setup w argv = Quantis.Entered s0 ->
    Quantis.size s0 = Quantis.opt_size o /\ 0 < Quantis.size s0 /\
    length (Quantis.buffer s0) = Z.to_nat (Quantis.size s0) /\
    Quantis.pc s0 = Quantis.L_outer /\
    Quantis.opens s0 = 0 /\ Quantis.reads s0 = 0 /\ Quantis.total s0 = 0 /\
    Quantis.handle s0 = 0 /\ Quantis.done s0 = 0 /\ Quantis.report s0 = 0.
Proof.
  intros w argv o Hmax He.
  assert (Hd : 0 <= Quantis.opt_size Quantis.defaults
               <= Quantis.QUANTIS_MAX_READ_SIZE w)
    by (split; [discriminate | exact Hmax]).
  assert (Hu0 : 0 <= Quantis.unit Quantis.defaults < 2 ^ 32)
    by (split; [discriminate | reflexivity]).
  destruct (QuantisRunFacts.quantis_crack_error_or_accepted
              (Quantis.QUANTIS_MAX_READ_SIZE w) argv Quantis.defaults
              eq_refl Hd Hu0 He) as [Hs Hu].
  fold o in Hs, Hu. split; [exact Hs|]. split; [exact Hu|].
  intros s0 H. unfold Quantis.main_setup in H. fold o in H.
  destruct (QuantisRunFacts.quantis_entered_shape w o s0 H)
    as (buf & evs & -> & _ & Hl & _ & _ & _ & Hz).
  assert (Hc : QuantisRun.clamp w o = Quantis.opt_size o).
  { unfold QuantisRun.clamp.
    destruct (Z.gtb_spec (Quantis.opt_size o) (Quantis.QUANTIS_MAX_READ_SIZE w));
      [lia | reflexivity]. }
  rewrite Hc in *. cbn. repeat split; try reflexivity; try assumption; lia.
Qed.

Lemma X3_accepted_options_witness :
  let w := Scenario.quantis_world in
  let o := Quantis.crack (Quantis.QUANTIS_MAX_READ_SIZE w) Quantis.defaults
             Scenario.quantis_r4 in
  (512 <= Quantis.QUANTIS_MAX_READ_SIZE w /\ Quantis.error o = 0) /\
  0 <= Quantis.opt_size o <= Quantis.QUANTIS_MAX_READ_SIZE w /\
  Quantis.size Scenario.quantis_start = 4.
Proof.
  cbv zeta.
  assert (Hm : 512 <= Quantis.QUANTIS_MAX_READ_SIZE Scenario.quantis_world)
    by discriminate.
  destruct (X3_accepted_options_are_in_range Scenario.quantis_world
              Scenario.quantis_r4 Hm eq_refl) as (A & _ & B).
  split; [split; [exact Hm | reflexivity]|].
  split; [exact A|].
  exact (proj1 (B Scenario.quantis_start eq_refl)).
Defined.



(** X5.  quantistool, a command line the option switch accepts, and a
    set-up that leaves before the work loop: the exit code is 0 or 1; it
    is 0 only for a read size of zero that got past the check, and then no
    diagnostic was printed; the buffer is freed exactly when it was
    allocated, and the stream is closed exactly once unless [fopen] failed
    (then there is no stream to close). *)
Theorem X5_setup_exit_codes_and_releases :
  forall (w : Quantis.world) (argv : list Quantis.getopt_result)
         (c : Z) (evs : list Quantis.event),
  let o := Quantis.crack (Quantis.QUANTIS_MAX_READ_SIZE w) Quantis.defaults argv in
  Quantis.error o = 0 ->
  Quantis.main_setup w argv = Quantis.Exited c evs ->
  (c = 0 \/ c = 1) /\
  (c = 0 ->
   Quantis.opt_size o = 0 /\
   (Quantis.check o = 0 \/
    Quantis.present w (Quantis.type o) (Quantis.to_int (Quantis.unit o))) /\
   filter Quantis.is_diagnostic evs = []) /\
  length (filter QuantisRun.is_free evs)
    = length (filter QuantisRun.is_allocation evs) /\
  (length (filter QuantisRun.is_fclose evs)
   + length (filter QuantisRun.is_failed_fopen evs) = 1)%nat.
Proof.
  intros w argv c evs o He H. unfold Quantis.main_setup in H. fold o in H.
  destruct (QuantisRunFacts.quantis_exited_shape w o c evs He H)
    as (Hc & Hf & Hs).
  assert (Hx : Quantis.xc0 o = 1).
  { destruct (QuantisFacts.crack_exit_code (Quantis.QUANTIS_MAX_READ_SIZE w)
                argv Quantis.defaults (or_introl eq_refl)) as [Hx|Hx];
      [exact Hx | contradiction]. }
  rewrite Hx in Hc. split; [|split; [|split; [exact Hf | exact Hs]]].
  - destruct Hc as [[-> _]| ->]; [left | right]; reflexivity.
  - intros ->. destruct Hc as [(_ & A & B & C)|Hc]; [|discriminate Hc].
    split; [exact A | split; [exact B | exact C]].
Qed.

Lemma X5_setup_exit_codes_witness :
  let w := Cases.quantis_no_memory in
  let o := Quantis.crack (Quantis.QUANTIS_MAX_READ_SIZE w) Quantis.defaults
             Scenario.quantis_r4 in
  let evs := [Quantis.EvQuery Quantis.QUANTIS_DEVICE_USB 0 1;
              Quantis.EvMalloc 4 false; Quantis.EvLerror "malloc";
              Quantis.EvFclose] in
  (Quantis.error o = 0 /\
   Quantis.main_setup w Scenario.quantis_r4 = Quantis.Exited 1 evs) /\
  length (filter QuantisRun.is_free evs)
    = length (filter QuantisRun.is_allocation evs).
Proof.
  cbv zeta. split; [split; reflexivity|].
  exact (proj1 (proj2 (proj2
           (X5_setup_exit_codes_and_releases Cases.quantis_no_memory
              Scenario.quantis_r4 1 _ eq_refl eq_refl)))).
Defined.

(** X6.  Once the work loop has been entered, [main] returns 0 whatever
    ended the loop: a shutdown signal, a short write, a failed sleep, or,
    in quantistool, a failed [QuantisOpen]. *)
Theorem X6_exit_code_after_the_loop_is_zero :
  (forall (w : Seven.world) (o : Seven.options) (s0 : Seven.state)
          (sch : list action),
     Seven.setup w o = Seven.Entered s0 ->
     Seven.pc (Seven.run w o sch s0) = Seven.L_return ->
     Seven.xc (Seven.run w o sch s0) = 0)
  /\
  (forall (w : Quantis.world) (o : Quantis.options) (s0 : Quantis.state)
          (sch : list action),
     Quantis.setup w o = Quantis.Entered s0 ->
     Quantis.pc (Quantis.run w o sch s0) = Quantis.L_return ->
     Quantis.xc (Quantis.run w o sch s0) = 0).
Proof.
  split.
  - intros w o s0 sch H Hp.
    destruct (SevenFacts.seven_setup_entered w o s0 H) as (evs & -> & _).
    apply SevenRunFacts.seven_exit_code_run; [|exact Hp].
    cbn. intros [K|K]; discriminate K.
  - intros w o s0 sch H Hp.
    destruct (QuantisFacts.quantis_setup_entered w o s0 H)
      as (sz & buf & evs & -> & _).
    apply QuantisRunFacts.quantis_exit_code_run; [|exact Hp].
    cbn. intros [K|[K|K]]; discriminate K.
Qed.

Lemma X6_exit_code_witness :
  (let w := Scenario.seven_world in
   let o := Scenario.seven_opts_R in
   let s := Seven.run w o Cases.interrupted Scenario.seven_start in
   (Seven.setup w o = Seven.Entered Scenario.seven_start /\
    Seven.pc s = Seven.L_return) /\ Seven.xc s = 0)
  /\
  (let w := Scenario.quantis_none in
   let o := Scenario.quantis_opts Scenario.quantis_r4 in
   let s := Quantis.run w o (ticks 7) Cases.quantis_blind_start in
   (Quantis.setup w o = Quantis.Entered Cases.quantis_blind_start /\
    Quantis.pc s = Quantis.L_return) /\
   Quantis.xc s = 0).
Proof.
  destruct X6_exit_code_after_the_loop_is_zero as [HS HQ]. cbv zeta. split.
  - split; [split; reflexivity|].
    exact (HS Scenario.seven_world Scenario.seven_opts_R Scenario.seven_start
             Cases.interrupted eq_refl eq_refl).
  - split; [split; reflexivity|].
    exact (HQ Scenario.quantis_none
             (Scenario.quantis_opts Scenario.quantis_r4)
             Cases.quantis_blind_start (ticks 7) eq_refl eq_refl).
Defined.

(** X7.  quantistool leaves its work loop only on a shutdown signal or a
    failed open: as long as every [QuantisOpen] succeeds and neither
    SIGINT nor SIGPIPE is delivered, the loop goes on, whatever the reads
    and the writes return. *)
Theorem X7_quantistool_leaves_only_on_shutdown_or_failed_open :
  forall (w : Quantis.world) (o : Quantis.options) (s0 : Quantis.state)
         (sch : list action),
  Quantis.setup w o = Quantis.Entered s0 ->
  (forall n, Quantis.QUANTIS_SUCCESS w <= fst (Quantis.QuantisOpen w n)) ->
  no_shutdown sch ->
  Quantis.done (Quantis.run w o sch s0) = 0 /\
  Quantis.terminated (Quantis.run w o sch s0) = false.
Proof.
  intros w o s0 sch H Ho Hq.
  destruct (QuantisFacts.quantis_setup_entered w o s0 H)
    as (sz & buf & evs & -> & _).
  apply QuantisRunFacts.quantis_keeps_running; auto.
  cbn. discriminate.
Qed.

Lemma X7_quantistool_leaves_only_witness :
  let w := Scenario.quantis_short_write in
  let o := Scenario.quantis_opts Scenario.quantis_r4 in
  let sch := ticks 20 ++ [Deliver SIGHUP] ++ ticks 30 in
  (Quantis.setup w o = Quantis.Entered Scenario.quantis_start /\
   (forall n, Quantis.QUANTIS_SUCCESS w <= fst (Quantis.QuantisOpen w n)) /\
   no_shutdown sch) /\
  Quantis.terminated (Quantis.run w o sch Scenario.quantis_start) = false.
Proof.
  cbv zeta.
  assert (Ho : forall n, Quantis.QUANTIS_SUCCESS Scenario.quantis_short_write
                         <= fst (Quantis.QuantisOpen
                                   Scenario.quantis_short_write n))
    by (intros n; simpl; lia).
  assert (Hq : no_shutdown (ticks 20 ++ [Deliver SIGHUP] ++ ticks 30)).
  { intros n H. simpl in H.
    repeat (destruct H as [H|H]; [try discriminate H|]); [|destruct H].
    injection H as <-. split; discriminate. }
  split; [split; [reflexivity | split; [exact Ho | exact Hq]]|].
  exact (proj2 (X7_quantistool_leaves_only_on_shutdown_or_failed_open
                  Scenario.quantis_short_write
                  (Scenario.quantis_opts Scenario.quantis_r4)
                  Scenario.quantis_start _ eq_refl Ho Hq)).
Defined.

(** X8.  seventool leaves its work loop only on a shutdown signal, a
    short write, or a sleep that fails for another reason than a signal:
    as long as every write is complete, every sleep completes or is
    interrupted, and neither SIGINT nor SIGPIPE is delivered, the loop
    goes on. *)
Theorem X8_seventool_leaves_only_on_shutdown_or_failure :
  forall (w : Seven.world) (o : Seven.options) (s0 : Seven.state)
         (sch : list action),
  Seven.setup w o = Seven.Entered s0 ->
  (forall n, 1 <= Seven.fwrite w n) ->
  (forall n, 0 <= fst (Seven.nanosleep w n) \/
             snd (Seven.nanosleep w n) = EINTR) ->
  no_shutdown sch ->
  Seven.done (Seven.run w o sch s0) = 0 /\
  Seven.terminated (Seven.run w o sch s0) = false.
Proof.
  intros w o s0 sch H Hw Hn Hq.
  destruct (SevenFacts.seven_setup_entered w o s0 H) as (evs & -> & _).
  apply SevenRunFacts.seven_keeps_running; auto.
  cbn. discriminate.
Qed.

Lemma X8_seventool_leaves_only_witness :
  let w := Scenario.seven_busy in
  let o := Scenario.seven_opts_R in
  let sch := ticks 20 ++ [Deliver SIGHUP] ++ ticks 30 in
  (Seven.setup w o = Seven.Entered Scenario.seven_start /\
   (forall n, 1 <= Seven.fwrite w n) /\
   (forall n, 0 <= fst (Seven.nanosleep w n) \/
              snd (Seven.nanosleep w n) = EINTR) /\
   no_shutdown sch) /\
  Seven.terminated (Seven.run w o sch Scenario.seven_start) = false.
Proof.
  cbv zeta.
  assert (Hw : forall n : nat, 1 <= Seven.fwrite Scenario.seven_busy n)
    by (intros n; simpl; lia).
  assert (Hn : forall n : nat,
             0 <= fst (Seven.nanosleep Scenario.seven_busy n) \/
             snd (Seven.nanosleep Scenario.seven_busy n) = EINTR)
    by (intros n; right; reflexivity).
  assert (Hq : no_shutdown (ticks 20 ++ [Deliver SIGHUP] ++ ticks 30)).
  { intros n H. simpl in H.
    repeat (destruct H as [H|H]; [try discriminate H|]); [|destruct H].
    injection H as <-. split; discriminate. }
  split; [split; [reflexivity | split; [exact Hw | split; [exact Hn | exact Hq]]]|].
  exact (proj2 (X8_seventool_leaves_only_on_shutdown_or_failure
                  Scenario.seven_busy Scenario.seven_opts_R
                  Scenario.seven_start _ eq_refl Hw Hn Hq)).
Defined.

(** X9.  Once [done] is set it stays set, and from any statement of the
    loop the program reaches [return] within 14 statements (seventool) or
    19 (quantistool), whatever the world answers and whatever signals
    arrive; on the way at most one more unit is handed to the sink. *)
Theorem X9_shutdown_is_honoured :
  (forall (w : Seven.world) (o : Seven.options) (s : Seven.state)
          (sch : list action),
     Seven.done s <> 0 ->
     Seven.done (Seven.run w o sch s) <> 0 /\
     (length (Seven.wrote (Seven.trace (Seven.run w o sch s)))
      <= length (Seven.wrote (Seven.trace s)) + 1)%nat /\
     ((14 <= executed sch)%nat ->
      Seven.pc (Seven.run w o sch s) = Seven.L_return))
  /\
  (forall (w : Quantis.world) (o : Quantis.options) (s : Quantis.state)
          (sch : list action),
     Quantis.done s <> 0 ->
     Quantis.done (Quantis.run w o sch s) <> 0 /\
     (length (Quantis.wrote (Quantis.trace (Quantis.run w o sch s)))
      <= length (Quantis.wrote (Quantis.trace s)) + 1)%nat /\
     ((19 <= executed sch)%nat ->
      Quantis.pc (Quantis.run w o sch s) = Quantis.L_return)).
Proof.
  split.
  - intros w o s sch Hd.
    split; [apply SevenRunFacts.seven_done_stays_set, Hd|]. split.
    + pose proof (SevenRunFacts.seven_shutdown_writes w o sch s Hd).
      pose proof (SevenRunFacts.seven_writes_left_bound (Seven.pc s)). lia.
    + intros He. apply SevenRunFacts.seven_shutdown_returns; [exact Hd|].
      pose proof (SevenRunFacts.seven_remaining_bound (Seven.pc s)). lia.
  - intros w o s sch Hd.
    split; [apply QuantisRunFacts.quantis_done_stays_set, Hd|]. split.
    + pose proof (QuantisRunFacts.quantis_shutdown_writes w o sch s Hd).
      pose proof (QuantisRunFacts.quantis_writes_left_bound (Quantis.pc s)).
      lia.
    + intros He. apply QuantisRunFacts.quantis_shutdown_returns; [exact Hd|].
      pose proof (QuantisRunFacts.quantis_remaining_bound (Quantis.pc s)).
      lia.
Qed.

Lemma X9_shutdown_is_honoured_witness :
  (let w := Scenario.seven_world in
   let o := Scenario.seven_opts_R in
   let s := Seven.run w o (ticks 2 ++ [Deliver SIGPIPE]) Scenario.seven_start in
   Seven.done s <> 0 /\
   Seven.pc (Seven.run w o (ticks 14) s) = Seven.L_return)
  /\
  (let w := Scenario.quantis_world in
   let o := Scenario.quantis_opts Scenario.quantis_r4 in
   let s := Quantis.run w o (ticks 6 ++ [Deliver SIGINT])
              Scenario.quantis_start in
   Quantis.done s <> 0 /\
   Quantis.pc (Quantis.run w o (ticks 19) s) = Quantis.L_return).
Proof.
  destruct X9_shutdown_is_honoured as [HS HQ]. cbv zeta.
  assert (H1 : Seven.done
                 (Seven.run Scenario.seven_world Scenario.seven_opts_R
                    (ticks 2 ++ [Deliver SIGPIPE]) Scenario.seven_start) <> 0)
    by (vm_compute; discriminate).
  assert (H2 : Quantis.done
                 (Quantis.run Scenario.quantis_world
                    (Scenario.quantis_opts Scenario.quantis_r4)
                    (ticks 6 ++ [Deliver SIGINT]) Scenario.quantis_start) <> 0)
    by (vm_compute; discriminate).
  assert (L14 : (14 <= executed (ticks 14))%nat) by (vm_compute; lia).
  assert (L19 : (19 <= executed (ticks 19))%nat) by (vm_compute; lia).
  split.
  - split; [exact H1|].
    exact (proj2 (proj2 (HS Scenario.seven_world Scenario.seven_opts_R _
                           (ticks 14) H1)) L14).
  - split; [exact H2|].
    exact (proj2 (proj2 (HQ Scenario.quantis_world
                           (Scenario.quantis_opts Scenario.quantis_r4) _
                           (ticks 19) H2)) L19).
Defined.

(** X10.  quantistool, with a library whose successful opens give a
    handle that is not null: in every run the library calls respect the
    life of a handle (the device is never opened while a handle is open,
    every read and every close is on the handle that is open), and once
    the loop has been left no handle is open. *)
Theorem X10_handle_is_opened_read_and_closed_in_order :
  forall (w : Quantis.world) (o : Quantis.options) (s0 : Quantis.state)
         (sch : list action),
  (forall n, Quantis.QUANTIS_SUCCESS w <= fst (Quantis.QuantisOpen w n) ->
             snd (Quantis.QuantisOpen w n) <> 0) ->
  Quantis.setup w o = Quantis.Entered s0 ->
  let s := Quantis.run w o sch s0 in
  QuantisRun.disciplined (Quantis.QUANTIS_SUCCESS w) None (Quantis.trace s)
    = true /\
  (Quantis.terminated s = true ->
   QuantisRun.held (Quantis.QUANTIS_SUCCESS w) None (Quantis.trace s) = None).
Proof.
  intros w o s0 sch Hc H s.
  destruct (QuantisFacts.quantis_setup_entered w o s0 H)
    as (sz & buf & evs & -> & He & _).
  destruct (QuantisRunFacts.quantis_setup_events_closed w evs He)
    as (Hh & Hd & _).
  assert (Hi : QuantisRun.handle_inv w (Quantis.enter o sz buf evs)).
  { unfold QuantisRun.handle_inv, QuantisRun.expected. cbn.
    rewrite Hh, Hd. repeat split; congruence. }
  destruct (QuantisRunFacts.quantis_handle_run w o sch _ Hc Hi)
    as (A & B & _).
  fold s in A, B. split; [exact A|].
  intros Ht. rewrite B. unfold QuantisRun.expected, Quantis.terminated in *.
  destruct (Quantis.pc s); try discriminate Ht; reflexivity.
Qed.

Lemma X10_handle_witness :
  let w := Scenario.quantis_hiccup in
  let o := Scenario.quantis_opts Scenario.quantis_r4 in
  let s := Quantis.run w o Cases.interrupted Scenario.quantis_start in
  ((forall n, Quantis.QUANTIS_SUCCESS w <= fst (Quantis.QuantisOpen w n) ->
              snd (Quantis.QuantisOpen w n) <> 0) /\
   Quantis.setup w o = Quantis.Entered Scenario.quantis_start) /\
  QuantisRun.disciplined (Quantis.QUANTIS_SUCCESS w) None (Quantis.trace s)
    = true /\
  QuantisRun.held (Quantis.QUANTIS_SUCCESS w) None (Quantis.trace s) = None.
Proof.
  cbv zeta.
  assert (Hc : forall n,
             Quantis.QUANTIS_SUCCESS Scenario.quantis_hiccup
             <= fst (Quantis.QuantisOpen Scenario.quantis_hiccup n) ->
             snd (Quantis.QuantisOpen Scenario.quantis_hiccup n) <> 0)
    by (intros n _; change (1000 + Z.of_nat n <> 0); lia).
  split; [split; [exact Hc | reflexivity]|].
  destruct (X10_handle_is_opened_read_and_closed_in_order
              Scenario.quantis_hiccup
              (Scenario.quantis_opts Scenario.quantis_r4)
              Scenario.quantis_start Cases.interrupted Hc eq_refl) as [A B].
  split; [exact A | exact (B eq_refl)].
Defined.

(** X11.  Every unit handed to the sink has the unit size (four bytes in
    seventool, the configured read size in quantistool, where the clamp
    never applies when 512 is within the maximum), and between iterations
    [total] is the number of bytes handed to the sink, as a [size_t]. *)
Theorem X11_every_unit_has_the_unit_size :
  (forall (w : Seven.world) (o : Seven.options) (s0 : Seven.state)
          (sch : list action),
     Seven.setup w o = Seven.Entered s0 ->
     let s := Seven.run w o sch s0 in
     Forall (fun u => Z.of_nat (length u) = Seven.sizeof_word)
       (Seven.wrote (Seven.trace s)) /\
     (Seven.at_boundary s = true ->
      Seven.total s = wrap (Z.of_nat (length (Seven.sink s)))))
  /\
  (forall (w : Quantis.world) (argv : list Quantis.getopt_result)
          (s0 : Quantis.state) (sch : list action),
     512 <= Quantis.QUANTIS_MAX_READ_SIZE w ->
     Quantis.main_setup w argv = Quantis.Entered s0 ->
     let o := Quantis.crack (Quantis.QUANTIS_MAX_READ_SIZE w)
                Quantis.defaults argv in
     let s := Quantis.run w o sch s0 in
     Quantis.size s = Quantis.opt_size o /\
     Forall (fun u => Z.of_nat (length u) = Quantis.size s)
       (Quantis.wrote (Quantis.trace s)) /\
     (Quantis.at_boundary s = true ->
      Quantis.total s = wrap (Z.of_nat (length (Quantis.sink s))))).
Proof.
  split.
  - intros w o s0 sch H s.
    destruct (seven_reachable w o s0 sch H) as (_ & [Br Bt] & _).
    fold s in Br, Bt.
    destruct (SevenFacts.seven_setup_entered w o s0 H) as (evs & -> & He).
    assert (Hw : Forall (fun u => length u = 4%nat)
                   (Seven.wrote (Seven.trace s))).
    { apply SevenRunFacts.seven_words_run. cbn.
      rewrite (proj1 (SevenFacts.seven_setup_events_quiet evs He)).
      constructor. }
    split.
    + eapply Forall_impl; [|exact Hw]. intros u Hu. cbn beta in Hu.
      rewrite Hu. reflexivity.
    + intros Hb. unfold Seven.sink.
      rewrite (SevenRunFacts.seven_concat_words _ Hw).
      unfold Seven.at_boundary, Seven.counted in *.
      destruct (Seven.pc s); try discriminate Hb;
        rewrite Bt, Br, wrap_mul_l; f_equal; unfold Seven.sizeof_word; lia.
  - intros w argv s0 sch Hmax H o s.
    unfold Quantis.main_setup in H. fold o in H.
    destruct (quantis_reachable w o s0 sch H) as (_ & [Br Bt] & _ & Hl).
    fold s in Br, Bt, Hl.
    destruct (QuantisFacts.fixed_run w o sch s0) as (_ & Hsz & _).
    fold s in Hsz.
    destruct (QuantisRunFacts.quantis_entered_shape w o s0 H)
      as (buf & evs & E & He & _ & _ & _ & Herr & Hz).
    assert (Hr : 0 <= Quantis.opt_size o <= Quantis.QUANTIS_MAX_READ_SIZE w).
    { apply (QuantisRunFacts.quantis_crack_error_or_accepted
               (Quantis.QUANTIS_MAX_READ_SIZE w) argv Quantis.defaults
               eq_refl); [split; [discriminate | exact Hmax] |
                          split; [discriminate | reflexivity] | exact Herr]. }
    assert (Hc : QuantisRun.clamp w o = Quantis.opt_size o).
    { unfold QuantisRun.clamp.
      destruct (Z.gtb_spec (Quantis.opt_size o)
                  (Quantis.QUANTIS_MAX_READ_SIZE w)); [lia | reflexivity]. }
    assert (Hs : Quantis.size s = Quantis.opt_size o)
      by (rewrite Hsz, E, <- Hc; reflexivity).
    assert (Hw : Forall (fun u => length u = length (Quantis.buffer s))
                   (Quantis.wrote (Quantis.trace s))).
    { apply QuantisRunFacts.quantis_units_run. rewrite E. cbn.
      rewrite (proj1 (QuantisFacts.quantis_setup_events_quiet evs He)).
      constructor. }
    split; [exact Hs|]. split.
    + eapply Forall_impl; [|exact Hw]. intros u Hu. cbn beta in Hu.
      rewrite Hu, Hl. lia.
    + intros Hb. unfold Quantis.sink.
      rewrite (QuantisRunFacts.quantis_concat_units _ _ Hw), Hl.
      unfold Quantis.at_boundary, Quantis.counted in *.
      destruct (Quantis.pc s); try discriminate Hb;
        rewrite Bt, Br, wrap_mul_l; f_equal; lia.
Qed.

Lemma X11_every_unit_witness :
  (let w := Scenario.seven_world in
   let o := Scenario.seven_opts_R in
   let s := Seven.run w o (ticks 30) Scenario.seven_start in
   (Seven.setup w o = Seven.Entered Scenario.seven_start /\
    Seven.at_boundary s = true) /\
   Seven.total s = wrap (Z.of_nat (length (Seven.sink s))))
  /\
  (let w := Scenario.quantis_world in
   let o := Quantis.crack (Quantis.QUANTIS_MAX_READ_SIZE w)
              Quantis.defaults Scenario.quantis_r4 in
   let s := Quantis.run w o (ticks 40) Scenario.quantis_start in
   (512 <= Quantis.QUANTIS_MAX_READ_SIZE w /\
    Quantis.main_setup w Scenario.quantis_r4
      = Quantis.Entered Scenario.quantis_start) /\
   Quantis.size s = 4 /\
   Forall (fun u => Z.of_nat (length u) = Quantis.size s)
     (Quantis.wrote (Quantis.trace s))).
Proof.
  destruct X11_every_unit_has_the_unit_size as [HS HQ]. cbv zeta. split.
  - split; [split; reflexivity|].
    exact (proj2 (HS Scenario.seven_world Scenario.seven_opts_R
                    Scenario.seven_start (ticks 30) eq_refl) eq_refl).
  - assert (Hm : 512 <= Quantis.QUANTIS_MAX_READ_SIZE Scenario.quantis_world)
      by discriminate.
    split; [split; [exact Hm | reflexivity]|].
    destruct (HQ Scenario.quantis_world Scenario.quantis_r4
                Scenario.quantis_start (ticks 40) Hm eq_refl) as (A & B & _).
    split; [exact A | exact B].
Defined.

(** X12.  seventool with [-R] or [-S]: only the selected instruction is
    ever executed; the units the source is counted as having delivered are
    exactly the words the instruction returned with the carry flag set, in
    order, so between iterations these are the units handed to the sink;
    and between iterations [tries] is the number of samples taken and
    there has been one sleep for each sample that failed. *)
Theorem X12_seventool_writes_what_the_instruction_delivered :
  forall (w : Seven.world) (o : Seven.options) (s0 : Seven.state)
         (sch : list action),
  Seven.opt_mode o <> Seven.FAIL ->
  Seven.setup w o = Seven.Entered s0 ->
  let s := Seven.run w o sch s0 in
  (Seven.opt_mode o <> Seven.RDRAND ->
   filter SevenRun.is_rdrand (Seven.trace s) = []) /\
  (Seven.opt_mode o <> Seven.RDSEED ->
   filter SevenRun.is_rdseed (Seven.trace s) = []) /\
  Seven.got s = SevenRun.sampled (Seven.trace s) /\
  (Seven.at_boundary s = true ->
   Seven.wrote (Seven.trace s) = SevenRun.sampled (Seven.trace s) /\
   Seven.tries s
     = wrap (Z.of_nat (length (filter Seven.is_sampling (Seven.trace s)))) /\
   length (filter SevenRun.is_nanosleep (Seven.trace s))
     = length (filter SevenRun.is_failed_sample (Seven.trace s))).
Proof.
  intros w o s0 sch Hm H s.
  destruct (seven_reachable w o s0 sch H) as (Hst & _). fold s in Hst.
  destruct (SevenFacts.seven_setup_entered w o s0 H) as (evs & -> & He).
  destruct (SevenRunFacts.seven_setup_events_silent evs He)
    as (E1 & E2 & E3 & E4 & E5 & E6 & _).
  assert (Hsel : (Seven.opt_mode o <> Seven.RDRAND ->
                  filter SevenRun.is_rdrand (Seven.trace s) = []) /\
                 (Seven.opt_mode o <> Seven.RDSEED ->
                  filter SevenRun.is_rdseed (Seven.trace s) = [])).
  { apply (SevenFacts.seven_run_invariant w o
             (fun s => (Seven.opt_mode o <> Seven.RDRAND ->
                        filter SevenRun.is_rdrand (Seven.trace s) = []) /\
                       (Seven.opt_mode o <> Seven.RDSEED ->
                        filter SevenRun.is_rdseed (Seven.trace s) = []))).
    - apply SevenRunFacts.seven_only_selected_step.
    - intros n s1 K. unfold Seven.handler.
      destruct (n =? SIGPIPE), (n =? SIGINT), (n =? SIGHUP); destruct s1;
        exact K.
    - cbn. split; intros _; assumption. }
  assert (Hinv : SevenRun.sampling_inv s).
  { apply (SevenFacts.seven_run_invariant w o SevenRun.sampling_inv).
    - intros s1. apply SevenRunFacts.seven_sampling_step, Hm.
    - apply SevenRunFacts.seven_sampling_handler.
    - unfold SevenRun.sampling_inv, SevenRun.try_due, SevenRun.sleep_due.
      cbn. rewrite E1, E2, E3, E4. repeat split; reflexivity. }
  destruct Hinv as (Hg & Ht & Hsl).
  split; [exact (proj1 Hsel)|]. split; [exact (proj2 Hsel)|].
  split; [exact Hg|].
  intros Hb. rewrite <- Hg, Hst, (SevenFacts.seven_inflight_boundary _ Hb),
    app_nil_r.
  unfold Seven.at_boundary, SevenRun.try_due, SevenRun.sleep_due in *.
  destruct (Seven.pc s); try discriminate Hb;
    rewrite Z.add_0_r in Ht; rewrite Nat.add_0_r in Hsl;
    repeat split; assumption.
Qed.

Lemma X12_seventool_writes_witness :
  let w := Scenario.seven_busy in
  let o := Scenario.seven_opts_R in
  let s := Seven.run w o (ticks 16) Scenario.seven_start in
  (Seven.opt_mode o <> Seven.FAIL /\
   Seven.setup w o = Seven.Entered Scenario.seven_start /\
   Seven.at_boundary s = true) /\
  Seven.wrote (Seven.trace s) = [bytes_of_word 0x1234ABCD] /\
  Seven.wrote (Seven.trace s) = SevenRun.sampled (Seven.trace s) /\
  Seven.tries s = 2 /\
  length (filter SevenRun.is_nanosleep (Seven.trace s)) = 1%nat.
Proof.
  cbv zeta.
  assert (Hm : Seven.opt_mode Scenario.seven_opts_R <> Seven.FAIL)
    by discriminate.
  split; [split; [exact Hm | split; reflexivity]|].
  destruct (X12_seventool_writes_what_the_instruction_delivered
              Scenario.seven_busy Scenario.seven_opts_R Scenario.seven_start
              (ticks 16) Hm eq_refl) as (_ & _ & _ & B).
  destruct (B eq_refl) as (B1 & B2 & B3).
  split; [reflexivity|]. split; [exact B1|]. split; [exact B2|].
  rewrite B3. reflexivity.
Defined.

(** X13.  Without [-d], a statistics line is printed only for a SIGHUP:
    in every run of either tool the lines printed are at most as many as
    the SIGHUPs delivered since the loop was entered. *)
Theorem X13_reports_need_sighups :
  (forall (w : Seven.world) (o : Seven.options) (s0 : Seven.state)
          (sch : list action),
     Seven.debug o = 0 ->
     Seven.setup w o = Seven.Entered s0 ->
     (length (filter Seven.is_stats (Seven.trace (Seven.run w o sch s0)))
      <= hups sch)%nat)
  /\
  (forall (w : Quantis.world) (o : Quantis.options) (s0 : Quantis.state)
          (sch : list action),
     Quantis.debug o = 0 ->
     Quantis.setup w o = Quantis.Entered s0 ->
     (length (filter Quantis.is_stats (Quantis.trace (Quantis.run w o sch s0)))
      <= hups sch)%nat).
Proof.
  split.
  - intros w o s0 sch Hd H.
    destruct (SevenFacts.seven_setup_entered w o s0 H) as (evs & -> & He).
    destruct (SevenRunFacts.seven_setup_events_silent evs He)
      as (_ & _ & _ & _ & _ & _ & Es & _).
    pose proof (SevenRunFacts.seven_reports_run w o sch
                  (Seven.enter o evs) Hd) as K.
    unfold SevenRun.report_due at 2 in K. cbn in K. rewrite Es in K.
    simpl in K. lia.
  - intros w o s0 sch Hd H.
    destruct (QuantisFacts.quantis_setup_entered w o s0 H)
      as (sz & buf & evs & -> & He & _).
    destruct (QuantisRunFacts.quantis_setup_events_closed w evs He)
      as (_ & _ & _ & _ & Es).
    pose proof (QuantisRunFacts.quantis_reports_run w o sch
                  (Quantis.enter o sz buf evs) Hd) as K.
    unfold QuantisRun.report_due at 2 in K. cbn in K. rewrite Es in K.
    simpl in K. lia.
Qed.

Lemma X13_reports_need_sighups_witness :
  (let w := Scenario.seven_world in
   let o := Scenario.seven_opts_R in
   (Seven.debug o = 0 /\
    Seven.setup w o = Seven.Entered Scenario.seven_start) /\
   hups Cases.three_hups = 3%nat /\
   (length (filter Seven.is_stats
              (Seven.trace (Seven.run w o Cases.three_hups
                              Scenario.seven_start))) <= 3)%nat)
  /\
  (let w := Scenario.quantis_world in
   let o := Scenario.quantis_opts Scenario.quantis_r4 in
   (Quantis.debug o = 0 /\
    Quantis.setup w o = Quantis.Entered Scenario.quantis_start) /\
   (length (filter Quantis.is_stats
              (Quantis.trace (Quantis.run w o Cases.three_hups
                                Scenario.quantis_start))) <= 3)%nat).
Proof.
  destruct X13_reports_need_sighups as [HS HQ]. cbv zeta. split.
  - split; [split; reflexivity|]. split; [reflexivity|].
    exact (HS Scenario.seven_world Scenario.seven_opts_R Scenario.seven_start
             Cases.three_hups eq_refl eq_refl).
  - split; [split; reflexivity|].
    exact (HQ Scenario.quantis_world
             (Scenario.quantis_opts Scenario.quantis_r4)
             Scenario.quantis_start Cases.three_hups eq_refl eq_refl).
Defined.

(** X14.  seventool, about to call [fwrite], and a write that falls short:
    whatever signals arrive, after two more statements the loop has been
    left for good; the unit was handed to [fwrite] once and nothing is
    written or sampled afterwards, and [reads] and [total] keep counting
    it. *)
Theorem X14_seventool_short_write_ends_the_loop :
  forall (w : Seven.world) (o : Seven.options) (s : Seven.state)
         (sch : list action),
  Seven.pc s = Seven.L_fwrite -> Seven.fwrite w (Seven.clock s) < 1 ->
  (2 <= executed sch)%nat ->
  let s' := Seven.run w o sch s in
  Seven.terminated s' = true /\
  Seven.wrote (Seven.trace s')
    = Seven.wrote (Seven.trace s) ++ [bytes_of_word (Seven.word s)] /\
  filter Seven.is_sampling (Seven.trace s')
    = filter Seven.is_sampling (Seven.trace s) /\
  Seven.reads s' = Seven.reads s /\ Seven.total s' = Seven.total s.
Proof.
  intros w o s sch Hpc Hshort Hexec.
  exact (SevenFacts.seven_short_write_is_final w o s sch Hpc Hshort Hexec).
Qed.

Lemma X14_seventool_short_write_witness :
  let w := Cases.seven_short_write in
  let o := Scenario.seven_opts_R in
  let s := Seven.run w o (ticks 7) Scenario.seven_start in
  let s' := Seven.run w o (ticks 9) s in
  (Seven.pc s = Seven.L_fwrite /\ Seven.fwrite w (Seven.clock s) < 1 /\
   (2 <= executed (ticks 9))%nat) /\
  Seven.terminated s' = true /\
  Seven.wrote (Seven.trace s') = [bytes_of_word 0x1234ABCD].
Proof.
  cbv zeta.
  assert (L : (2 <= executed (ticks 9))%nat) by (vm_compute; lia).
  split; [split; [reflexivity | split; [reflexivity | exact L]]|].
  destruct (X14_seventool_short_write_ends_the_loop
              Cases.seven_short_write Scenario.seven_opts_R
              (Seven.run Cases.seven_short_write Scenario.seven_opts_R
                 (ticks 7) Scenario.seven_start)
              (ticks 9) eq_refl eq_refl L) as (A & B & _).
  split; [exact A | exact B].
Defined.

(** X15.  When [main] returns after the work loop, the output stream has
    been closed exactly once and, in quantistool, the one buffer that was
    allocated has been freed exactly once; neither happens before the loop
    is left. *)
Theorem X15_released_on_return :
  (forall (w : Seven.world) (o : Seven.options) (s0 : Seven.state)
          (sch : list action),
     Seven.setup w o = Seven.Entered s0 ->
     let s := Seven.run w o sch s0 in
     length (filter SevenRun.is_fclose (Seven.trace s))
       = match Seven.pc s with Seven.L_return => 1%nat | _ => 0%nat end)
  /\
  (forall (w : Quantis.world) (o : Quantis.options) (s0 : Quantis.state)
          (sch : list action),
     Quantis.setup w o = Quantis.Entered s0 ->
     let s := Quantis.run w o sch s0 in
     length (filter QuantisRun.is_allocation (Quantis.trace s)) = 1%nat /\
     length (filter QuantisRun.is_fclose (Quantis.trace s))
       = match Quantis.pc s with
         | Quantis.L_free | Quantis.L_return => 1%nat
         | _ => 0%nat
         end /\
     length (filter QuantisRun.is_free (Quantis.trace s))
       = match Quantis.pc s with Quantis.L_return => 1%nat | _ => 0%nat end).
Proof.
  split.
  - intros w o s0 sch H s.
    destruct (SevenFacts.seven_setup_entered w o s0 H) as (evs & -> & He).
    destruct (SevenRunFacts.seven_setup_events_silent evs He)
      as (_ & _ & _ & _ & _ & _ & _ & Ec & _).
    apply SevenRunFacts.seven_closed_run. cbn. rewrite Ec. reflexivity.
  - intros w o s0 sch H s.
    destruct (QuantisRunFacts.quantis_entered_shape w o s0 H)
      as (buf & evs & -> & He & _ & Ha & Hf & _).
    destruct (QuantisRunFacts.quantis_setup_events_closed w evs He)
      as (_ & _ & Ec & Er & _).
    assert (Hi : QuantisRun.released_inv
                   (Quantis.enter o (QuantisRun.clamp w o) buf evs)).
    { unfold QuantisRun.released_inv. cbn. rewrite Ha, Hf, Ec, Er.
      repeat split; reflexivity. }
    destruct (QuantisRunFacts.quantis_released_run w o sch _ Hi)
      as (A & _ & B & C).
    split; [exact A | split; [exact B | exact C]].
Qed.

Lemma X15_released_on_return_witness :
  (let w := Scenario.seven_world in
   let o := Scenario.seven_opts_R in
   let s := Seven.run w o Cases.interrupted Scenario.seven_start in
   Seven.setup w o = Seven.Entered Scenario.seven_start /\
   Seven.pc s = Seven.L_return /\
   length (filter SevenRun.is_fclose (Seven.trace s)) = 1%nat)
  /\
  (let w := Scenario.quantis_world in
   let o := Scenario.quantis_opts Scenario.quantis_r4 in
   let s := Quantis.run w o Cases.interrupted Scenario.quantis_start in
   Quantis.setup w o = Quantis.Entered Scenario.quantis_start /\
   Quantis.pc s = Quantis.L_return /\
   length (filter QuantisRun.is_fclose (Quantis.trace s)) = 1%nat /\
   length (filter QuantisRun.is_free (Quantis.trace s)) = 1%nat).
Proof.
  destruct X15_released_on_return as [HS HQ]. cbv zeta. split.
  - split; [reflexivity|]. split; [reflexivity|].
    rewrite (HS Scenario.seven_world Scenario.seven_opts_R
               Scenario.seven_start Cases.interrupted eq_refl).
    reflexivity.
  - split; [reflexivity|]. split; [reflexivity|].
    destruct (HQ Scenario.quantis_world
                (Scenario.quantis_opts Scenario.quantis_r4)
                Scenario.quantis_start Cases.interrupted eq_refl)
      as (_ & B & C).
    rewrite B, C. split; reflexivity.
Defined.
